(** * Multi-signal risk/opportunity fusion engine: a shallow embedding

    The analyzers of the token-scoring bot (wallet quality, LP health,
    seller exhaustion, jeeter-zone detector and the three-layer combiner)
    are transcribed function by function, and the properties the
    specification states about them are proved or refuted on the
    transcription.

    Numbers.  A JavaScript [number] is modelled by [num]: the three
    special values NaN, +Infinity and -Infinity and the finite values,
    which are carried as exact rationals.  Rounding of finite doubles,
    overflow of a finite result to an infinity, underflow and the sign of
    zero are not modelled; every operation follows the IEEE-754 rules of
    the language for the special values (NaN is absorbing, every
    comparison with NaN is false, x/0 is an infinity or NaN,
    Infinity - Infinity and 0 * Infinity are NaN).  A property whose
    truth on doubles needs the finite results to stay in the normal
    range states that range as a hypothesis. *)

From Stdlib Require Import ZArith QArith Qround Qabs Qminmax Lia Lqa Bool List String.
From stdpp Require Import base option gmap strings list fin_maps.

Local Open Scope Z_scope.

(* ================================================================== *)
(** ** JavaScript numbers *)
(* ================================================================== *)

Inductive num : Type :=
| NaN
| PInf
| NInf
| Fin (q : Q).

Definition of_Z (z : Z) : num := Fin (inject_Z z).
Definition of_nat (n : nat) : num := of_Z (Z.of_nat n).

Declare Scope num_scope.
Delimit Scope num_scope with num.
Bind Scope num_scope with num.

(** Sign of a rational, as a [comparison] with zero. *)
Definition Qsign (q : Q) : comparison := (q ?= 0)%Q.

Definition n_neg (a : num) : num :=
  match a with
  | NaN => NaN
  | PInf => NInf
  | NInf => PInf
  | Fin q => Fin (- q)%Q
  end.

(** [a + b].  Two finite operands are added exactly: the sum is neither
    rounded nor turned into an infinity when it leaves the range of the
    doubles. *)
Definition n_add (a b : num) : num :=
  match a, b with
  | NaN, _ | _, NaN => NaN
  | PInf, NInf | NInf, PInf => NaN
  | PInf, _ | _, PInf => PInf
  | NInf, _ | _, NInf => NInf
  | Fin x, Fin y => Fin (x + y)%Q
  end.

Definition n_sub (a b : num) : num := n_add a (n_neg b).

(** An infinity of the sign [s] (NaN for the sign of zero). *)
Definition inf_of_sign (s : comparison) : num :=
  match s with
  | Gt => PInf
  | Lt => NInf
  | Eq => NaN
  end.

(** [a * b].  Two finite operands are multiplied exactly: the product
    is neither rounded nor flushed to 0 or to an infinity. *)
Definition n_mul (a b : num) : num :=
  match a, b with
  | NaN, _ | _, NaN => NaN
  | PInf, PInf | NInf, NInf => PInf
  | PInf, NInf | NInf, PInf => NInf
  | PInf, Fin y | Fin y, PInf => inf_of_sign (Qsign y)
  | NInf, Fin y | Fin y, NInf => inf_of_sign (CompOpp (Qsign y))
  | Fin x, Fin y => Fin (x * y)%Q
  end.

Definition n_div (a b : num) : num :=
  match a, b with
  | NaN, _ | _, NaN => NaN
  | (PInf | NInf), (PInf | NInf) => NaN
  | PInf, Fin y => match Qsign y with Lt => NInf | _ => PInf end
  | NInf, Fin y => match Qsign y with Lt => PInf | _ => NInf end
  | Fin _, (PInf | NInf) => Fin 0
  | Fin x, Fin y =>
      match Qsign y with
      | Eq => inf_of_sign (Qsign x)
      | _ => Fin (x / y)%Q
      end
  end.

Definition Qltb (x y : Q) : bool :=
  match (x ?= y)%Q with Lt => true | _ => false end.

(** [a < b] *)
Definition n_lt (a b : num) : bool :=
  match a, b with
  | NaN, _ | _, NaN => false
  | _, NInf => false
  | PInf, _ => false
  | NInf, _ => true
  | _, PInf => true
  | Fin x, Fin y => Qltb x y
  end.

(** [a <= b] *)
Definition n_le (a b : num) : bool :=
  match a, b with
  | NaN, _ | _, NaN => false
  | NInf, _ => true
  | _, PInf => true
  | _, NInf => false
  | PInf, _ => false
  | Fin x, Fin y => Qle_bool x y
  end.

(** [a > b] and [a >= b] *)
Definition n_gt (a b : num) : bool := n_lt b a.
Definition n_ge (a b : num) : bool := n_le b a.

(** [a === b] on numbers *)
Definition n_eq (a b : num) : bool :=
  match a, b with
  | PInf, PInf | NInf, NInf => true
  | Fin x, Fin y => Qeq_bool x y
  | _, _ => false
  end.

Definition isNaN (a : num) : bool :=
  match a with NaN => true | _ => false end.

(** Truthiness of a number: false for 0 and NaN. *)
Definition truthy (a : num) : bool :=
  match a with
  | NaN => false
  | Fin q => negb (Qeq_bool q 0)
  | _ => true
  end.

Definition Math_max (a b : num) : num :=
  match a, b with
  | NaN, _ | _, NaN => NaN
  | _, _ => if n_lt a b then b else a
  end.

Definition Math_min (a b : num) : num :=
  match a, b with
  | NaN, _ | _, NaN => NaN
  | _, _ => if n_lt b a then b else a
  end.

Definition Math_abs (a : num) : num :=
  match a with
  | NaN => NaN
  | PInf | NInf => PInf
  | Fin q => Fin (Qabs q)
  end.

(** [Math.round]: the nearest integer, halves towards +Infinity. *)
Definition Math_round (a : num) : num :=
  match a with
  | Fin q => of_Z (Qfloor (q + (1 # 2))%Q)
  | _ => a
  end.

(** [Math.floor] *)
Definition Math_floor (a : num) : num :=
  match a with
  | Fin q => of_Z (Qfloor q)
  | _ => a
  end.

(** [Math.pow(a, 2)] *)
Definition Math_pow2 (a : num) : num := n_mul a a.

Infix "+" := n_add : num_scope.
Infix "-" := n_sub : num_scope.
Infix "*" := n_mul : num_scope.
Infix "/" := n_div : num_scope.
Infix "<?" := n_lt : num_scope.
Infix "<=?" := n_le : num_scope.
Infix ">?" := n_gt : num_scope.
Infix ">=?" := n_ge : num_scope.
Infix "=?" := n_eq : num_scope.

(** [x || d] for an optional number: [d] when [x] is absent, 0 or NaN. *)
Definition num_or (x : option num) (d : num) : num :=
  match x with
  | Some v => if truthy v then v else d
  | None => d
  end.

(** [x ?? d] for an optional number. *)
Definition num_nullish (x : option num) (d : num) : num :=
  match x with
  | Some v => v
  | None => d
  end.

(** [x && (x cmp k)] used as a condition, for an optional number. *)
Definition num_and (x : option num) (p : num -> bool) : bool :=
  match x with
  | Some v => truthy v && p v
  | None => false
  end.

(** [x !== undefined && (x cmp k)] *)
Definition num_defined_and (x : option num) (p : num -> bool) : bool :=
  match x with
  | Some v => p v
  | None => false
  end.

Definition n_or (v d : num) : num := if truthy v then v else d.

(** [Array.prototype.slice(start, end)] with the language's treatment of
    negative and out-of-range indices; [None] is an omitted [end]. *)
Definition slice_index (len : nat) (i : Z) : nat :=
  if i <? 0 then Z.to_nat (Z.max 0 (Z.of_nat len + i))
  else Nat.min (Z.to_nat i) len.

Definition js_slice {A} (l : list A) (start : Z) (stop : option Z) : list A :=
  let len := length l in
  let s := slice_index len start in
  let e := match stop with Some k => slice_index len k | None => len end in
  firstn (e - s) (skipn s l).

(** Sum of a list of numbers: [xs.reduce((s, v) => s + v, 0)]. *)
Definition sum_nums (xs : list num) : num :=
  fold_left n_add xs (of_Z 0).

(* ================================================================== *)
(** ** Data model (types/token.types.ts, types/transaction.types.ts) *)
(* ================================================================== *)

Inductive TxType := buy | sell.

(** [timestamp] is a [Date]; it is carried as the value of [getTime()]. *)
Record TransactionInfo := {
  signature : string;
  timestamp : num;
  type : TxType;
  amount : num;
  price : option num
}.

Record HolderInfo := {
  address : string;
  balance : num;
  percentage : num;
  firstSeen : option num;
  lastSeen : option num;
  transactionCount : option num;
  buyTransactions : option (list TransactionInfo);
  sellTransactions : option (list TransactionInfo);
  averageHoldTime : option num;
  isJeeter : option bool;
  jeeterScore : option num;
  isBundle : option bool
}.

Record TokenInfo := {
  tokenAddress : string;
  symbol : option string;
  name : option string;
  decimals : num;
  supply : num;
  marketCap : option num;
  tokenPrice : option num;
  liquidity : option num
}.

Record MevPatterns := {
  detected : bool;
  sandwichAttacks : num;
  frontRunning : num;
  botLikeBehavior : num;
  mevScore : num
}.

(** The fields of [TransactionAnalysis] that are numbers or the MEV
    record; the lists of raw transactions and wallets, which no analyzer
    below reads, are left out. *)
Record TransactionAnalysis := {
  buySellRatio : num;
  buyVolume : num;
  sellVolume : num;
  totalVolume : num;
  buySellRatio5m : num;
  buySellRatio15m : num;
  buySellRatio1h : num;
  buySellRatio24h : num;
  largeBuyCount : num;
  largeSellCount : num;
  mevPatterns : MevPatterns;
  txTransactionCount : num;
  transactionsPerMinute : num;
  averageTransactionSize : num;
  averagePriceImpact : num;
  highImpactTransactions : num
}.

Record PricePoint := {
  pp_price : num;
  pp_timestamp : num
}.

(* ================================================================== *)
(** ** analyzers/wallet-quality.analyzer.ts *)
(* ================================================================== *)

Inductive WalletCategory :=
| sniper
| jeeter
| weak_hands
| strong_hands
| whale
| mev_bot
| router_arbitrage_bot
| unknown.

#[global] Instance WalletCategory_eq_dec : EqDecision WalletCategory.
Proof. solve_decision. Defined.

Definition category_index (c : WalletCategory) : nat :=
  match c with
  | sniper => 0 | jeeter => 1 | weak_hands => 2 | strong_hands => 3
  | whale => 4 | mev_bot => 5 | router_arbitrage_bot => 6 | unknown => 7
  end%nat.

Definition category_of_index (n : nat) : option WalletCategory :=
  match n with
  | 0 => Some sniper | 1 => Some jeeter | 2 => Some weak_hands
  | 3 => Some strong_hands | 4 => Some whale | 5 => Some mev_bot
  | 6 => Some router_arbitrage_bot | 7 => Some unknown
  | _ => None
  end%nat.

#[global] Instance WalletCategory_countable : Countable WalletCategory.
Proof.
  refine (inj_countable category_index category_of_index _).
  intros []; reflexivity.
Defined.

Definition category_eqb (a b : WalletCategory) : bool :=
  bool_decide (a = b).

(** A reason is a fixed text, except the whale's, which quotes the
    holder's percentage (formatted by [toFixed(2)] in the source). *)
Inductive Reason :=
| Text (s : string)
| LargeHolder (pct : num).

Record WalletQualityScore := {
  category : WalletCategory;
  score : num;
  confidence : num;
  reasons : list Reason
}.

Record WalletQualityAnalysis := {
  walletScores : gmap string WalletQualityScore;
  categoryDistribution : gmap WalletCategory num;
  wq_averageHoldTime : num;
  averageSellBuyRatio : num;
  highQualityWalletCount : num;
  jeeterDominance : bool;
  sniperDominance : bool;
  overallQualityScore : num
}.

Module WalletQualityAnalyzer.

(** [sells.find(sell => sell.t > buy.t && sell.t - buy.t < 2*60*1000)] *)
Definition quickSell (sells : list TransactionInfo) (b : TransactionInfo)
  : option TransactionInfo :=
  List.find
    (fun s => n_gt (timestamp s) (timestamp b)
              && n_lt (n_sub (timestamp s) (timestamp b)) (of_Z (2 * 60 * 1000)))
    sells.

Definition isSniper (holder : HolderInfo) : bool :=
  if num_defined_and (averageHoldTime holder) (fun t => n_lt t (of_Z 5))
     && num_and (transactionCount holder) (fun c => n_gt c (of_Z 10))
  then true
  else
    match buyTransactions holder, sellTransactions holder with
    | Some buys, Some sells =>
        let quickRoundTrips :=
          List.filter (fun b => bool_decide (is_Some (quickSell sells b))) buys in
        if (3 <? length quickRoundTrips)%nat then true else false
    | _, _ => false
    end.

Definition isMEVBot (holder : HolderInfo) : bool :=
  if num_and (transactionCount holder) (fun c => n_gt c (of_Z 50)) then true
  else
    match buyTransactions holder with
    | Some buys =>
        if (20 <? length buys)%nat
           && num_defined_and (averageHoldTime holder) (fun t => n_lt t (of_Z 1))
        then true else false
    | None => false
    end.

Definition isStrongHands (holder : HolderInfo) : bool :=
  let longAndLowSell :=
    match averageHoldTime holder, sellTransactions holder, buyTransactions holder with
    | Some t, Some sells, Some buys =>
        n_gt t (of_Z 120)
        && n_lt (n_div (of_nat (length sells)) (of_nat (length buys))) (Fin 0.3)
    | _, _, _ => false
    end in
  if longAndLowSell then true
  else
    if num_defined_and (averageHoldTime holder) (fun t => n_gt t (of_Z 60))
       && match sellTransactions holder with
          | None => true
          | Some sells => (length sells =? 0)%nat
          end
    then true else false.

Definition isWeakHands (holder : HolderInfo) : bool :=
  match averageHoldTime holder, sellTransactions holder, buyTransactions holder with
  | Some t, Some sells, Some buys =>
      n_lt t (of_Z 30)
      && n_gt (n_div (of_nat (length sells)) (of_nat (length buys))) (Fin 0.7)
  | _, _, _ => false
  end.

(** [holder.isJeeter || (holder.jeeterScore && holder.jeeterScore > 50)] *)
Definition jeeterFlagged (holder : HolderInfo) : bool :=
  match isJeeter holder with
  | Some true => true
  | _ => num_and (jeeterScore holder) (fun s => n_gt s (of_Z 50))
  end.

Definition classifyWallet (holder : HolderInfo) : WalletQualityScore :=
  if isSniper holder then
    {| category := sniper; score := of_Z 20; confidence := of_Z 70;
       reasons := [Text "Sniper pattern detected"] |}
  else if jeeterFlagged holder then
    {| category := jeeter; score := of_Z 10; confidence := of_Z 80;
       reasons := [Text "Jeeter behavior detected"] |}
  else if isMEVBot holder then
    {| category := mev_bot; score := of_Z 15; confidence := of_Z 60;
       reasons := [Text "MEV bot pattern detected"] |}
  else if n_gt (percentage holder) (of_Z 5) then
    if num_and (averageHoldTime holder) (fun t => n_gt t (of_Z 60)) then
      {| category := whale; score := of_Z 85; confidence := of_Z 80;
         reasons := [LargeHolder (percentage holder); Text "Long hold time"] |}
    else if num_and (averageHoldTime holder) (fun t => n_lt t (of_Z 10)) then
      {| category := whale; score := of_Z 40; confidence := of_Z 80;
         reasons := [LargeHolder (percentage holder); Text "Quick exits"] |}
    else
      {| category := whale; score := of_Z 70; confidence := of_Z 80;
         reasons := [LargeHolder (percentage holder)] |}
  else if isStrongHands holder then
    {| category := strong_hands; score := of_Z 80; confidence := of_Z 75;
       reasons := [Text "Strong hands pattern"] |}
  else if isWeakHands holder then
    {| category := weak_hands; score := of_Z 30; confidence := of_Z 70;
       reasons := [Text "Weak hands pattern"] |}
  else
    {| category := unknown; score := of_Z 50; confidence := of_Z 30;
       reasons := [Text "Insufficient data"] |}.

Definition categories : list WalletCategory :=
  [sniper; jeeter; weak_hands; strong_hands; whale; mev_bot;
   router_arbitrage_bot; unknown].

(** [categories.forEach(cat => categoryDistribution.set(cat, 0))] *)
Definition initialDistribution : gmap WalletCategory num :=
  fold_left (fun m cat => <[cat := of_Z 0]> m) categories ∅.

(** [categoryDistribution.get(cat) || 0] *)
Definition getCount (m : gmap WalletCategory num) (cat : WalletCategory) : num :=
  num_or (m !! cat) (of_Z 0).

(** One iteration of the loop over the holders. *)
Definition classifyStep
    (st : gmap string WalletQualityScore * gmap WalletCategory num)
    (holder : HolderInfo)
  : gmap string WalletQualityScore * gmap WalletCategory num :=
  let '(walletScores, categoryDistribution) := st in
  let score := classifyWallet holder in
  let walletScores := <[address holder := score]> walletScores in
  let currentCount := getCount categoryDistribution (category score) in
  (walletScores,
   <[category score := n_add currentCount (of_Z 1)]> categoryDistribution).

Definition classifyAll (holders : list HolderInfo)
  : gmap string WalletQualityScore * gmap WalletCategory num :=
  fold_left classifyStep holders (∅, initialDistribution).

(** [(h.sellTransactions?.length || 0) / (h.buyTransactions?.length || 1)]
    over the holders that carry both lists. *)
Definition sellBuyRatiosOf (holders : list HolderInfo) : list num :=
  flat_map
    (fun h =>
       match sellTransactions h, buyTransactions h with
       | Some sells, Some buys =>
           let sellCount := length sells in
           let buyCount := if (length buys =? 0)%nat then 1%nat else length buys in
           [n_div (of_nat sellCount) (of_nat buyCount)]
       | _, _ => []
       end)
    holders.

Definition isHighQuality (s : WalletQualityScore) : bool :=
  category_eqb (category s) strong_hands || category_eqb (category s) whale.

Definition analyze (holders : list HolderInfo) : WalletQualityAnalysis :=
  let '(walletScores, categoryDistribution) := classifyAll holders in
  if (length holders =? 0)%nat then
    {| walletScores := walletScores;
       categoryDistribution := categoryDistribution;
       wq_averageHoldTime := of_Z 0;
       averageSellBuyRatio := of_Z 0;
       highQualityWalletCount := of_Z 0;
       jeeterDominance := false;
       sniperDominance := false;
       overallQualityScore := of_Z 0 |}
  else
    let averageHoldTime :=
      n_div
        (fold_left (fun sum h => n_add sum (num_or (averageHoldTime h) (of_Z 0)))
                   holders (of_Z 0))
        (of_nat (length holders)) in
    let sellBuyRatios := sellBuyRatiosOf holders in
    let averageSellBuyRatio :=
      if (0 <? length sellBuyRatios)%nat
      then n_div (sum_nums sellBuyRatios) (of_nat (length sellBuyRatios))
      else of_Z 0 in
    let highQualityWallets :=
      length (List.filter isHighQuality (map snd (map_to_list walletScores))) in
    let jeeterCount := getCount categoryDistribution jeeter in
    let sniperCount := getCount categoryDistribution sniper in
    let totalWallets := of_nat (length holders) in
    let jeeterDominance :=
      n_gt totalWallets (of_Z 0) && n_gt (n_div jeeterCount totalWallets) (Fin 0.4) in
    let sniperDominance :=
      n_gt totalWallets (of_Z 0) && n_gt (n_div sniperCount totalWallets) (Fin 0.3) in
    let strongHandsCount := getCount categoryDistribution strong_hands in
    let whaleCount := getCount categoryDistribution whale in
    let overallQualityScore :=
      if n_gt totalWallets (of_Z 0) then
        n_sub
          (n_sub
             (n_mul (n_div (n_add strongHandsCount whaleCount) totalWallets) (of_Z 100))
             (n_mul (n_div jeeterCount totalWallets) (of_Z 50)))
          (n_mul (n_div sniperCount totalWallets) (of_Z 30))
      else of_Z 0 in
    {| walletScores := walletScores;
       categoryDistribution := categoryDistribution;
       wq_averageHoldTime := averageHoldTime;
       averageSellBuyRatio := averageSellBuyRatio;
       highQualityWalletCount := of_nat highQualityWallets;
       jeeterDominance := jeeterDominance;
       sniperDominance := sniperDominance;
       overallQualityScore :=
         Math_max (of_Z 0) (Math_min (of_Z 100) overallQualityScore) |}.

End WalletQualityAnalyzer.

(* ================================================================== *)
(** ** analyzers/lp-health.analyzer.ts *)
(* ================================================================== *)

Inductive LiquidityStability := stable | decreasing | increasing | volatile.

Record LPHealthSignals := {
  liquidityAmount : num;
  liquidityStability : LiquidityStability;
  lpRatio : num;
  isHealthy : bool;
  healthScore : num;
  risks : list string
}.

Module LPHealthAnalyzer.

Definition analyze (tokenInfo : TokenInfo) : LPHealthSignals :=
  let liquidity := num_or (liquidity tokenInfo) (of_Z 0) in
  let marketCap := num_or (marketCap tokenInfo) (of_Z 0) in
  let lpRatio :=
    if n_gt marketCap (of_Z 0) then n_div liquidity marketCap else of_Z 0 in
  let risks : list string := [] in
  let score := of_Z 100 in
  (* 1. absolute liquidity amount *)
  let '(risks, score) :=
    if n_lt liquidity (of_Z 5000) then
      (risks ++ ["LP too thin (<$5k)"], n_sub score (of_Z 40))
    else if n_lt liquidity (of_Z 10000) then
      (risks ++ ["LP low (<$10k)"], n_sub score (of_Z 20))
    else if n_lt liquidity (of_Z 50000) then
      (risks ++ ["LP moderate"], n_sub score (of_Z 10))
    else (risks, score) in
  (* 2. LP to market cap ratio *)
  let '(risks, score) :=
    if n_gt lpRatio (of_Z 0) then
      if n_lt lpRatio (Fin 0.05) then
        (risks ++ ["LP/MC ratio too low (<5%)"], n_sub score (of_Z 30))
      else if n_lt lpRatio (Fin 0.1) then
        (risks ++ ["LP/MC ratio low (<10%)"], n_sub score (of_Z 15))
      else if n_gt lpRatio (Fin 0.5) then
        (risks ++ ["LP/MC ratio suspiciously high (>50%)"], n_sub score (of_Z 10))
      else (risks, score)
    else (risks, score) in
  (* 3. market cap without liquidity *)
  let '(risks, score) :=
    if n_gt marketCap (of_Z 0) && n_eq liquidity (of_Z 0) then
      (risks ++ ["No liquidity detected"], of_Z 0)
    else (risks, score) in
  let healthScore := Math_max (of_Z 0) (Math_min (of_Z 100) score) in
  {| liquidityAmount := liquidity;
     liquidityStability := stable;
     lpRatio := lpRatio;
     isHealthy := n_ge healthScore (of_Z 60);
     healthScore := healthScore;
     risks := risks |}.

End LPHealthAnalyzer.

(* ================================================================== *)
(** ** analyzers/seller-exhaustion.analyzer.ts *)
(* ================================================================== *)

Record SellerExhaustionSignals := {
  decreasingSellVolume : bool;
  decreasingSellFrequency : bool;
  sellerDominanceCollapse : bool;
  finalLargeSellerExit : bool;
  mevInactivity : bool;
  tightPriceRange : bool;
  volatilityCollapse : bool;
  exhaustionScore : num;
  isBottomSignal : bool
}.

(** The values [f prev cur] over the consecutive pairs of a list: the
    body of [for (let i = 1; i < xs.length; i++) push(f(xs[i-1], xs[i]))]. *)
Fixpoint consecutive {A B} (f : A -> A -> B) (xs : list A) : list B :=
  match xs with
  | prev :: (cur :: _) as rest => f prev cur :: consecutive f rest
  | _ => []
  end.

Module SellerExhaustionAnalyzer.
Section WithSqrt.

(** [Math.sqrt], the one primitive of the host that has no rational
    model; the analyzer is transcribed for an arbitrary one. *)
Variable Math_sqrt : num -> num.

Definition estimateSellVolume15m (analysis : TransactionAnalysis) : num :=
  let buyRatio15m := buySellRatio15m analysis in
  let totalVolume15m := n_mul (totalVolume analysis) (Fin 0.25) in
  n_mul totalVolume15m (n_sub (of_Z 1) buyRatio15m).

Definition calculatePriceVolatility (priceHistory : list PricePoint) : num :=
  if (length priceHistory <? 2)%nat then of_Z 1
  else
    let prices := map pp_price priceHistory in
    let changes :=
      consecutive (fun prev cur => Math_abs (n_div (n_sub cur prev) prev)) prices in
    let avgChange := n_div (sum_nums changes) (of_nat (length changes)) in
    let variance :=
      n_div
        (fold_left (fun sum c => n_add sum (Math_pow2 (n_sub c avgChange)))
                   changes (of_Z 0))
        (of_nat (length changes)) in
    let stdDev := Math_sqrt variance in
    stdDev.

Definition calculateVolatilityTrend (priceHistory : list PricePoint) : num :=
  if (length priceHistory <? 10)%nat then of_Z 0
  else
    let midPoint := Z.of_nat (length priceHistory / 2) in
    let recent := js_slice priceHistory midPoint None in
    let earlier := js_slice priceHistory 0 (Some midPoint) in
    let recentVolatility := calculatePriceVolatility recent in
    let earlierVolatility := calculatePriceVolatility earlier in
    if n_eq earlierVolatility (of_Z 0) then of_Z 0
    else n_div (n_sub recentVolatility earlierVolatility) earlierVolatility.

Definition analyze (transactionAnalysis : TransactionAnalysis)
                   (priceHistory : list PricePoint) : SellerExhaustionSignals :=
  let exhaustionScore := of_Z 0 in
  (* 1. decreasing sell volume *)
  let sellVolume1h := sellVolume transactionAnalysis in
  let sellVolume15m := estimateSellVolume15m transactionAnalysis in
  let decreasingSellVolume := n_lt sellVolume15m (n_mul sellVolume1h (Fin 0.3)) in
  let exhaustionScore :=
    if decreasingSellVolume then n_add exhaustionScore (of_Z 20) else exhaustionScore in
  (* 2. decreasing sell frequency *)
  let sellFrequency := largeSellCount transactionAnalysis in
  let buyFrequency := largeBuyCount transactionAnalysis in
  let decreasingSellFrequency :=
    n_lt sellFrequency (n_mul buyFrequency (Fin 0.5)) && n_lt sellFrequency (of_Z 3) in
  let exhaustionScore :=
    if decreasingSellFrequency then n_add exhaustionScore (of_Z 15) else exhaustionScore in
  (* 3. seller dominance collapse *)
  let sellerDominanceCollapse := n_gt (buySellRatio transactionAnalysis) (Fin 0.6) in
  let exhaustionScore :=
    if sellerDominanceCollapse then n_add exhaustionScore (of_Z 20) else exhaustionScore in
  (* 4. final large seller exit *)
  let finalLargeSellerExit :=
    n_gt (largeSellCount transactionAnalysis) (of_Z 0)
    && n_le (largeSellCount transactionAnalysis) (of_Z 2) in
  let exhaustionScore :=
    if finalLargeSellerExit then n_add exhaustionScore (of_Z 15) else exhaustionScore in
  (* 5. MEV inactivity *)
  let mevInactivity :=
    negb (detected (mevPatterns transactionAnalysis))
    || n_lt (mevScore (mevPatterns transactionAnalysis)) (of_Z 20) in
  let exhaustionScore :=
    if mevInactivity then n_add exhaustionScore (of_Z 10) else exhaustionScore in
  (* 6. tight price range *)
  let priceVolatility := calculatePriceVolatility priceHistory in
  let tightPriceRange := n_lt priceVolatility (Fin 0.05) in
  let exhaustionScore :=
    if tightPriceRange then n_add exhaustionScore (of_Z 10) else exhaustionScore in
  (* 7. volatility collapse *)
  let volatilityTrend := calculateVolatilityTrend priceHistory in
  let volatilityCollapse := n_lt volatilityTrend (Fin (-0.2)) in
  let exhaustionScore :=
    if volatilityCollapse then n_add exhaustionScore (of_Z 10) else exhaustionScore in
  {| decreasingSellVolume := decreasingSellVolume;
     decreasingSellFrequency := decreasingSellFrequency;
     sellerDominanceCollapse := sellerDominanceCollapse;
     finalLargeSellerExit := finalLargeSellerExit;
     mevInactivity := mevInactivity;
     tightPriceRange := tightPriceRange;
     volatilityCollapse := volatilityCollapse;
     exhaustionScore := exhaustionScore;
     isBottomSignal :=
       n_ge exhaustionScore (of_Z 60)
       && tightPriceRange && sellerDominanceCollapse && mevInactivity |}.

End WithSqrt.
End SellerExhaustionAnalyzer.

(* ================================================================== *)
(** ** analyzers/jeeter-zone.detector.ts *)
(* ================================================================== *)

Record JeeterZoneFlags := {
  highSellToBuyRatio : bool;
  fastHolderRotation : bool;
  snipersEnteringEarly : bool;
  quickDumps : bool;
  liquidityDrainage : bool;
  mevSpam : bool;
  tooManySwapBots : bool;
  noStrongWalletAccumulation : bool;
  lpTooThin : bool;
  routerArbitragePump : bool;
  creatorWalletActivity : bool;
  suspiciousLPBehavior : bool;
  riskScore : num;
  isJeeterZone : bool
}.

Module JeeterZoneDetector.

(** [flags.riskScore += k] under the condition [c]. *)
Definition bump (c : bool) (k : Z) (riskScore : num) : num :=
  if c then n_add riskScore (of_Z k) else riskScore.

(** [Array.from(m.values()).reduce((a, b) => a + b, 0)].  The values are
    summed in the order of the finite map, not in insertion order; the
    exact sum does not depend on it. *)
Definition totalOf (m : gmap WalletCategory num) : num :=
  sum_nums (map snd (map_to_list m)).

Definition detect (transactionAnalysis : TransactionAnalysis)
                  (walletQuality : WalletQualityAnalysis)
                  (tokenInfo : TokenInfo) : JeeterZoneFlags :=
  let riskScore := of_Z 0 in
  (* 1. high sell-to-buy ratio *)
  let sellBuyRatio := n_sub (of_Z 1) (buySellRatio transactionAnalysis) in
  let highSellToBuyRatio := n_gt sellBuyRatio (Fin 0.6) in
  let riskScore := bump highSellToBuyRatio 15 riskScore in
  (* 2. fast holder rotation *)
  let fastHolderRotation := n_lt (wq_averageHoldTime walletQuality) (of_Z 10) in
  let riskScore := bump fastHolderRotation 15 riskScore in
  (* 3. snipers entering early *)
  let sniperCount :=
    WalletQualityAnalyzer.getCount (categoryDistribution walletQuality) sniper in
  let totalWallets := totalOf (categoryDistribution walletQuality) in
  let snipersEnteringEarly := n_gt (n_div sniperCount totalWallets) (Fin 0.3) in
  let riskScore := bump snipersEnteringEarly 20 riskScore in
  (* 4. quick dumps *)
  let quickDumps := n_lt (wq_averageHoldTime walletQuality) (of_Z 5) in
  let riskScore := bump quickDumps 20 riskScore in
  (* 5. liquidity below $10k *)
  let lpBelow10k := num_and (liquidity tokenInfo) (fun l => n_lt l (of_Z 10000)) in
  let riskScore := bump lpBelow10k 15 riskScore in
  (* 6. MEV spam *)
  let mevSpam :=
    detected (mevPatterns transactionAnalysis)
    && n_gt (mevScore (mevPatterns transactionAnalysis)) (of_Z 50) in
  let riskScore := bump mevSpam 15 riskScore in
  (* 7. too many swap bots *)
  let mevBotCount :=
    WalletQualityAnalyzer.getCount (categoryDistribution walletQuality) mev_bot in
  let tooManySwapBots := n_gt (n_div mevBotCount totalWallets) (Fin 0.2) in
  let riskScore := bump tooManySwapBots 10 riskScore in
  (* 8. no strong wallet accumulation *)
  let noStrongWalletAccumulation :=
    n_eq (highQualityWalletCount walletQuality) (of_Z 0) in
  let riskScore := bump noStrongWalletAccumulation 15 riskScore in
  (* 9. LP too thin *)
  let lpBelow5k := num_and (liquidity tokenInfo) (fun l => n_lt l (of_Z 5000)) in
  let riskScore := bump lpBelow5k 20 riskScore in
  (* 10. router arbitrage pump *)
  let routerArbitragePump :=
    n_gt (transactionsPerMinute transactionAnalysis) (of_Z 5)
    && n_lt (averageTransactionSize transactionAnalysis) (of_Z 100) in
  let riskScore := bump routerArbitragePump 10 riskScore in
  (* 11. jeeter dominance *)
  let riskScore := bump (jeeterDominance walletQuality) 25 riskScore in
  (* 12. sniper dominance *)
  let riskScore := bump (sniperDominance walletQuality) 20 riskScore in
  {| highSellToBuyRatio := highSellToBuyRatio;
     fastHolderRotation := fastHolderRotation;
     snipersEnteringEarly := snipersEnteringEarly;
     quickDumps := quickDumps;
     liquidityDrainage := false;
     mevSpam := mevSpam;
     tooManySwapBots := tooManySwapBots;
     noStrongWalletAccumulation := noStrongWalletAccumulation;
     lpTooThin := lpBelow10k || lpBelow5k;
     routerArbitragePump := routerArbitragePump;
     creatorWalletActivity := false;
     suspiciousLPBehavior := false;
     riskScore := riskScore;
     isJeeterZone := n_ge riskScore (of_Z 50) |}.

End JeeterZoneDetector.

(* ================================================================== *)
(** ** threeLayerAnalysis.ts *)
(* ================================================================== *)

Record MicrostructureSignals := {
  momentum5s : num;
  momentum15s : num;
  momentum60s : num;
  buySellDelta5s : num;
  buySellDelta15s : num;
  buySellDelta60s : num;
  volatilityStdDevRecent : num;
  volatilityTrendPct : num;
  botActivityIndex : num;
  liquidityVelocity : num;
  microScore : num;
  micro_reasons : list string
}.

Record StructuralSignals := {
  walletQualityAnalysis : WalletQualityAnalysis;
  lpHealthSignals : LPHealthSignals;
  sellerExhaustion : SellerExhaustionSignals;
  jeeterFlags : JeeterZoneFlags;
  structuralScore : num;
  structural_reasons : list string
}.

Record EntryZone := {
  zone_min : num;
  zone_max : num;
  zone_optimal : num
}.

Inductive RiskLevel := low | medium | high.

(** The debug lines; the two that interpolate numbers keep the numbers. *)
Inductive DebugLine :=
| DebugScores (microScore structural : num)
| DebugRaw (combinedScoreRaw : num)
| DebugText (s : string).

Record Outcome := {
  isDipOpportunity : bool;
  isDipTrap : bool;
  dipConfidence : num;
  expectedDipDepthPct : num;
  entryZone : EntryZone;
  combinedScore : num;
  riskLevel : RiskLevel;
  debug : list DebugLine
}.

(** The outcome with the [meta] property attached by the orchestrator. *)
Record OutcomeWithMeta := {
  outcome : Outcome;
  meta_microSignals : MicrostructureSignals;
  meta_structural : StructuralSignals
}.

(** How a call ends: with a value, or with a thrown exception (for an
    [async] function: a resolved or a rejected promise). *)
Inductive Exception := TypeError (msg : string).

Inductive Completion (A : Type) :=
| Return (a : A)
| Throw (e : Exception).
Arguments Return {A} a.
Arguments Throw {A} e.

Module PARAMS.
Definition buySellRatioStrong : num := Fin 0.6.
Definition buySellRatioWeak : num := Fin 0.35.
Definition volatilityCollapseStdDev : num := Fin 0.03.
Definition volatilityCompressionPct : num := Fin (-0.15).
Definition exhaustionScoreBottom : num := of_Z 60.
Definition jeeterRiskScore : num := of_Z 50.
Definition lpThinUSD : num := of_Z 5000.
Definition lpLowUSD : num := of_Z 10000.
Definition sniperDominancePct : num := Fin 0.3.
Definition jeeterDominancePct : num := Fin 0.4.
Definition w_microstructure : num := Fin 0.45.
Definition w_structural : num := Fin 0.45.
Definition w_volatility : num := Fin 0.1.
End PARAMS.

Module ThreeLayer.
Section WithSqrt.

Variable Math_sqrt : num -> num.

Definition stdDevRelativeChanges (prices : list num) : num :=
  if (length prices <? 2)%nat then of_Z 0
  else
    let changes :=
      consecutive
        (fun prev cur => n_div (n_sub cur prev) (Math_max (Fin 1e-12) prev))
        prices in
    let mean := n_div (sum_nums changes) (of_nat (length changes)) in
    let variance :=
      n_div
        (fold_left (fun s v => n_add s (Math_pow2 (n_sub v mean))) changes (of_Z 0))
        (of_nat (length changes)) in
    Math_sqrt variance.

Definition lastN (pricesOnly : list num) (n : nat) : list num :=
  if (n <=? length pricesOnly)%nat
  then js_slice pricesOnly (- Z.of_nat n) None
  else js_slice pricesOnly 0 None.

(** The two reads [samples[samples.length - 1]] and [samples[0]] are
    made on a list of at least two elements. *)
Definition momentum (samples : list num) : num :=
  if (length samples <? 2)%nat then of_Z 0
  else
    let last := List.last samples NaN in
    let first := hd NaN samples in
    if n_eq first (of_Z 0) || n_lt (Math_abs first) (Fin 1e-12) then of_Z 0
    else
      let result := n_div (n_sub last first) first in
      Math_max (of_Z (-10)) (Math_min (of_Z 10) result).

Definition clampVolatility (vol : num) : num :=
  Math_max (of_Z 0) (Math_min (of_Z 10) vol).

(** The interface declares every ratio of [TransactionAnalysis] as a
    number, so each [a ?? b ?? 0.5] of the source is its first operand. *)
Definition computeMicrostructureSignals
    (prices : list PricePoint) (tx : TransactionAnalysis)
    (tokenInfo : option TokenInfo) : MicrostructureSignals :=
  let reasons : list string := [] in
  let pricesOnly := map pp_price prices in
  let len := length pricesOnly in
  let m5 := momentum (lastN pricesOnly (Nat.max 2 (Nat.min 5 len))) in
  let m15 := momentum (lastN pricesOnly (Nat.max 3 (Nat.min 15 len))) in
  let m60 := momentum (lastN pricesOnly (Nat.max 5 (Nat.min 60 len))) in
  let bsr5 := buySellRatio5m tx in
  let bsr15 := buySellRatio15m tx in
  let bsr60 := buySellRatio1h tx in
  let buySellDelta5s := n_sub bsr5 bsr15 in
  let buySellDelta15s := n_sub bsr15 bsr60 in
  let buySellDelta60s := n_sub bsr60 (buySellRatio tx) in
  let volatilityStdDevRecent :=
    clampVolatility (stdDevRelativeChanges (js_slice pricesOnly (-30) None)) in
  let earlier :=
    if (60 <? len)%nat
    then js_slice pricesOnly (-60) (Some (-30))
    else js_slice pricesOnly 0 (Some (-30)) in
  let earlierVol := clampVolatility (stdDevRelativeChanges earlier) in
  let volatilityTrendPct :=
    if n_eq earlierVol (of_Z 0) then of_Z 0
    else
      Math_max (of_Z (-1))
        (Math_min (of_Z 1)
           (n_div (n_sub volatilityStdDevRecent earlierVol)
                  (Math_max earlierVol (Fin 0.01)))) in
  let txPerMin := transactionsPerMinute tx in
  let avgTxSize := averageTransactionSize tx in
  let botActivityIndex :=
    Math_min (of_Z 100)
      (Math_round
         (Math_max (of_Z 0)
            (n_add
               (n_add
                  (n_mul (n_div txPerMin (of_Z 30)) (of_Z 50))
                  (if n_lt avgTxSize (of_Z 100) then of_Z 25 else of_Z 0))
               (if detected (mevPatterns tx)
                then Math_min (mevScore (mevPatterns tx)) (of_Z 25)
                else of_Z 0)))) in
  let liquidityVelocity := of_Z 0 in
  let microScore := of_Z 50 in
  let microScore :=
    n_add microScore
      (Math_max (of_Z (-20))
         (Math_min (of_Z 20) (Math_round (n_mul buySellDelta15s (of_Z 100))))) in
  let momentumDeceleration := n_mul (n_sub m15 m60) (of_Z 100) in
  let microScore :=
    n_add microScore
      (Math_max (of_Z (-15))
         (Math_min (of_Z 15)
            (Math_round
               (n_add (n_mul (n_neg m60) (of_Z 50)) momentumDeceleration)))) in
  let '(microScore, reasons) :=
    if n_lt volatilityTrendPct PARAMS.volatilityCompressionPct then
      (n_add microScore (of_Z 15), reasons ++ ["Volatility compression detected"])
    else if n_lt volatilityStdDevRecent PARAMS.volatilityCollapseStdDev then
      (n_add microScore (of_Z 10), reasons ++ ["Low recent volatility"])
    else
      (n_sub microScore (of_Z 10), reasons) in
  let microScore :=
    n_sub microScore
      (Math_round (n_mul (n_div botActivityIndex (of_Z 100)) (of_Z 20))) in
  let microScore :=
    n_add microScore
      (Math_max (of_Z (-10))
         (Math_min (of_Z 10) (Math_round (n_mul liquidityVelocity (of_Z 100))))) in
  let microScore :=
    Math_max (of_Z 0) (Math_min (of_Z 100) (Math_round microScore)) in
  let reasons :=
    if n_gt buySellDelta15s (Fin 0.05)
    then reasons ++ ["Buy pressure increasing on short window"] else reasons in
  let reasons :=
    if n_lt buySellDelta15s (Fin (-0.05))
    then reasons ++ ["Buy pressure falling on short window"] else reasons in
  {| momentum5s := m5;
     momentum15s := m15;
     momentum60s := m60;
     buySellDelta5s := buySellDelta5s;
     buySellDelta15s := buySellDelta15s;
     buySellDelta60s := buySellDelta60s;
     volatilityStdDevRecent := volatilityStdDevRecent;
     volatilityTrendPct := volatilityTrendPct;
     botActivityIndex := botActivityIndex;
     liquidityVelocity := liquidityVelocity;
     microScore := microScore;
     micro_reasons := reasons |}.

(** [isNaN(x) ? d : x] *)
Definition nanTo (d x : num) : num := if isNaN x then d else x.

Definition computeStructuralSignals
    (holders : list HolderInfo) (tx : TransactionAnalysis)
    (tokenInfo : TokenInfo) (priceHistory : list PricePoint) : StructuralSignals :=
  let reasons : list string := [] in
  let walletQuality := WalletQualityAnalyzer.analyze holders in
  let lpSignals := LPHealthAnalyzer.analyze tokenInfo in
  let exhaustionSignals :=
    SellerExhaustionAnalyzer.analyze Math_sqrt tx priceHistory in
  let jeeterFlags := JeeterZoneDetector.detect tx walletQuality tokenInfo in
  let walletQualityScore := nanTo (of_Z 0) (overallQualityScore walletQuality) in
  let lpHealthScore := nanTo (of_Z 0) (healthScore lpSignals) in
  let exhaustionScore := nanTo (of_Z 0) (exhaustionScore exhaustionSignals) in
  let jeeterRiskScore := nanTo (of_Z 0) (riskScore jeeterFlags) in
  let structuralScore := of_Z 50 in
  let structuralScore := n_add structuralScore (n_mul walletQualityScore (Fin 0.3)) in
  let structuralScore := n_add structuralScore (n_mul lpHealthScore (Fin 0.3)) in
  let structuralScore := n_add structuralScore (n_mul exhaustionScore (Fin 0.25)) in
  let structuralScore := n_sub structuralScore (n_mul jeeterRiskScore (Fin 0.4)) in
  let structuralScore :=
    Math_max (of_Z 0) (Math_min (of_Z 100) (Math_round structuralScore)) in
  let reasons :=
    if isJeeterZone jeeterFlags then reasons ++ ["Jeeter zone detected"] else reasons in
  let reasons :=
    if negb (isHealthy lpSignals) then reasons ++ ["LP health low"] else reasons in
  let reasons :=
    if isBottomSignal exhaustionSignals
    then reasons ++ ["Seller exhaustion bottom signal"] else reasons in
  {| walletQualityAnalysis := walletQuality;
     lpHealthSignals := lpSignals;
     sellerExhaustion := exhaustionSignals;
     jeeterFlags := jeeterFlags;
     structuralScore := structuralScore;
     structural_reasons := reasons |}.

End WithSqrt.

(** The entry zone [{ min: p * lo, max: p * hi, optimal: p * opt }]. *)
Definition scaleZone (currentPrice : num) (lo hi opt : Q) : EntryZone :=
  {| zone_min := n_mul currentPrice (Fin lo);
     zone_max := n_mul currentPrice (Fin hi);
     zone_optimal := n_mul currentPrice (Fin opt) |}.

Definition predictOutcome (currentPrice : num) (micro : MicrostructureSignals)
                          (structural : StructuralSignals) : Outcome :=
  let debug : list DebugLine := [] in
  let microScore := nanTo (of_Z 0) (microScore micro) in
  let structuralScore := nanTo (of_Z 0) (structuralScore structural) in
  let volatilityTrendPct := nanTo (of_Z 0) (volatilityTrendPct micro) in
  let combinedScoreRaw :=
    n_add
      (n_add (n_mul microScore PARAMS.w_microstructure)
             (n_mul structuralScore PARAMS.w_structural))
      (n_mul
         (Math_max (of_Z 0)
            (n_mul (n_sub (of_Z 1) (Math_abs volatilityTrendPct)) (of_Z 100)))
         PARAMS.w_volatility) in
  let combinedScore :=
    if isNaN combinedScoreRaw then of_Z 0
    else Math_max (of_Z 0) (Math_min (of_Z 100) (Math_round combinedScoreRaw)) in
  let debug := debug ++ [DebugScores microScore structuralScore] in
  let debug := debug ++ [DebugRaw combinedScoreRaw] in
  let isJeeter := isJeeterZone (jeeterFlags structural) in
  let microGood := n_ge microScore (of_Z 60) in
  let structuralGood := n_ge structuralScore (of_Z 55) in
  let dipConfidence := combinedScore in
  let '(isDipOpportunity, isDipTrap, dipConfidence, expectedDipDepthPct,
        entryZone, debug) :=
    if isJeeter then
      let jeeterRisk := nanTo (of_Z 50) (riskScore (jeeterFlags structural)) in
      (false, true,
       Math_max dipConfidence jeeterRisk,
       n_add (of_Z 20) (Math_min (of_Z 40) (n_div jeeterRisk (of_Z 2))),
       scaleZone currentPrice 0.65 0.9 0.8,
       debug ++ [DebugText "Decision: Jeeter zone => Trap"])
    else if microGood && structuralGood then
      (true, false,
       Math_max dipConfidence (of_Z 60),
       n_add (of_Z 3)
         (Math_max (of_Z 0)
            (n_sub (of_Z 10)
               (Math_round
                  (n_mul (n_or (volatilityStdDevRecent micro) (of_Z 0)) (of_Z 100))))),
       scaleZone currentPrice 0.92 1.02 0.98,
       debug ++ [DebugText "Decision: microGood & structuralGood => Opportunity"])
    else if negb microGood && negb structuralGood then
      (false, true,
       Math_max dipConfidence (of_Z 55),
       of_Z 12,
       scaleZone currentPrice 0.75 0.95 0.85,
       debug ++ [DebugText "Decision: microPoor & structuralPoor => Trap"])
    else
      (false, false,
       Math_round (n_mul dipConfidence (Fin 0.7)),
       of_Z 8,
       scaleZone currentPrice 0.85 1.0 0.92,
       debug ++ [DebugText "Decision: Mixed signals => Wait/Cautious"]) in
  let riskLevel :=
    if isJeeter || n_gt (riskScore (jeeterFlags structural)) PARAMS.jeeterRiskScore
    then high
    else if n_gt combinedScore (of_Z 70) && negb isJeeter then low
    else medium in
  let finalDipConfidence :=
    if isNaN dipConfidence then of_Z 0
    else Math_max (of_Z 0) (Math_min (of_Z 100) (Math_round dipConfidence)) in
  let finalExpectedDipDepth :=
    if isNaN expectedDipDepthPct then of_Z 0
    else Math_max (of_Z 0) (Math_min (of_Z 100) expectedDipDepthPct) in
  {| isDipOpportunity := isDipOpportunity;
     isDipTrap := isDipTrap;
     dipConfidence := finalDipConfidence;
     expectedDipDepthPct := finalExpectedDipDepth;
     entryZone := entryZone;
     combinedScore := combinedScore;
     riskLevel := riskLevel;
     debug := debug |}.

Section Orchestrator.

Variable Math_sqrt : num -> num.

(** [ThreeLayerAnalysisService.analyzeToken].  Reading [.price] of
    [priceHistory[priceHistory.length - 1]] throws a TypeError when the
    element is [undefined], that is when the history is empty. *)
Definition analyzeToken
    (priceHistory : list PricePoint) (txAnalysis : TransactionAnalysis)
    (holders : list HolderInfo) (tokenInfo : TokenInfo)
  : Completion OutcomeWithMeta :=
  let microSignals :=
    computeMicrostructureSignals Math_sqrt priceHistory txAnalysis (Some tokenInfo) in
  let structural :=
    computeStructuralSignals Math_sqrt holders txAnalysis tokenInfo priceHistory in
  match last priceHistory with
  | None =>
      Throw (TypeError "Cannot read properties of undefined (reading 'price')")
  | Some lastPoint =>
      let outcome := predictOutcome (pp_price lastPoint) microSignals structural in
      Return {| outcome := outcome;
                meta_microSignals := microSignals;
                meta_structural := structural |}
  end.

End Orchestrator.
End ThreeLayer.

(* ================================================================== *)
(** ** services/transaction.service.ts: the empty analysis *)
(* ================================================================== *)

Module TransactionService.

Definition getEmptyAnalysis : TransactionAnalysis :=
  {| buySellRatio := Fin 0.5;
     buyVolume := of_Z 0;
     sellVolume := of_Z 0;
     totalVolume := of_Z 0;
     buySellRatio5m := Fin 0.5;
     buySellRatio15m := Fin 0.5;
     buySellRatio1h := Fin 0.5;
     buySellRatio24h := Fin 0.5;
     largeBuyCount := of_Z 0;
     largeSellCount := of_Z 0;
     mevPatterns :=
       {| detected := false;
          sandwichAttacks := of_Z 0;
          frontRunning := of_Z 0;
          botLikeBehavior := of_Z 0;
          mevScore := of_Z 0 |};
     txTransactionCount := of_Z 0;
     transactionsPerMinute := of_Z 0;
     averageTransactionSize := of_Z 0;
     averagePriceImpact := of_Z 0;
     highImpactTransactions := of_Z 0 |}.

(** [SwapTransaction] of types/transaction.types.ts. *)
Record SwapTransaction := {
  st_signature : string;
  st_timestamp : num;
  st_type : TxType;
  amountUsd : num;
  amountTokens : num;
  st_price : num;
  wallet : string;
  slippage : option num
}.

Definition isBuy (tx : SwapTransaction) : bool :=
  match st_type tx with buy => true | sell => false end.

Definition isSell (tx : SwapTransaction) : bool :=
  match st_type tx with sell => true | buy => false end.

(** The sandwich test on three consecutive transactions. *)
Definition isSandwich (tx1 tx2 tx3 : SwapTransaction) : bool :=
  if bool_decide (wallet tx1 = wallet tx2)
     && bool_decide (wallet tx2 = wallet tx3)
     && isBuy tx1 && isBuy tx2 && isSell tx3
     && n_gt (amountUsd tx2) (n_mul (amountUsd tx1) (of_Z 2))
  then
    let timeDiff := n_sub (st_timestamp tx3) (st_timestamp tx1) in
    n_lt timeDiff (of_Z 60000)
  else false.

(** [for (i = 0; i < transactions.length - 2; i++)] over the triples
    [transactions[i], transactions[i+1], transactions[i+2]]. *)
Fixpoint countSandwiches (transactions : list SwapTransaction) : nat :=
  match transactions with
  | tx1 :: ((tx2 :: tx3 :: _) as rest) =>
      ((if isSandwich tx1 tx2 tx3 then 1 else 0) + countSandwiches rest)%nat
  | _ => 0%nat
  end.

(** [walletTxCounts.set(tx.wallet, (walletTxCounts.get(tx.wallet) || 0) + 1)] *)
Definition countWallet (m : gmap string num) (tx : SwapTransaction)
  : gmap string num :=
  <[wallet tx := n_add (num_or (m !! wallet tx) (of_Z 0)) (of_Z 1)]> m.

Definition walletTxCounts (transactions : list SwapTransaction) : gmap string num :=
  fold_left countWallet transactions ∅.

Definition detectMEVPatterns (transactions : list SwapTransaction) : MevPatterns :=
  let sandwichAttacks := of_nat (countSandwiches transactions) in
  let frontRunning := of_Z 0 in
  let botLikeBehavior :=
    of_nat
      (length
         (List.filter (fun count => n_gt count (of_Z 10))
                      (map snd (map_to_list (walletTxCounts transactions))))) in
  let score :=
    Math_min (of_Z 100)
      (n_add
         (n_add (n_mul sandwichAttacks (of_Z 20)) (n_mul frontRunning (of_Z 15)))
         (n_mul botLikeBehavior (of_Z 5))) in
  {| detected := n_gt score (of_Z 30);
     sandwichAttacks := sandwichAttacks;
     frontRunning := frontRunning;
     botLikeBehavior := botLikeBehavior;
     mevScore := score |}.

(** [calculateRatio], the local function of [analyzeTransactions]. *)
Definition calculateRatio (txs : list SwapTransaction) : num :=
  let buys := List.filter isBuy txs in
  let sells := List.filter isSell txs in
  let buyVolume := sum_nums (map amountUsd buys) in
  let sellVolume := sum_nums (map amountUsd sells) in
  let totalVolume := n_add buyVolume sellVolume in
  if n_gt totalVolume (of_Z 0) then n_div buyVolume totalVolume else Fin 0.5.

(** [analyzeTransactions]; [now] is the value of [Date.now()].  The
    fields of the result that [TransactionAnalysis] leaves out here (the
    large transactions, whale and smart-money records) are not built. *)
Definition analyzeTransactions (now : num) (transactions : list SwapTransaction)
  : TransactionAnalysis :=
  if (length transactions =? 0)%nat then getEmptyAnalysis
  else
    let fiveMinutesAgo := n_sub now (of_Z (5 * 60 * 1000)) in
    let fifteenMinutesAgo := n_sub now (of_Z (15 * 60 * 1000)) in
    let oneHourAgo := n_sub now (of_Z (60 * 60 * 1000)) in
    let twentyFourHoursAgo := n_sub now (of_Z (24 * 60 * 60 * 1000)) in
    let since t := List.filter (fun tx => n_gt (st_timestamp tx) t) transactions in
    let tx5m := since fiveMinutesAgo in
    let tx15m := since fifteenMinutesAgo in
    let tx1h := since oneHourAgo in
    let tx24h := since twentyFourHoursAgo in
    let buys := List.filter isBuy transactions in
    let sells := List.filter isSell transactions in
    let buyVolume := sum_nums (map amountUsd buys) in
    let sellVolume := sum_nums (map amountUsd sells) in
    let totalVolume := n_add buyVolume sellVolume in
    let largeTransactions :=
      List.filter (fun tx => n_ge (amountUsd tx) (of_Z 5000)) transactions in
    let largeBuys := List.filter isBuy largeTransactions in
    let largeSells := List.filter isSell largeTransactions in
    let mevPatterns := detectMEVPatterns transactions in
    let timeSpan :=
      match transactions with
      | first :: _ :: _ =>
          n_sub (st_timestamp first)
                (st_timestamp (List.last transactions first))
      | _ => of_Z 1
      end in
    let transactionsPerMinute :=
      if n_gt timeSpan (of_Z 0)
      then n_div (of_nat (length transactions)) (n_div timeSpan (of_Z 60000))
      else of_Z 0 in
    let averageTransactionSize :=
      n_div (sum_nums (map amountUsd transactions)) (of_nat (length transactions)) in
    {| buySellRatio := calculateRatio transactions;
       buyVolume := buyVolume;
       sellVolume := sellVolume;
       totalVolume := totalVolume;
       buySellRatio5m := calculateRatio tx5m;
       buySellRatio15m := calculateRatio tx15m;
       buySellRatio1h := calculateRatio tx1h;
       buySellRatio24h := calculateRatio tx24h;
       largeBuyCount := of_nat (length largeBuys);
       largeSellCount := of_nat (length largeSells);
       mevPatterns := mevPatterns;
       txTransactionCount := of_nat (length transactions);
       transactionsPerMinute := transactionsPerMinute;
       averageTransactionSize := averageTransactionSize;
       averagePriceImpact := of_Z 0;
       highImpactTransactions := of_Z 0 |}.

End TransactionService.

(* ================================================================== *)
(** ** Sample inputs *)
(* ================================================================== *)

Module Samples.

(** A rational square root, exact to twelve decimals of the scaled
    argument; it instantiates [Math_sqrt] where a sample is run. *)
Definition sqrt_approx (x : num) : num :=
  match x with
  | NaN | NInf => NaN
  | PInf => PInf
  | Fin q =>
      match Qsign q with
      | Lt => NaN
      | Eq => of_Z 0
      | Gt =>
          Fin (Z.sqrt (Qnum q * Z.pos (Qden q) * 10 ^ 24)
               # (Qden q * 10 ^ 12))
      end
  end.

(** Microstructure signals with a given micro score and volatility
    trend, every other signal neutral. *)
Definition microWith (score trend : num) : MicrostructureSignals :=
  {| momentum5s := of_Z 0; momentum15s := of_Z 0; momentum60s := of_Z 0;
     buySellDelta5s := of_Z 0; buySellDelta15s := of_Z 0;
     buySellDelta60s := of_Z 0;
     volatilityStdDevRecent := of_Z 0;
     volatilityTrendPct := trend;
     botActivityIndex := of_Z 0;
     liquidityVelocity := of_Z 0;
     microScore := score;
     micro_reasons := [] |}.

(** A token snapshot with every optional field absent. *)
Definition bareToken : TokenInfo :=
  {| tokenAddress := "So1"; symbol := None; name := None;
     decimals := of_Z 9; supply := of_Z 100000;
     marketCap := None; tokenPrice := None; liquidity := None |}.

Definition tokenWith (mc liq : option num) : TokenInfo :=
  {| tokenAddress := "So1"; symbol := None; name := None;
     decimals := of_Z 9; supply := of_Z 100000;
     marketCap := mc; tokenPrice := None; liquidity := liq |}.

(** The holder of the sniper scenario: balance 1000 of a supply of
    100000 (1%), average hold time 3 minutes, 15 transactions. *)
Definition sniperHolder : HolderInfo :=
  {| address := "w1"; balance := of_Z 1000; percentage := of_Z 1;
     firstSeen := None; lastSeen := None;
     transactionCount := Some (of_Z 15);
     buyTransactions := None; sellTransactions := None;
     averageHoldTime := Some (of_Z 3);
     isJeeter := None; jeeterScore := None; isBundle := None |}.

(** A holder of which only address, balance and share are known. *)
Definition plainHolder (addr : string) (pct : num) : HolderInfo :=
  {| address := addr; balance := of_Z 1000; percentage := pct;
     firstSeen := None; lastSeen := None; transactionCount := None;
     buyTransactions := None; sellTransactions := None;
     averageHoldTime := None;
     isJeeter := None; jeeterScore := None; isBundle := None |}.

Definition point (p : num) : PricePoint :=
  {| pp_price := p; pp_timestamp := of_Z 0 |}.

(** A sell-heavy flow of many small transactions, and a token with
    $3k of liquidity. *)
Definition dumpFlow : TransactionAnalysis :=
  {| buySellRatio := Fin 0.2;
     buyVolume := of_Z 200;
     sellVolume := of_Z 800;
     totalVolume := of_Z 1000;
     buySellRatio5m := Fin 0.2;
     buySellRatio15m := Fin 0.2;
     buySellRatio1h := Fin 0.2;
     buySellRatio24h := Fin 0.2;
     largeBuyCount := of_Z 0;
     largeSellCount := of_Z 0;
     mevPatterns :=
       {| detected := false;
          sandwichAttacks := of_Z 0;
          frontRunning := of_Z 0;
          botLikeBehavior := of_Z 0;
          mevScore := of_Z 0 |};
     txTransactionCount := of_Z 360;
     transactionsPerMinute := of_Z 6;
     averageTransactionSize := of_Z 50;
     averagePriceImpact := of_Z 0;
     highImpactTransactions := of_Z 0 |}.

Definition thinToken : TokenInfo := tokenWith (Some (of_Z 20000)) (Some (of_Z 3000)).

(** Twelve price points, and two holders: the sniper and a 7% holder. *)
Definition flatPrices : list PricePoint :=
  map (fun z => point (of_Z z))
      [100; 102; 101; 103; 99; 100; 100; 101; 100; 100; 100; 100].

Definition twoHolders : list HolderInfo :=
  [sniperHolder; plainHolder "w2" (of_Z 7)].

(** A token whose liquidity is reported as 0, and one with $100k of
    liquidity and no market cap. *)
Definition drainedToken : TokenInfo := tokenWith None (Some (of_Z 0)).
Definition uncappedToken : TokenInfo := tokenWith None (Some (of_Z 100000)).

(** The wallet analysis of the empty holder list. *)
Definition noWallets : WalletQualityAnalysis := WalletQualityAnalyzer.analyze [].

(** Structural signals of the empty inputs, with a given structural
    score, jeeter-zone flag and risk score. *)
Definition structuralWith (score : num) (zone : bool) (risk : num)
  : StructuralSignals :=
  let wq := WalletQualityAnalyzer.analyze [] in
  let f := JeeterZoneDetector.detect TransactionService.getEmptyAnalysis wq bareToken in
  {| walletQualityAnalysis := wq;
     lpHealthSignals := LPHealthAnalyzer.analyze bareToken;
     sellerExhaustion :=
       SellerExhaustionAnalyzer.analyze sqrt_approx
         TransactionService.getEmptyAnalysis [];
     jeeterFlags :=
       {| highSellToBuyRatio := highSellToBuyRatio f;
          fastHolderRotation := fastHolderRotation f;
          snipersEnteringEarly := snipersEnteringEarly f;
          quickDumps := quickDumps f;
          liquidityDrainage := liquidityDrainage f;
          mevSpam := mevSpam f;
          tooManySwapBots := tooManySwapBots f;
          noStrongWalletAccumulation := noStrongWalletAccumulation f;
          lpTooThin := lpTooThin f;
          routerArbitragePump := routerArbitragePump f;
          creatorWalletActivity := creatorWalletActivity f;
          suspiciousLPBehavior := suspiciousLPBehavior f;
          riskScore := risk;
          isJeeterZone := zone |};
     structuralScore := score;
     structural_reasons := [] |}.

End Samples.

(* ================================================================== *)
(** ** types/token.types.ts: holder analysis; utils/jeeter-detector.ts *)
(* ================================================================== *)

Inductive HolderRiskLevel := Low | Moderate | High | Critical.

(** [HolderAnalysis], without the optional copy of the transaction
    analysis, which no function below reads. *)
Record HolderAnalysis := {
  ha_totalHolders : num;
  ha_topHolders : list HolderInfo;
  ha_jeeterCount : num;
  ha_jeeterPercentage : num;
  ha_bundleCount : num;
  ha_averageHoldTime : num;
  ha_holderConcentration : num;
  ha_jeeterRiskScore : num;
  ha_buySellRatio : num;
  ha_volumeSpikiness : num;
  ha_riskLevel : HolderRiskLevel
}.

Record JeeterMetrics := {
  jm_averageHoldTime : num;
  roundTripperPercentage : num;
  botLikePatterns : num;
  sellVelocity : num;
  churnRate : num
}.

(** The reasons of [detectJeeter]; the two round-trip reasons quote the
    rate (formatted by [toFixed(1)] in the source). *)
Inductive JeeterReason :=
| ExtremelyShortHold
| VeryShortHold
| ShortHold
| HighRoundTrip (pct : num)
| ModerateRoundTrip (pct : num)
| VeryHighTxCount
| HighTxCount
| FrequentQuickExits
| LargeHolderFrequentTrading.

Record JeeterVerdict := {
  jv_isJeeter : bool;
  jv_score : num;
  jv_reasons : list JeeterReason
}.

Module JeeterDetector.

(** [sells.find(sell => sell.t > buy.t && sell.t - buy.t < window)] *)
Definition sellWithin (window : Z) (sells : list TransactionInfo)
                      (b : TransactionInfo) : option TransactionInfo :=
  List.find
    (fun s => n_gt (timestamp s) (timestamp b)
              && n_lt (n_sub (timestamp s) (timestamp b)) (of_Z window))
    sells.

(** [buys.filter(buy => !!sells.find(...))] *)
Definition buysFollowedBySell (window : Z) (buys sells : list TransactionInfo)
  : list TransactionInfo :=
  List.filter (fun b => bool_decide (is_Some (sellWithin window sells b))) buys.

Definition detectJeeter (holder : HolderInfo) : JeeterVerdict :=
  let reasons : list JeeterReason := [] in
  let score := of_Z 0 in
  (* 1. average hold time *)
  let '(score, reasons) :=
    match averageHoldTime holder with
    | Some t =>
        if n_lt t (of_Z 5) then (n_add score (of_Z 30), reasons ++ [ExtremelyShortHold])
        else if n_lt t (of_Z 30) then (n_add score (of_Z 20), reasons ++ [VeryShortHold])
        else if n_lt t (of_Z 60) then (n_add score (of_Z 10), reasons ++ [ShortHold])
        else (score, reasons)
    | None => (score, reasons)
    end in
  (* 2. round trips within the hour *)
  let '(score, reasons) :=
    match buyTransactions holder, sellTransactions holder with
    | Some buys, Some sells =>
        let roundTrips := buysFollowedBySell (60 * 60 * 1000) buys sells in
        if (0 <? length roundTrips)%nat then
          let roundTripPercentage :=
            n_mul (n_div (of_nat (length roundTrips)) (of_nat (length buys)))
                  (of_Z 100) in
          if n_gt roundTripPercentage (of_Z 50) then
            (n_add score (of_Z 25), reasons ++ [HighRoundTrip roundTripPercentage])
          else if n_gt roundTripPercentage (of_Z 30) then
            (n_add score (of_Z 15), reasons ++ [ModerateRoundTrip roundTripPercentage])
          else (score, reasons)
        else (score, reasons)
    | _, _ => (score, reasons)
    end in
  (* 3. transaction frequency *)
  let '(score, reasons) :=
    match transactionCount holder with
    | Some c =>
        if n_gt c (of_Z 100) then (n_add score (of_Z 15), reasons ++ [VeryHighTxCount])
        else if n_gt c (of_Z 50) then (n_add score (of_Z 10), reasons ++ [HighTxCount])
        else (score, reasons)
    | None => (score, reasons)
    end in
  (* 4. quick exits *)
  let '(score, reasons) :=
    match buyTransactions holder, sellTransactions holder with
    | Some buys, Some sells =>
        let quickExits := buysFollowedBySell (5 * 60 * 1000) buys sells in
        if n_gt (of_nat (length quickExits))
                (n_mul (of_nat (length buys)) (Fin 0.5))
        then (n_add score (of_Z 20), reasons ++ [FrequentQuickExits])
        else (score, reasons)
    | _, _ => (score, reasons)
    end in
  (* 5. large holder with frequent trades *)
  let '(score, reasons) :=
    if n_gt (percentage holder) (of_Z 1)
       && num_and (transactionCount holder) (fun c => n_gt c (of_Z 10))
    then (n_add score (of_Z 10), reasons ++ [LargeHolderFrequentTrading])
    else (score, reasons) in
  {| jv_isJeeter := n_ge score (of_Z 30);
     jv_score := Math_min (of_Z 100) score;
     jv_reasons := reasons |}.

(** [holder.buyTransactions.some(buy => !!sells.find(...))] *)
Definition hasRoundTrip (holder : HolderInfo) : bool :=
  match buyTransactions holder, sellTransactions holder with
  | Some buys, Some sells =>
      existsb (fun b => bool_decide (is_Some (sellWithin (60 * 60 * 1000) sells b)))
              buys
  | _, _ => false
  end.

(** [count / total * 100] when the list is not empty, 0 otherwise. *)
Definition percentOf (count total : nat) : num :=
  if (0 <? total)%nat
  then n_mul (n_div (of_nat count) (of_nat total)) (of_Z 100)
  else of_Z 0.

Definition holdsBelow (k : Z) (h : HolderInfo) : bool :=
  num_defined_and (averageHoldTime h) (fun t => n_lt t (of_Z k)).

Definition calculateJeeterMetrics (holders : list HolderInfo) : JeeterMetrics :=
  let holdersWithHoldTime :=
    List.filter (fun h => bool_decide (is_Some (averageHoldTime h))) holders in
  let averageHoldTime :=
    if (0 <? length holdersWithHoldTime)%nat then
      n_div
        (fold_left (fun sum h => n_add sum (num_or (averageHoldTime h) (of_Z 0)))
                   holdersWithHoldTime (of_Z 0))
        (of_nat (length holdersWithHoldTime))
    else of_Z 0 in
  let roundTrippers := length (List.filter hasRoundTrip holders) in
  let roundTripperPercentage := percentOf roundTrippers (length holders) in
  let botLikePatterns :=
    length
      (List.filter
         (fun h => num_and (transactionCount h) (fun c => n_gt c (of_Z 100))
                   || holdsBelow 5 h)
         holders) in
  let topHolders := js_slice holders 0 (Some 10) in
  let quickSellers := List.filter (holdsBelow 30) topHolders in
  let sellVelocity := percentOf (length quickSellers) (length topHolders) in
  let quickExits := List.filter (holdsBelow 30) holders in
  let churnRate := percentOf (length quickExits) (length holders) in
  {| jm_averageHoldTime := averageHoldTime;
     roundTripperPercentage := roundTripperPercentage;
     botLikePatterns := of_nat botLikePatterns;
     sellVelocity := sellVelocity;
     churnRate := churnRate |}.

End JeeterDetector.

(* ================================================================== *)
(** ** utils/risk-calculator.ts *)
(* ================================================================== *)

Module RiskCalculator.

Definition calculateJeeterRiskScore (holderAnalysis : HolderAnalysis)
                                    (jeeterMetrics : JeeterMetrics) : num :=
  let score := of_Z 0 in
  (* 1. average hold time *)
  let score :=
    if n_lt (jm_averageHoldTime jeeterMetrics) (of_Z 5) then n_add score (of_Z 20)
    else if n_lt (jm_averageHoldTime jeeterMetrics) (of_Z 30) then n_add score (of_Z 15)
    else if n_lt (jm_averageHoldTime jeeterMetrics) (of_Z 60) then n_add score (of_Z 10)
    else if n_lt (jm_averageHoldTime jeeterMetrics) (of_Z 120) then n_add score (of_Z 5)
    else score in
  (* 2. round-tripper percentage *)
  let score :=
    if n_gt (roundTripperPercentage jeeterMetrics) (of_Z 60) then n_add score (of_Z 20)
    else if n_gt (roundTripperPercentage jeeterMetrics) (of_Z 40) then n_add score (of_Z 15)
    else if n_gt (roundTripperPercentage jeeterMetrics) (of_Z 20) then n_add score (of_Z 10)
    else if n_gt (roundTripperPercentage jeeterMetrics) (of_Z 10) then n_add score (of_Z 5)
    else score in
  (* 3. bot-like patterns *)
  let botPercentage :=
    n_mul (n_div (botLikePatterns jeeterMetrics) (ha_totalHolders holderAnalysis))
          (of_Z 100) in
  let score :=
    if n_gt botPercentage (of_Z 20) then n_add score (of_Z 15)
    else if n_gt botPercentage (of_Z 10) then n_add score (of_Z 10)
    else if n_gt botPercentage (of_Z 5) then n_add score (of_Z 5)
    else score in
  (* 4. sell velocity *)
  let score :=
    if n_gt (sellVelocity jeeterMetrics) (of_Z 70) then n_add score (of_Z 15)
    else if n_gt (sellVelocity jeeterMetrics) (of_Z 50) then n_add score (of_Z 12)
    else if n_gt (sellVelocity jeeterMetrics) (of_Z 30) then n_add score (of_Z 8)
    else if n_gt (sellVelocity jeeterMetrics) (of_Z 15) then n_add score (of_Z 4)
    else score in
  (* 5. holder concentration *)
  let score :=
    if n_gt (ha_holderConcentration holderAnalysis) (of_Z 50) then n_add score (of_Z 15)
    else if n_gt (ha_holderConcentration holderAnalysis) (of_Z 30) then n_add score (of_Z 12)
    else if n_gt (ha_holderConcentration holderAnalysis) (of_Z 20) then n_add score (of_Z 8)
    else if n_gt (ha_holderConcentration holderAnalysis) (of_Z 10) then n_add score (of_Z 4)
    else score in
  (* 6. churn rate *)
  let score :=
    if n_gt (churnRate jeeterMetrics) (of_Z 60) then n_add score (of_Z 10)
    else if n_gt (churnRate jeeterMetrics) (of_Z 40) then n_add score (of_Z 7)
    else if n_gt (churnRate jeeterMetrics) (of_Z 20) then n_add score (of_Z 4)
    else if n_gt (churnRate jeeterMetrics) (of_Z 10) then n_add score (of_Z 2)
    else score in
  (* 7. buy/sell ratio *)
  let score :=
    if n_lt (ha_buySellRatio holderAnalysis) (Fin 0.25) then n_add score (of_Z 5)
    else if n_lt (ha_buySellRatio holderAnalysis) (Fin 0.4) then n_add score (of_Z 3)
    else if n_lt (ha_buySellRatio holderAnalysis) (Fin 0.6) then n_add score (of_Z 1)
    else score in
  Math_min (of_Z 100) (Math_round score).

Definition getRiskLevel (jeeterRiskScore : num) : HolderRiskLevel :=
  if n_ge jeeterRiskScore (of_Z 80) then Critical
  else if n_ge jeeterRiskScore (of_Z 50) then High
  else if n_ge jeeterRiskScore (of_Z 20) then Moderate
  else Low.

Definition calculateOverallScore (holderAnalysis : HolderAnalysis) : num :=
  let score := of_Z 100 in
  let score := n_sub score (n_mul (ha_jeeterRiskScore holderAnalysis) (Fin 0.5)) in
  let score :=
    if n_gt (ha_holderConcentration holderAnalysis) (of_Z 30) then n_sub score (of_Z 20)
    else if n_gt (ha_holderConcentration holderAnalysis) (of_Z 20) then n_sub score (of_Z 10)
    else score in
  let score :=
    if n_gt (ha_jeeterPercentage holderAnalysis) (of_Z 50) then n_sub score (of_Z 15)
    else if n_gt (ha_jeeterPercentage holderAnalysis) (of_Z 30) then n_sub score (of_Z 10)
    else if n_gt (ha_jeeterPercentage holderAnalysis) (of_Z 15) then n_sub score (of_Z 5)
    else score in
  let score :=
    if n_lt (ha_holderConcentration holderAnalysis) (of_Z 10)
       && n_lt (ha_jeeterPercentage holderAnalysis) (of_Z 10)
    then n_add score (of_Z 10)
    else score in
  Math_max (of_Z 0) (Math_min (of_Z 100) (Math_round score)).

End RiskCalculator.

(* ================================================================== *)
(** ** utils/bundle-detector.ts *)
(* ================================================================== *)

(** The reasons of a bundle; two of them quote a number. *)
Inductive BundleReason :=
| SimilarHoldTimes
| HighCombinedPercentage (pct : num)
| JeetersInBundle (count : nat).

Record BundleGroup := {
  addresses : list string;
  totalPercentage : num;
  averageBalance : num;
  isSuspicious : bool;
  bundle_reasons : list BundleReason
}.

Record CoordinatedActivity := {
  hasBundles : bool;
  bundleCount : nat;
  suspiciousBundles : list BundleGroup
}.

Module BundleDetector.

(** [Math.max(...xs)] and [Math.min(...xs)] *)
Definition maxOf (xs : list num) : num := fold_left Math_max xs NInf.
Definition minOf (xs : list num) : num := fold_left Math_min xs PInf.

(** One iteration of the inner loop: holder [hj] against the current one. *)
Definition similarStep (currentHolder : HolderInfo)
                       (st : list HolderInfo * gset string) (hj : HolderInfo)
  : list HolderInfo * gset string :=
  let '(similarHolders, processed) := st in
  if bool_decide (address hj ∈ processed) then (similarHolders, processed)
  else
    let balanceDiff :=
      Math_abs (n_div (n_sub (balance currentHolder) (balance hj))
                      (balance currentHolder)) in
    if n_lt balanceDiff (Fin 0.05) && n_gt (percentage hj) (Fin 0.1)
    then (similarHolders ++ [hj], processed ∪ {[address hj]})
    else (similarHolders, processed).

(** The bundle reported for a group of three or more similar holders. *)
Definition makeBundle (similarHolders : list HolderInfo) : BundleGroup :=
  let totalPercentage := sum_nums (map percentage similarHolders) in
  let averageBalance :=
    n_div (sum_nums (map balance similarHolders))
          (of_nat (length similarHolders)) in
  let reasons : list BundleReason := [] in
  let isSuspicious := false in
  let avgHoldTimes := omap averageHoldTime similarHolders in
  let '(isSuspicious, reasons) :=
    if (2 <=? length avgHoldTimes)%nat then
      let holdTimeVariance := n_sub (maxOf avgHoldTimes) (minOf avgHoldTimes) in
      if n_lt holdTimeVariance (of_Z 10)
      then (true, reasons ++ [SimilarHoldTimes])
      else (isSuspicious, reasons)
    else (isSuspicious, reasons) in
  let '(isSuspicious, reasons) :=
    if n_gt totalPercentage (of_Z 5)
    then (true, reasons ++ [HighCombinedPercentage totalPercentage])
    else (isSuspicious, reasons) in
  let jeeterCount :=
    length (List.filter (fun h => bool_decide (isJeeter h = Some true))
                        similarHolders) in
  let '(isSuspicious, reasons) :=
    if (2 <=? jeeterCount)%nat
    then (true, reasons ++ [JeetersInBundle jeeterCount])
    else (isSuspicious, reasons) in
  {| addresses := map address similarHolders;
     totalPercentage := totalPercentage;
     averageBalance := averageBalance;
     isSuspicious := isSuspicious;
     bundle_reasons := reasons |}.

(** The outer loop from index [i] on: [holders] is [holders[i..]], the
    inner loop runs over its tail. *)
Fixpoint detectFrom (holders : list HolderInfo) (processed : gset string)
                    (bundles : list BundleGroup) : list BundleGroup :=
  match holders with
  | [] => bundles
  | currentHolder :: rest =>
      if bool_decide (address currentHolder ∈ processed)
      then detectFrom rest processed bundles
      else
        let processed := processed ∪ {[address currentHolder]} in
        let '(similarHolders, processed) :=
          fold_left (similarStep currentHolder) rest ([currentHolder], processed) in
        let bundles :=
          if (3 <=? length similarHolders)%nat
          then bundles ++ [makeBundle similarHolders]
          else bundles in
        detectFrom rest processed bundles
  end.

Definition detectBundles (holders : list HolderInfo) : list BundleGroup :=
  detectFrom holders ∅ [].

Definition detectCoordinatedActivity (holders : list HolderInfo)
  : CoordinatedActivity :=
  let bundles := detectBundles holders in
  let suspiciousBundles := List.filter isSuspicious bundles in
  {| hasBundles := (0 <? length bundles)%nat;
     bundleCount := length bundles;
     suspiciousBundles := suspiciousBundles |}.

End BundleDetector.

(* ================================================================== *)
(** ** analyzers/dip-prediction.analyzer.ts *)
(* ================================================================== *)

Record DipPrediction := {
  dp_isDipOpportunity : bool;
  dp_isDipTrap : bool;
  dp_dipConfidence : num;
  dp_reasons : list string;
  dp_expectedDipDepth : num;
  dp_entryZone : EntryZone
}.

Module DipPredictionAnalyzer.

(** [score += k; reasons.push(text)] under the condition [c]. *)
Definition signal (c : bool) (k : Z) (text : string)
                  (st : num * list string) : num * list string :=
  if c then (n_add (fst st) (of_Z k), snd st ++ [text]) else st.

Definition predict (transactionAnalysis : TransactionAnalysis)
                   (walletQuality : WalletQualityAnalysis)
                   (lpHealth : LPHealthSignals)
                   (currentPrice : num) : DipPrediction :=
  let reasons : list string := [] in
  let opportunityScore := of_Z 0 in
  let trapScore := of_Z 0 in
  (* opportunity signals *)
  let '(opportunityScore, reasons) :=
    signal (n_gt (buySellRatio transactionAnalysis) (Fin 0.6)) 20
           "Buying pressure increasing" (opportunityScore, reasons) in
  let '(opportunityScore, reasons) :=
    signal (n_gt (highQualityWalletCount walletQuality) (of_Z 0)) 15
           "Strong wallets accumulating" (opportunityScore, reasons) in
  let '(opportunityScore, reasons) :=
    signal (negb (jeeterDominance walletQuality)
            && negb (sniperDominance walletQuality)) 15
           "Jeeters/snipers cleared out" (opportunityScore, reasons) in
  let '(opportunityScore, reasons) :=
    signal (isHealthy lpHealth) 10 "LP health good" (opportunityScore, reasons) in
  let '(opportunityScore, reasons) :=
    signal (negb (detected (mevPatterns transactionAnalysis))
            || n_lt (mevScore (mevPatterns transactionAnalysis)) (of_Z 30)) 10
           "Low MEV activity" (opportunityScore, reasons) in
  (* trap signals *)
  let '(trapScore, reasons) :=
    signal (sniperDominance walletQuality) 25
           "Snipers still dominant - likely trap" (trapScore, reasons) in
  let '(trapScore, reasons) :=
    signal (detected (mevPatterns transactionAnalysis)
            && n_gt (mevScore (mevPatterns transactionAnalysis)) (of_Z 50)) 20
           "High MEV activity - manipulation likely" (trapScore, reasons) in
  let '(trapScore, reasons) :=
    signal (negb (isHealthy lpHealth)) 20
           "LP health poor - risk of removal" (trapScore, reasons) in
  let '(trapScore, reasons) :=
    signal (n_lt (buySellRatio transactionAnalysis) (Fin 0.4)) 15
           "Selling pressure still high" (trapScore, reasons) in
  let '(trapScore, reasons) :=
    signal (n_gt (transactionsPerMinute transactionAnalysis) (of_Z 5)
            && n_lt (averageTransactionSize transactionAnalysis) (of_Z 100)) 15
           "Possible router arbitrage manipulation" (trapScore, reasons) in
  (* outcome *)
  let '(isDipOpportunity, isDipTrap, dipConfidence) :=
    if n_gt opportunityScore trapScore && n_ge opportunityScore (of_Z 40) then
      (true, false, Math_min (of_Z 100) opportunityScore)
    else if n_gt trapScore opportunityScore && n_ge trapScore (of_Z 40) then
      (false, true, Math_min (of_Z 100) trapScore)
    else
      (false, false, Math_max opportunityScore trapScore) in
  let expectedDipDepth :=
    if isDipTrap then of_Z 20
    else if isDipOpportunity then of_Z 5
    else of_Z 0 in
  let entryZone :=
    if isDipOpportunity then ThreeLayer.scaleZone currentPrice 0.95 1.05 0.98
    else if isDipTrap then ThreeLayer.scaleZone currentPrice 0.7 0.9 0.8
    else
      {| zone_min := n_mul currentPrice (Fin 0.9);
         zone_max := n_mul currentPrice (Fin 1.1);
         zone_optimal := currentPrice |} in
  {| dp_isDipOpportunity := isDipOpportunity;
     dp_isDipTrap := isDipTrap;
     dp_dipConfidence := dipConfidence;
     dp_reasons := reasons;
     dp_expectedDipDepth := expectedDipDepth;
     dp_entryZone := entryZone |}.

End DipPredictionAnalyzer.

(* ================================================================== *)
(** ** analyzers/safety-filter.analyzer.ts *)
(* ================================================================== *)

(** [null] of the source is [None]. *)
Record SafetyDetails := {
  lpLocked : bool;
  lpHealthy : bool;
  renounced : option bool;
  honeypot : bool;
  hasBlacklist : option bool;
  mintAbuse : bool;
  feeAbuse : bool;
  scamPatterns : bool;
  cleanContract : option bool;
  safeTokenomics : bool
}.

Record SafetyFilterResult := {
  sf_passed : bool;
  sf_failedChecks : list string;
  sf_warnings : list string;
  sf_details : SafetyDetails
}.

Module SafetyFilterAnalyzer.

(** [if (fails) failedChecks.push(text)] *)
Definition check (fails : bool) (text : string) (failedChecks : list string)
  : list string :=
  if fails then failedChecks ++ [text] else failedChecks.

Definition analyze (tokenInfo : TokenInfo) (holderAnalysis : HolderAnalysis)
                   (lpHealth : LPHealthSignals) (jeeterFlags : JeeterZoneFlags)
                   (walletQuality : option WalletQualityAnalysis)
  : SafetyFilterResult :=
  let failedChecks : list string := [] in
  (* 1. LP locked and healthy *)
  let lpHealthy := isHealthy lpHealth && n_ge (healthScore lpHealth) (of_Z 70) in
  let lpLocked := isHealthy lpHealth && n_gt (liquidityAmount lpHealth) (of_Z 0) in
  let failedChecks := check (negb lpLocked) "LP not locked or unhealthy" failedChecks in
  let failedChecks := check (negb lpHealthy) "LP health score too low" failedChecks in
  (* 3. honeypot patterns *)
  let suspiciousHolderPattern :=
    n_gt (ha_jeeterPercentage holderAnalysis) (of_Z 60)
    || n_gt (ha_holderConcentration holderAnalysis) (of_Z 80) in
  let honeypot := suspiciousHolderPattern in
  let failedChecks := check honeypot "Honeypot patterns detected" failedChecks in
  (* 5. mint abuse *)
  let supply := n_or (supply tokenInfo) (of_Z 0) in
  let maxSupply := of_Z (10 ^ 12) in
  let mintAbuse := n_gt supply maxSupply in
  let failedChecks :=
    check mintAbuse "Potential mint abuse (supply too high)" failedChecks in
  (* 7. scam patterns *)
  let hasSniperDominance :=
    match walletQuality with
    | Some wq => sniperDominance wq
    | None => false
    end in
  let scamPatterns :=
    isJeeterZone jeeterFlags
    || hasSniperDominance
    || n_gt (ha_jeeterRiskScore holderAnalysis) (of_Z 70) in
  let failedChecks := check scamPatterns "Scam patterns detected" failedChecks in
  (* 9. safe tokenomics *)
  let hasReasonableDistribution :=
    n_lt (ha_holderConcentration holderAnalysis) (of_Z 60)
    && n_lt (ha_jeeterPercentage holderAnalysis) (of_Z 50)
    && n_ge (ha_totalHolders holderAnalysis) (of_Z 20) in
  let safeTokenomics := hasReasonableDistribution in
  let failedChecks :=
    check (negb safeTokenomics)
          "Unsafe tokenomics (too concentrated or jeeter-heavy)" failedChecks in
  let passed := (length failedChecks =? 0)%nat in
  {| sf_passed := passed;
     sf_failedChecks := failedChecks;
     sf_warnings := [];
     sf_details :=
       {| lpLocked := lpLocked;
          lpHealthy := lpHealthy;
          renounced := None;
          honeypot := honeypot;
          hasBlacklist := None;
          mintAbuse := mintAbuse;
          feeAbuse := false;
          scamPatterns := scamPatterns;
          cleanContract := None;
          safeTokenomics := safeTokenomics |} |}.

End SafetyFilterAnalyzer.

(* ================================================================== *)
(** ** services/coin-discovery.service.ts: scoring helpers *)
(* ================================================================== *)

Inductive EntryRecommendation := avoid | cautious | good | strong.

Module CoinDiscoveryService.

Definition calculateProfitPotential (outcome : Outcome) (marketHealthScore : num)
  : num :=
  if negb (isDipOpportunity outcome) then of_Z 0
  else
    let profit := of_Z 100 in
    let profit :=
      if n_ge (combinedScore outcome) (of_Z 80) then n_add profit (of_Z 150)
      else if n_ge (combinedScore outcome) (of_Z 70) then n_add profit (of_Z 100)
      else if n_ge (combinedScore outcome) (of_Z 60) then n_add profit (of_Z 50)
      else profit in
    let profit :=
      n_add profit (n_mul (n_sub marketHealthScore (of_Z 70)) (Fin 0.5)) in
    let profit :=
      n_add profit (n_mul (n_sub (dipConfidence outcome) (of_Z 50)) (Fin 0.3)) in
    Math_max (of_Z 100) (Math_min (of_Z 300) (Math_round profit)).

Definition calculateOverallScore (marketHealthScore : num) (threeLayerOutcome : Outcome)
  : num :=
  let score :=
    n_add (n_mul marketHealthScore (Fin 0.3))
          (n_mul (combinedScore threeLayerOutcome) (Fin 0.7)) in
  Math_max (of_Z 0) (Math_min (of_Z 100) (Math_round score)).

Definition mapEntryRecommendation (outcome : Outcome) : EntryRecommendation :=
  if isDipTrap outcome then avoid
  else if isDipOpportunity outcome && n_ge (combinedScore outcome) (of_Z 75) then strong
  else if isDipOpportunity outcome then good
  else cautious.

End CoinDiscoveryService.

(* ================================================================== *)
(** ** services/holder.service.ts: the computation of [analyzeHolders] *)
(* ================================================================== *)

(** A fetched holder: address and balance. *)
Record HolderBalance := {
  hb_address : string;
  hb_balance : num
}.

Module HolderService.

(** [{ address, balance, percentage: (balance / totalSupply) * 100 }] *)
Definition toHolderInfo (totalSupply : num) (holder : HolderBalance) : HolderInfo :=
  {| address := hb_address holder;
     balance := hb_balance holder;
     percentage := n_mul (n_div (hb_balance holder) totalSupply) (of_Z 100);
     firstSeen := None; lastSeen := None; transactionCount := None;
     buyTransactions := None; sellTransactions := None;
     averageHoldTime := None;
     isJeeter := None; jeeterScore := None; isBundle := None |}.

(** [holder.isJeeter = jeeterResult.isJeeter;
     holder.jeeterScore = jeeterResult.score] *)
Definition markJeeter (holder : HolderInfo) : HolderInfo :=
  let jeeterResult := JeeterDetector.detectJeeter holder in
  {| address := address holder;
     balance := balance holder;
     percentage := percentage holder;
     firstSeen := firstSeen holder; lastSeen := lastSeen holder;
     transactionCount := transactionCount holder;
     buyTransactions := buyTransactions holder;
     sellTransactions := sellTransactions holder;
     averageHoldTime := averageHoldTime holder;
     isJeeter := Some (jv_isJeeter jeeterResult);
     jeeterScore := Some (jv_score jeeterResult);
     isBundle := isBundle holder |}.

(** The loop over [holders.slice(0, 20)] writes to the holder objects,
    which the slice shares with [holders]: the first twenty holders of
    [holders] are the ones updated. *)
Definition markTopHolders (holders : list HolderInfo) : list HolderInfo :=
  map markJeeter (js_slice holders 0 (Some 20)) ++ js_slice holders 20 None.

(** The part of [analyzeHolders] between the fetches.  [totalSupply] and
    [holdersData] are the fetched supply and holders, [txAnalysis] the
    transaction analysis when the service has one, [volumeData] the
    fetched pair (volume5m, volume24h) when there is one. *)
Definition analyzeHolders (totalSupply : num) (holdersData : list HolderBalance)
                          (txAnalysis : option TransactionAnalysis)
                          (volumeData : option (num * num)) : HolderAnalysis :=
  let holders := map (toHolderInfo totalSupply) holdersData in
  let holders := markTopHolders holders in
  let jeeterMetrics := JeeterDetector.calculateJeeterMetrics holders in
  let bundles := BundleDetector.detectBundles holders in
  let top10Holders := js_slice holders 0 (Some 10) in
  let holderConcentration := sum_nums (map percentage top10Holders) in
  let jeeterCount :=
    length (List.filter (fun h => bool_decide (isJeeter h = Some true)) holders) in
  let jeeterPercentage := JeeterDetector.percentOf jeeterCount (length holders) in
  let averageHoldTime := jm_averageHoldTime jeeterMetrics in
  let buySellRatio :=
    match txAnalysis with
    | Some analysis => buySellRatio analysis
    | None => Fin 0.5
    end in
  let volumeSpikiness :=
    match volumeData with
    | Some (volume5m, volume24h) =>
        if n_gt volume5m (n_mul volume24h (Fin 0.3)) then of_Z 80 else of_Z 20
    | None => of_Z 0
    end in
  let holderAnalysis :=
    {| ha_totalHolders := of_nat (length holders);
       ha_topHolders := js_slice holders 0 (Some 20);
       ha_jeeterCount := of_nat jeeterCount;
       ha_jeeterPercentage := jeeterPercentage;
       ha_bundleCount := of_nat (length bundles);
       ha_averageHoldTime := averageHoldTime;
       ha_holderConcentration := holderConcentration;
       ha_jeeterRiskScore := of_Z 0;
       ha_buySellRatio := buySellRatio;
       ha_volumeSpikiness := volumeSpikiness;
       ha_riskLevel := Low |} in
  let jeeterRiskScore :=
    RiskCalculator.calculateJeeterRiskScore holderAnalysis jeeterMetrics in
  {| ha_totalHolders := ha_totalHolders holderAnalysis;
     ha_topHolders := ha_topHolders holderAnalysis;
     ha_jeeterCount := ha_jeeterCount holderAnalysis;
     ha_jeeterPercentage := ha_jeeterPercentage holderAnalysis;
     ha_bundleCount := ha_bundleCount holderAnalysis;
     ha_averageHoldTime := ha_averageHoldTime holderAnalysis;
     ha_holderConcentration := ha_holderConcentration holderAnalysis;
     ha_jeeterRiskScore := jeeterRiskScore;
     ha_buySellRatio := ha_buySellRatio holderAnalysis;
     ha_volumeSpikiness := ha_volumeSpikiness holderAnalysis;
     ha_riskLevel := RiskCalculator.getRiskLevel jeeterRiskScore |}.

End HolderService.

(* ================================================================== *)
(** ** Scenarios of the services *)
(* ================================================================== *)

Module Scenarios.

(** A swap of [usd] dollars by the wallet [w] at time 0. *)
Definition swap (ty : TxType) (usd : Z) (w : string)
  : TransactionService.SwapTransaction :=
  {| TransactionService.st_signature := "sig";
     TransactionService.st_timestamp := of_Z 0;
     TransactionService.st_type := ty;
     TransactionService.amountUsd := of_Z usd;
     TransactionService.amountTokens := of_Z 1;
     TransactionService.st_price := of_Z usd;
     TransactionService.wallet := w;
     TransactionService.slippage := None |}.

Definition twoSwaps : list TransactionService.SwapTransaction :=
  [swap buy 100 "w1"; swap sell 40 "w2"].

(** The analysis of one fetched holder with 1% of a supply of 1000. *)
Definition fetched : HolderAnalysis :=
  HolderService.analyzeHolders (of_Z 1000)
    [{| hb_address := "h1"; hb_balance := of_Z 10 |}] None None.

(** The wallet analysis of a single sniper. *)
Definition sniperQuality : WalletQualityAnalysis :=
  WalletQualityAnalyzer.analyze [Samples.sniperHolder].

(** A pool of $3k against a market cap of $100k. *)
Definition starvedToken : TokenInfo :=
  Samples.tokenWith (Some (of_Z 100000)) (Some (of_Z 3000)).

(** Signals of a score of 70 each, outside the jeeter zone. *)
Definition goodMicro : MicrostructureSignals :=
  Samples.microWith (of_Z 70) (of_Z 0).

Definition goodStructural : StructuralSignals :=
  Samples.structuralWith (of_Z 70) false (of_Z 0).

End Scenarios.

(* ================================================================== *)
(** ** Vocabulary of the properties of the services *)
(* ================================================================== *)

(** The points of the first rule of a chain whose condition holds. *)
Fixpoint pickFirst (rules : list (bool * Z)) : Z :=
  match rules with
  | [] => 0
  | (c, k) :: rest => if c then k else pickFirst rest
  end.

(** The four risk tiers in increasing order. *)
Definition tierRank (l : HolderRiskLevel) : Z :=
  match l with Low => 0 | Moderate => 1 | High => 2 | Critical => 3 end.

(** A finite number between two rationals. *)
Definition between (lo hi : Q) (a : num) : Prop :=
  match a with
  | Fin q => (lo <= q <= hi)%Q
  | _ => False
  end.

(* ================================================================== *)
(** ** Vocabulary of the specification *)
(* ================================================================== *)

(** The classification rules in their order of precedence. *)
Definition classificationRules : list ((HolderInfo -> bool) * WalletCategory) :=
  [ (WalletQualityAnalyzer.isSniper, sniper);
    (WalletQualityAnalyzer.jeeterFlagged, jeeter);
    (WalletQualityAnalyzer.isMEVBot, mev_bot);
    ((fun h => n_gt (percentage h) (of_Z 5)), whale);
    (WalletQualityAnalyzer.isStrongHands, strong_hands);
    (WalletQualityAnalyzer.isWeakHands, weak_hands) ].

(** The category of the first rule that matches, [unknown] if none does. *)
Fixpoint firstMatch (rules : list ((HolderInfo -> bool) * WalletCategory))
                    (h : HolderInfo) : WalletCategory :=
  match rules with
  | [] => unknown
  | (applies, cat) :: rest => if applies h then cat else firstMatch rest h
  end.

(** The number of holders of a list that are classified as [cat]. *)
Definition countCategory (cat : WalletCategory) (holders : list HolderInfo) : nat :=
  length
    (List.filter
       (fun h => category_eqb (category (WalletQualityAnalyzer.classifyWallet h)) cat)
       holders).

(** The overall quality score of the specification for a non-empty list:
    100*(strongHands + whale)/total - 50*jeeterFraction - 30*sniperFraction,
    clamped to [0, 100]. *)
Definition spec_overallQuality (holders : list HolderInfo) : Q :=
  let total := inject_Z (Z.of_nat (length holders)) in
  let count cat := inject_Z (Z.of_nat (countCategory cat holders)) in
  Qmax 0
    (Qmin 100
       (100 * ((count strong_hands + count whale) / total)
        - 50 * (count jeeter / total)
        - 30 * (count sniper / total)))%Q.

(** The weight [k] of a rule whose condition is [c]. *)
Definition weight (c : bool) (k : Z) : Z := if c then k else 0.

(** A token snapshot that differs from [t] in its liquidity only. *)
Definition withLiquidity (t : TokenInfo) (l : option num) : TokenInfo :=
  {| tokenAddress := tokenAddress t; symbol := symbol t; name := name t;
     decimals := decimals t; supply := supply t; marketCap := marketCap t;
     tokenPrice := tokenPrice t; liquidity := l |}.

(** The schedule of the liquidity health score: the deduction for the
    absolute liquidity and the deduction for the LP / market cap ratio. *)
Definition liquidityPenalty (l : num) : Z :=
  if n_lt l (of_Z 5000) then 40
  else if n_lt l (of_Z 10000) then 20
  else if n_lt l (of_Z 50000) then 10
  else 0.

Definition ratioPenalty (r : num) : Z :=
  if n_lt r (Fin 0.05) then 30
  else if n_lt r (Fin 0.1) then 15
  else if n_gt r (Fin 0.5) then 10
  else 0.

(** The health score as C6 states it: both deductions always apply. *)
Definition stated_healthScore (l mc r : num) : Z :=
  if n_gt mc (of_Z 0) && n_eq l (of_Z 0) then 0
  else Z.max 0 (Z.min 100 (100 - liquidityPenalty l - ratioPenalty r)).

(** The health score as the analyzer computes it: the ratio deduction
    applies to a positive ratio only. *)
Definition guarded_healthScore (l mc r : num) : Z :=
  if n_gt mc (of_Z 0) && n_eq l (of_Z 0) then 0
  else Z.max 0 (Z.min 100
         (100 - liquidityPenalty l
          - (if n_gt r (of_Z 0) then ratioPenalty r else 0))).

(** The three terminal states of the outcome predictor. *)
Inductive Verdict := Opportunity | Trap | Wait.

(** The state a pair of flags stands for; no state has both flags set. *)
Definition verdictOfFlags (o : Outcome) : option Verdict :=
  match isDipOpportunity o, isDipTrap o with
  | true, false => Some Opportunity
  | false, true => Some Trap
  | false, false => Some Wait
  | true, true => None
  end.

(** The state announced by a decision line of the debug trace. *)
Definition verdictOfLine (d : DebugLine) : option Verdict :=
  match d with
  | DebugText t =>
      if String.eqb t "Decision: Jeeter zone => Trap" then Some Trap
      else if String.eqb t "Decision: microGood & structuralGood => Opportunity"
      then Some Opportunity
      else if String.eqb t "Decision: microPoor & structuralPoor => Trap"
      then Some Trap
      else if String.eqb t "Decision: Mixed signals => Wait/Cautious"
      then Some Wait
      else None
  | _ => None
  end.

(** The branch the predictor took: the state of its last debug line. *)
Definition decidedVerdict (o : Outcome) : option Verdict :=
  match last (debug o) with
  | Some d => verdictOfLine d
  | None => None
  end.





(** The same sum as the source writes it ([combinedScoreRaw]). *)
Definition combinedScoreRaw (micro : MicrostructureSignals)
                            (structural : StructuralSignals) : num :=
  let m := ThreeLayer.nanTo (of_Z 0) (microScore micro) in
  let s := ThreeLayer.nanTo (of_Z 0) (structuralScore structural) in
  let v := ThreeLayer.nanTo (of_Z 0) (volatilityTrendPct micro) in
  n_add
    (n_add (n_mul m PARAMS.w_microstructure) (n_mul s PARAMS.w_structural))
    (n_mul
       (Math_max (of_Z 0) (n_mul (n_sub (of_Z 1) (Math_abs v)) (of_Z 100)))
       PARAMS.w_volatility).


(** The last step of the predictor on a confidence:
    [isNaN(x) ? 0 : Math.max(0, Math.min(100, Math.round(x)))]. *)
Definition finalClamp (x : num) : num :=
  if isNaN x then of_Z 0
  else Math_max (of_Z 0) (Math_min (of_Z 100) (Math_round x)).


(** A structural record that differs from [s] in the risk score of its
    jeeter flags only. *)
Definition withRiskScore (s : StructuralSignals) (r : num) : StructuralSignals :=
  let f := jeeterFlags s in
  {| walletQualityAnalysis := walletQualityAnalysis s;
     lpHealthSignals := lpHealthSignals s;
     sellerExhaustion := sellerExhaustion s;
     jeeterFlags :=
       {| highSellToBuyRatio := highSellToBuyRatio f;
          fastHolderRotation := fastHolderRotation f;
          snipersEnteringEarly := snipersEnteringEarly f;
          quickDumps := quickDumps f;
          liquidityDrainage := liquidityDrainage f;
          mevSpam := mevSpam f;
          tooManySwapBots := tooManySwapBots f;
          noStrongWalletAccumulation := noStrongWalletAccumulation f;
          lpTooThin := lpTooThin f;
          routerArbitragePump := routerArbitragePump f;
          creatorWalletActivity := creatorWalletActivity f;
          suspiciousLPBehavior := suspiciousLPBehavior f;
          riskScore := r;
          isJeeterZone := isJeeterZone f |};
     structuralScore := structuralScore s;
     structural_reasons := structural_reasons s |}.

(* ================================================================== *)
(** * Properties *)
(* ================================================================== *)

(** ** Order and arithmetic facts on [num] *)

Lemma Qltb_spec (x y : Q) : reflect (x < y)%Q (Qltb x y).
Proof.
  unfold Qltb. destruct (x ?= y)%Q eqn:E; constructor.
  - intros H. pose proof (proj1 (Qlt_alt x y) H) as H'. congruence.
  - exact (proj2 (Qlt_alt x y) E).
  - intros H. pose proof (proj1 (Qlt_alt x y) H) as H'. congruence.
Qed.

Lemma Qleb_spec (x y : Q) : reflect (x <= y)%Q (Qle_bool x y).
Proof.
  destruct (Qle_bool x y) eqn:E; constructor.
  - now apply Qle_bool_iff.
  - intros H. apply Qle_bool_iff in H. congruence.
Qed.

Lemma Qeqb_spec (x y : Q) : reflect (x == y)%Q (Qeq_bool x y).
Proof.
  destruct (Qeq_bool x y) eqn:E; constructor.
  - now apply Qeq_bool_iff.
  - intros H. apply Qeq_bool_iff in H. congruence.
Qed.

(** Case analysis on every boolean comparison of rationals in sight. *)
Ltac q_cases :=
  repeat match goal with
    | |- context [Qltb ?x ?y] => destruct (Qltb_spec x y)
    | |- context [Qle_bool ?x ?y] => destruct (Qleb_spec x y)
    | |- context [Qeq_bool ?x ?y] => destruct (Qeqb_spec x y)
    | H : context [Qltb ?x ?y] |- _ => destruct (Qltb_spec x y)
    | H : context [Qle_bool ?x ?y] |- _ => destruct (Qleb_spec x y)
    | H : context [Qeq_bool ?x ?y] |- _ => destruct (Qeqb_spec x y)
    end.

Lemma of_Z_add (a b : Z) : n_add (of_Z a) (of_Z b) = of_Z (a + b).
Proof.
  unfold of_Z, n_add, inject_Z, Qplus. simpl.
  now rewrite !Z.mul_1_r.
Qed.

Lemma of_Z_sub (a b : Z) : n_sub (of_Z a) (of_Z b) = of_Z (a - b).
Proof.
  unfold n_sub, of_Z, n_add, n_neg, inject_Z, Qplus, Qopp. simpl.
  rewrite !Z.mul_1_r. reflexivity.
Qed.

Lemma of_Z_lt (a b : Z) : n_lt (of_Z a) (of_Z b) = (a <? b).
Proof.
  unfold of_Z, n_lt. destruct (Qltb_spec (inject_Z a) (inject_Z b)) as [H|H].
  - rewrite <- Zlt_Qlt in H. symmetry. now apply Z.ltb_lt.
  - rewrite <- Zlt_Qlt in H. symmetry. now apply Z.ltb_nlt.
Qed.

Lemma of_Z_le (a b : Z) : n_le (of_Z a) (of_Z b) = (a <=? b).
Proof.
  unfold of_Z, n_le. destruct (Qleb_spec (inject_Z a) (inject_Z b)) as [H|H].
  - rewrite <- Zle_Qle in H. symmetry. now apply Z.leb_le.
  - rewrite <- Zle_Qle in H. symmetry. now apply Z.leb_nle.
Qed.

Lemma of_Z_max (a b : Z) : Math_max (of_Z a) (of_Z b) = of_Z (Z.max a b).
Proof.
  unfold Math_max. change (Fin (inject_Z a)) with (of_Z a).
  change (Fin (inject_Z b)) with (of_Z b).
  cbn [of_Z]. fold (of_Z a) (of_Z b). rewrite of_Z_lt.
  destruct (Z.ltb_spec a b); f_equal; lia.
Qed.

Lemma of_Z_min (a b : Z) : Math_min (of_Z a) (of_Z b) = of_Z (Z.min a b).
Proof.
  unfold Math_min. cbn [of_Z]. fold (of_Z a) (of_Z b). rewrite of_Z_lt.
  destruct (Z.ltb_spec b a); f_equal; lia.
Qed.

Lemma of_Z_round (a : Z) : Math_round (of_Z a) = of_Z a.
Proof.
  unfold Math_round, of_Z. f_equal. f_equal.
  assert (H : (inject_Z a <= inject_Z a + (1 # 2))%Q) by lra.
  assert (H' : (inject_Z a + (1 # 2) < inject_Z (a + 1))%Q).
  { rewrite inject_Z_plus. change (inject_Z 1) with 1%Q. lra. }
  pose proof (Qfloor_le (inject_Z a + (1 # 2))) as Hf.
  pose proof (Qlt_floor (inject_Z a + (1 # 2))) as Hc.
  assert (inject_Z (Qfloor (inject_Z a + (1 # 2))) < inject_Z (a + 1))%Q by lra.
  assert (inject_Z a < inject_Z (Qfloor (inject_Z a + (1 # 2)) + 1))%Q by lra.
  rewrite <- Zlt_Qlt in *. lia.
Qed.

Lemma of_Z_not_NaN (a : Z) : isNaN (of_Z a) = false.
Proof. reflexivity. Qed.

(** ** Seller exhaustion *)

(** The additive score of the seller-exhaustion analyzer is an integer
    between 0 and 100. *)
Lemma exhaustionScore_range Math_sqrt tx ph :
  exists z, exhaustionScore (SellerExhaustionAnalyzer.analyze Math_sqrt tx ph) = of_Z z
            /\ 0 <= z <= 100.
Proof.
  unfold SellerExhaustionAnalyzer.analyze. cbn [exhaustionScore].
  repeat match goal with
         | |- context [if ?b then _ else _] => destruct b
         end;
    rewrite ?of_Z_add; eexists; (split; [reflexivity | lia]).
Qed.

(** C8.  The bottom signal of the seller-exhaustion analyzer is the
    conjunction of four conditions: the additive score is at least 60, the
    price range is tight (volatility below 0.05), seller dominance has
    collapsed (buy ratio above 0.6) and MEV is inactive (not detected, or
    its score below 20); the three signals it reads are the reported
    fields; and the additive score never exceeds 100. *)
Theorem bottom_signal_is_conjunctive_gate :
  forall (Math_sqrt : num -> num) (tx : TransactionAnalysis) (ph : list PricePoint),
    let s := SellerExhaustionAnalyzer.analyze Math_sqrt tx ph in
    (isBottomSignal s = true <->
       n_ge (exhaustionScore s) (of_Z 60) = true
       /\ tightPriceRange s = true
       /\ sellerDominanceCollapse s = true
       /\ mevInactivity s = true)
    /\ tightPriceRange s
       = n_lt (SellerExhaustionAnalyzer.calculatePriceVolatility Math_sqrt ph) (Fin 0.05)
    /\ sellerDominanceCollapse s = n_gt (buySellRatio tx) (Fin 0.6)
    /\ mevInactivity s
       = (negb (detected (mevPatterns tx)) || n_lt (mevScore (mevPatterns tx)) (of_Z 20))
    /\ n_le (exhaustionScore s) (of_Z 100) = true.
Proof.
  intros Math_sqrt tx ph s.
  split; [| split; [reflexivity | split; [reflexivity | split; [reflexivity |]]]].
  - subst s. unfold SellerExhaustionAnalyzer.analyze.
    cbn [isBottomSignal exhaustionScore tightPriceRange sellerDominanceCollapse
         mevInactivity].
    rewrite !andb_true_iff. tauto.
  - destruct (exhaustionScore_range Math_sqrt tx ph) as (z & Hz & Hr).
    subst s. rewrite Hz, of_Z_le. apply Z.leb_le. lia.
Qed.

(** C10.  With fewer than two price points the volatility is 1, so the
    tight-range and volatility-collapse signals are off and the bottom
    signal is off, whatever the flow statistics. *)
Theorem short_series_never_bottom :
  forall (Math_sqrt : num -> num) (tx : TransactionAnalysis) (ph : list PricePoint),
    (length ph < 2)%nat ->
    SellerExhaustionAnalyzer.calculatePriceVolatility Math_sqrt ph = of_Z 1
    /\ tightPriceRange (SellerExhaustionAnalyzer.analyze Math_sqrt tx ph) = false
    /\ volatilityCollapse (SellerExhaustionAnalyzer.analyze Math_sqrt tx ph) = false
    /\ isBottomSignal (SellerExhaustionAnalyzer.analyze Math_sqrt tx ph) = false.
Proof.
  intros Math_sqrt tx ph Hlen.
  assert (Hvol : SellerExhaustionAnalyzer.calculatePriceVolatility Math_sqrt ph = of_Z 1).
  { unfold SellerExhaustionAnalyzer.calculatePriceVolatility.
    destruct (Nat.ltb_spec (length ph) 2); [reflexivity | lia]. }
  assert (Htrend : SellerExhaustionAnalyzer.calculateVolatilityTrend Math_sqrt ph = of_Z 0).
  { unfold SellerExhaustionAnalyzer.calculateVolatilityTrend.
    destruct (Nat.ltb_spec (length ph) 10); [reflexivity | lia]. }
  unfold SellerExhaustionAnalyzer.analyze.
  cbn [tightPriceRange volatilityCollapse isBottomSignal].
  rewrite Hvol, Htrend.
  change (n_lt (of_Z 1) (Fin 0.05)) with false.
  change (n_lt (of_Z 0) (Fin (-0.2))) with false.
  rewrite !andb_false_r. simpl. auto.
Qed.

Lemma short_series_never_bottom_witness :
  (length (@nil PricePoint) < 2)%nat
  /\ isBottomSignal
       (SellerExhaustionAnalyzer.analyze Samples.sqrt_approx
          TransactionService.getEmptyAnalysis []) = false.
Proof.
  split; [simpl; lia |].
  apply (short_series_never_bottom Samples.sqrt_approx
           TransactionService.getEmptyAnalysis []).
  simpl; lia.
Defined.

(** ** Outcome predictor *)

(** The four branches of [predictOutcome], one goal per branch. *)
Ltac predict_branches :=
  unfold ThreeLayer.predictOutcome;
  match goal with
  | |- context [if isJeeterZone ?f then _ else _] => destruct (isJeeterZone f)
  end;
  [| match goal with
     | |- context [if ?g && ?h then _ else _] => destruct g; destruct h
     end ];
  cbn [andb negb].

(** C2.  Every call of [predictOutcome] ends in exactly one of the states
    Opportunity, Trap and Wait: the flags of the returned record stand
    for the state of the branch taken, they are never both set, and Wait
    is the branch taken exactly when both are clear. *)
Theorem predictOutcome_one_verdict :
  forall (currentPrice : num) (micro : MicrostructureSignals)
         (structural : StructuralSignals),
    let o := ThreeLayer.predictOutcome currentPrice micro structural in
    (exists v, verdictOfFlags o = Some v /\ decidedVerdict o = Some v)
    /\ (isDipOpportunity o && isDipTrap o = false)
    /\ (decidedVerdict o = Some Wait <->
        isDipOpportunity o = false /\ isDipTrap o = false).
Proof.
  intros cp micro structural o. subst o.
  predict_branches; (split; [| split]);
    try reflexivity;
    try (eexists; split; reflexivity);
    (split; [intros H | intros [H1 H2]]);
    try discriminate; try (split; reflexivity); reflexivity.
Qed.

Lemma predictOutcome_combinedScore cp micro structural :
  combinedScore (ThreeLayer.predictOutcome cp micro structural)
  = if isNaN (combinedScoreRaw micro structural) then of_Z 0
    else Math_max (of_Z 0)
           (Math_min (of_Z 100) (Math_round (combinedScoreRaw micro structural))).
Proof. predict_branches; reflexivity. Qed.


Lemma clamp_round_Fin (lo hi : Z) (q : Q) :
  Math_max (of_Z lo) (Math_min (of_Z hi) (Math_round (Fin q)))
  = of_Z (Z.max lo (Z.min hi (Qfloor (q + (1 # 2))))).
Proof. unfold Math_round. now rewrite of_Z_min, of_Z_max. Qed.











Lemma finalClamp_cases (x : num) :
  finalClamp x =
  match x with
  | NaN | NInf => of_Z 0
  | PInf => of_Z 100
  | Fin q => of_Z (Z.max 0 (Z.min 100 (Qfloor (q + (1 # 2)))))
  end.
Proof.
  destruct x; try reflexivity.
  unfold finalClamp. cbn [isNaN]. apply clamp_round_Fin.
Qed.

Lemma finalClamp_range (x : num) :
  exists k, finalClamp x = of_Z k /\ 0 <= k <= 100.
Proof.
  rewrite finalClamp_cases. destruct x; eexists; (split; [reflexivity | lia]).
Qed.

Lemma finalClamp_mono (a b : num) :
  n_le a b = true -> n_le (finalClamp a) (finalClamp b) = true.
Proof.
  rewrite !finalClamp_cases.
  destruct a as [| | |x], b as [| | |y]; cbn [n_le]; try discriminate;
    intros H; rewrite of_Z_le; apply Z.leb_le; try lia.
  destruct (Qleb_spec x y) as [Hxy|]; [| discriminate].
  assert (Qfloor (x + (1 # 2)) <= Qfloor (y + (1 # 2)))
    by (apply Qfloor_resp_le; lra).
  lia.
Qed.

Lemma Math_max_mono_r (c a b : num) :
  isNaN c = false -> n_le a b = true ->
  n_le (Math_max c a) (Math_max c b) = true.
Proof.
  destruct c as [| | |z], a as [| | |x], b as [| | |y];
    cbn [isNaN n_le Math_max n_lt]; try discriminate; intros _ H;
    try reflexivity; try assumption;
    q_cases; cbn [n_le]; try reflexivity; try discriminate;
    q_cases; try reflexivity; try discriminate; try lra.
Qed.

Lemma predictOutcome_dipConfidence_zone cp micro structural :
  isJeeterZone (jeeterFlags structural) = true ->
  dipConfidence (ThreeLayer.predictOutcome cp micro structural)
  = finalClamp
      (Math_max (combinedScore (ThreeLayer.predictOutcome cp micro structural))
                (ThreeLayer.nanTo (of_Z 50) (riskScore (jeeterFlags structural)))).
Proof.
  intros H. unfold ThreeLayer.predictOutcome. rewrite H. reflexivity.
Qed.

Lemma predictOutcome_dipConfidence_range cp micro structural :
  exists k, dipConfidence (ThreeLayer.predictOutcome cp micro structural) = of_Z k
            /\ 0 <= k <= 100.
Proof.
  predict_branches; cbn [dipConfidence];
    match goal with
    | |- context [if isNaN ?x then _ else _] => apply (finalClamp_range x)
    end.
Qed.

Lemma combinedScore_range cp micro structural :
  exists k, combinedScore (ThreeLayer.predictOutcome cp micro structural) = of_Z k
            /\ 0 <= k <= 100.
Proof.
  rewrite predictOutcome_combinedScore.
  apply (finalClamp_range (combinedScoreRaw micro structural)).
Qed.

(** Outside the jeeter zone nothing the predictor returns but the risk
    level reads the risk score. *)
Lemma predictOutcome_risk_irrelevant cp micro s r1 r2 :
  isJeeterZone (jeeterFlags s) = false ->
  dipConfidence (ThreeLayer.predictOutcome cp micro (withRiskScore s r1))
  = dipConfidence (ThreeLayer.predictOutcome cp micro (withRiskScore s r2)).
Proof.
  intros H. unfold ThreeLayer.predictOutcome.
  cbn [withRiskScore jeeterFlags isJeeterZone structuralScore riskScore].
  rewrite H.
  match goal with
  | |- context [if ?g && ?h then _ else _] => destruct g; destruct h
  end; reflexivity.
Qed.

(** C9.  Two inputs of [predictOutcome] that differ only in the risk
    score of the jeeter flags, the second having the larger one: if both
    calls select Trap, the confidence of the second is at least that of
    the first. *)
Theorem trap_confidence_monotone :
  forall (currentPrice : num) (micro : MicrostructureSignals)
         (structural : StructuralSignals) (r1 r2 : num),
    n_le r1 r2 = true ->
    isDipTrap (ThreeLayer.predictOutcome currentPrice micro
                 (withRiskScore structural r1)) = true ->
    isDipTrap (ThreeLayer.predictOutcome currentPrice micro
                 (withRiskScore structural r2)) = true ->
    n_le
      (dipConfidence (ThreeLayer.predictOutcome currentPrice micro
                        (withRiskScore structural r1)))
      (dipConfidence (ThreeLayer.predictOutcome currentPrice micro
                        (withRiskScore structural r2))) = true.
Proof.
  intros cp micro s r1 r2 Hr _ _.
  destruct (isJeeterZone (jeeterFlags s)) eqn:Hz.
  - rewrite !predictOutcome_dipConfidence_zone by exact Hz.
    rewrite !predictOutcome_combinedScore.
    change (combinedScoreRaw micro (withRiskScore s r1))
      with (combinedScoreRaw micro s).
    change (combinedScoreRaw micro (withRiskScore s r2))
      with (combinedScoreRaw micro s).
    cbn [withRiskScore jeeterFlags riskScore].
    apply finalClamp_mono, Math_max_mono_r.
    + destruct (finalClamp_range (combinedScoreRaw micro s)) as (k & Hk & _).
      unfold finalClamp in Hk. rewrite Hk. reflexivity.
    + destruct r1, r2; cbn [n_le] in Hr; try discriminate; exact Hr.
  - rewrite (predictOutcome_risk_irrelevant cp micro s r1 r2 Hz).
    destruct (predictOutcome_dipConfidence_range cp micro (withRiskScore s r2))
      as (k & Hk & _).
    rewrite Hk, of_Z_le. apply Z.leb_refl.
Qed.

Lemma trap_confidence_monotone_witness :
  n_le
    (dipConfidence
       (ThreeLayer.predictOutcome (of_Z 1) (Samples.microWith (of_Z 10) (of_Z 0))
          (withRiskScore (Samples.structuralWith (of_Z 20) true (of_Z 0)) (of_Z 60))))
    (dipConfidence
       (ThreeLayer.predictOutcome (of_Z 1) (Samples.microWith (of_Z 10) (of_Z 0))
          (withRiskScore (Samples.structuralWith (of_Z 20) true (of_Z 0)) (of_Z 90))))
  = true.
Proof.
  apply (trap_confidence_monotone (of_Z 1) (Samples.microWith (of_Z 10) (of_Z 0))
           (Samples.structuralWith (of_Z 20) true (of_Z 0)) (of_Z 60) (of_Z 90));
    reflexivity.
Defined.

(** ** Wallet classifier *)

(** C4.  [classifyWallet] returns the category of the first rule that
    matches in the order sniper, jeeter, MEV bot, whale, strong hands,
    weak hands, and [unknown] when none does; a holder whose average hold
    time is below 5 minutes and whose transaction count is above 10 is a
    sniper. *)
Theorem classifyWallet_precedence :
  (forall h : HolderInfo,
      category (WalletQualityAnalyzer.classifyWallet h)
      = firstMatch classificationRules h)
  /\ (forall (h : HolderInfo) (t c : num),
        averageHoldTime h = Some t -> n_lt t (of_Z 5) = true ->
        transactionCount h = Some c -> n_gt c (of_Z 10) = true ->
        category (WalletQualityAnalyzer.classifyWallet h) = sniper).
Proof.
  split.
  - intros h. unfold WalletQualityAnalyzer.classifyWallet, classificationRules.
    cbn [firstMatch].
    destruct (WalletQualityAnalyzer.isSniper h); [reflexivity |].
    destruct (WalletQualityAnalyzer.jeeterFlagged h); [reflexivity |].
    destruct (WalletQualityAnalyzer.isMEVBot h); [reflexivity |].
    destruct (n_gt (percentage h) (of_Z 5)).
    + destruct (num_and (averageHoldTime h) _); [reflexivity |].
      destruct (num_and (averageHoldTime h) _); reflexivity.
    + destruct (WalletQualityAnalyzer.isStrongHands h); [reflexivity |].
      destruct (WalletQualityAnalyzer.isWeakHands h); reflexivity.
  - intros h t c Ht Hlt Hc Hgt.
    unfold WalletQualityAnalyzer.classifyWallet, WalletQualityAnalyzer.isSniper.
    rewrite Ht, Hc. cbn [num_defined_and num_and]. rewrite Hlt.
    assert (Htr : truthy c = true).
    { destruct c as [| | |q]; cbn in Hgt |- *; try discriminate; try reflexivity.
      q_cases; try discriminate; try reflexivity.
      exfalso. change (inject_Z 10) with 10%Q in *. lra. }
    unfold n_gt in Hgt |- *. rewrite Htr, Hgt. reflexivity.
Qed.

Lemma classifyWallet_precedence_witness :
  category (WalletQualityAnalyzer.classifyWallet Samples.sniperHolder) = sniper.
Proof.
  apply (proj2 classifyWallet_precedence Samples.sniperHolder (of_Z 3) (of_Z 15));
    reflexivity.
Defined.

(** ** Liquidity health *)

(** C6 (amended).  The liquidity health score starts at 100, loses 40,
    20 or 10 for a liquidity below $5k, $10k or $50k, and, only when
    the LP / market cap ratio is positive, 30, 15 or 10 for a ratio
    below 0.05, below 0.1 or above 0.5; it is 0 when the market cap is
    positive and the liquidity is 0; it lies in [0, 100]; and the token
    is healthy exactly when the score is at least 60.  The reported ratio
    is liquidity / market cap for a positive market cap and 0 otherwise. *)
Theorem lp_health_schedule :
  forall tok : TokenInfo,
    let l := num_or (liquidity tok) (of_Z 0) in
    let mc := num_or (marketCap tok) (of_Z 0) in
    let sg := LPHealthAnalyzer.analyze tok in
    lpRatio sg = (if n_gt mc (of_Z 0) then n_div l mc else of_Z 0)
    /\ healthScore sg = of_Z (guarded_healthScore l mc (lpRatio sg))
    /\ 0 <= guarded_healthScore l mc (lpRatio sg) <= 100
    /\ (isHealthy sg = true <-> 60 <= guarded_healthScore l mc (lpRatio sg)).
Proof.
  intros tok l mc sg.
  assert (Hr : lpRatio sg = (if n_gt mc (of_Z 0) then n_div l mc else of_Z 0)).
  { subst sg. unfold LPHealthAnalyzer.analyze. fold l mc.
    repeat match goal with
           | |- context [let '(_, _) := (if ?b then _ else _) in _] => destruct b
           end; reflexivity. }
  assert (Hs : healthScore sg = of_Z (guarded_healthScore l mc (lpRatio sg))).
  { rewrite Hr. subst sg. unfold LPHealthAnalyzer.analyze. fold l mc.
    unfold guarded_healthScore, liquidityPenalty, ratioPenalty.
    set (r := if n_gt mc (of_Z 0) then n_div l mc else of_Z 0).
    destruct (n_gt mc (of_Z 0) && n_eq l (of_Z 0));
      destruct (n_lt l (of_Z 5000));
      [| destruct (n_lt l (of_Z 10000)); [| destruct (n_lt l (of_Z 50000))]
       | | destruct (n_lt l (of_Z 10000)); [| destruct (n_lt l (of_Z 50000))] ];
      (destruct (n_gt r (of_Z 0));
       [ destruct (n_lt r (Fin 0.05));
         [| destruct (n_lt r (Fin 0.1)); [| destruct (n_gt r (Fin 0.5))] ] |]);
      reflexivity. }
  assert (Hb : 0 <= guarded_healthScore l mc (lpRatio sg) <= 100).
  { unfold guarded_healthScore.
    destruct (n_gt mc (of_Z 0) && n_eq l (of_Z 0)); lia. }
  repeat split; try assumption; try lia.
  - intros H. replace (isHealthy sg) with (n_ge (healthScore sg) (of_Z 60)) in H.
    + unfold n_ge in H. rewrite Hs, of_Z_le in H. now apply Z.leb_le.
    + subst sg. unfold LPHealthAnalyzer.analyze.
      repeat match goal with
             | |- context [let '(_, _) := (if ?b then _ else _) in _] => destruct b
             end; reflexivity.
  - intros H. replace (isHealthy sg) with (n_ge (healthScore sg) (of_Z 60)).
    + unfold n_ge. rewrite Hs, of_Z_le. now apply Z.leb_le.
    + subst sg. unfold LPHealthAnalyzer.analyze.
      repeat match goal with
             | |- context [let '(_, _) := (if ?b then _ else _) in _] => destruct b
             end; reflexivity.
Qed.

(** C6 as stated fails on a token of $100k liquidity whose market cap is
    absent: the reported ratio is 0 and the quotient liquidity / market
    cap is +Infinity, so the stated schedule deducts 30 or 10, while the
    analyzer, which skips a ratio that is not positive, deducts nothing. *)
Lemma lp_health_schedule_counterexample :
  liquidity Samples.uncappedToken = Some (of_Z 100000)
  /\ marketCap Samples.uncappedToken = None
  /\ healthScore (LPHealthAnalyzer.analyze Samples.uncappedToken) = of_Z 100
  /\ lpRatio (LPHealthAnalyzer.analyze Samples.uncappedToken) = of_Z 0
  /\ n_div (of_Z 100000) (of_Z 0) = PInf
  /\ stated_healthScore (of_Z 100000) (of_Z 0) (of_Z 0) = 70
  /\ stated_healthScore (of_Z 100000) (of_Z 0) PInf = 90
  /\ healthScore (LPHealthAnalyzer.analyze Samples.uncappedToken)
     <> of_Z (stated_healthScore (of_Z 100000) (of_Z 0) (of_Z 0))
  /\ healthScore (LPHealthAnalyzer.analyze Samples.uncappedToken)
     <> of_Z (stated_healthScore (of_Z 100000) (of_Z 0) PInf).
Proof.
  repeat split; try (vm_compute; reflexivity); vm_compute; discriminate.
Qed.

(** ** Jeeter-zone detector *)

Lemma bump_of_Z (c : bool) (k z : Z) :
  JeeterZoneDetector.bump c k (of_Z z) = of_Z (z + weight c k).
Proof.
  unfold JeeterZoneDetector.bump, weight. destruct c.
  - apply of_Z_add.
  - f_equal. lia.
Qed.

(** The risk score is the sum of the weights of the twelve rules. *)
Lemma detect_riskScore tx wq tok :
  exists rest : Z,
    0 <= rest <= 165
    /\ riskScore (JeeterZoneDetector.detect tx wq (withLiquidity tok None)) = of_Z rest
    /\ riskScore (JeeterZoneDetector.detect tx wq tok)
       = of_Z (rest
               + weight (num_and (liquidity tok) (fun l => n_lt l (of_Z 10000))) 15
               + weight (num_and (liquidity tok) (fun l => n_lt l (of_Z 5000))) 20).
Proof.
  unfold JeeterZoneDetector.detect. cbn [riskScore withLiquidity liquidity num_and].
  rewrite !bump_of_Z. cbn [weight].
  eexists. split; [| split; [reflexivity |]].
  - unfold weight.
    repeat match goal with
           | |- context [if ?b then _ else _] => destruct b
           end; lia.
  - f_equal. lia.
Qed.

Lemma detect_lpTooThin tx wq tok :
  lpTooThin (JeeterZoneDetector.detect tx wq tok)
  = (num_and (liquidity tok) (fun l => n_lt l (of_Z 10000))
     || num_and (liquidity tok) (fun l => n_lt l (of_Z 5000))).
Proof. reflexivity. Qed.

Lemma detect_isJeeterZone tx wq tok :
  isJeeterZone (JeeterZoneDetector.detect tx wq tok)
  = n_ge (riskScore (JeeterZoneDetector.detect tx wq tok)) (of_Z 50).
Proof. reflexivity. Qed.

(** C5 (amended).  In the jeeter-zone detector, a liquidity that is
    present, non-zero and below $10k sets the thin-liquidity flag and
    adds 15 to the risk score, and one that is also below $5k adds a
    further 20 (35 in all), on top of what the rules that do not read the
    liquidity add; a liquidity that is absent, 0 or NaN leaves the flag
    off and adds nothing; and the token is in the jeeter zone exactly
    when the risk score is at least 50. *)
Theorem thin_liquidity_flags :
  (forall (tx : TransactionAnalysis) (wq : WalletQualityAnalysis)
          (tok : TokenInfo) (l : num),
      liquidity tok = Some l ->
      truthy l = true ->
      n_lt l (of_Z 10000) = true ->
      let f := JeeterZoneDetector.detect tx wq tok in
      let rest :=
        riskScore (JeeterZoneDetector.detect tx wq (withLiquidity tok None)) in
      lpTooThin f = true
      /\ riskScore f
         = n_add (n_add rest (of_Z 15))
                 (if n_lt l (of_Z 5000) then of_Z 20 else of_Z 0))
  /\ (forall (tx : TransactionAnalysis) (wq : WalletQualityAnalysis)
             (tok : TokenInfo),
        (liquidity tok = None
         \/ exists l : num, liquidity tok = Some l /\ truthy l = false) ->
        let f := JeeterZoneDetector.detect tx wq tok in
        let rest :=
          riskScore (JeeterZoneDetector.detect tx wq (withLiquidity tok None)) in
        lpTooThin f = false /\ riskScore f = rest)
  /\ (forall (tx : TransactionAnalysis) (wq : WalletQualityAnalysis)
             (tok : TokenInfo),
        isJeeterZone (JeeterZoneDetector.detect tx wq tok) = true <->
        n_le (of_Z 50) (riskScore (JeeterZoneDetector.detect tx wq tok)) = true).
Proof.
  split; [| split].
  - intros tx wq tok l Hl Ht H10 f rest.
    destruct (detect_riskScore tx wq tok) as (z & Hz & Hrest & Hf).
    subst f rest. rewrite detect_lpTooThin, Hrest, Hf, Hl.
    cbn [num_and]. rewrite Ht, H10. cbn [andb orb weight].
    split; [reflexivity |].
    destruct (n_lt l (of_Z 5000)); cbn [weight]; rewrite !of_Z_add; f_equal; lia.
  - intros tx wq tok Hl f rest.
    destruct (detect_riskScore tx wq tok) as (z & Hz & Hrest & Hf).
    subst f rest. rewrite detect_lpTooThin, Hrest, Hf.
    assert (Hoff : forall p, num_and (liquidity tok) p = false).
    { intros p. destruct Hl as [-> | (l & -> & Ht)]; cbn [num_and];
        [| rewrite Ht]; reflexivity. }
    rewrite !Hoff. cbn [orb weight]. split; [reflexivity |]. f_equal. lia.
  - intros tx wq tok. rewrite detect_isJeeterZone. unfold n_ge. tauto.
Qed.

Lemma thin_liquidity_flags_witness :
  (lpTooThin
     (JeeterZoneDetector.detect TransactionService.getEmptyAnalysis
        Samples.noWallets Samples.thinToken) = true
   /\ riskScore
        (JeeterZoneDetector.detect TransactionService.getEmptyAnalysis
           Samples.noWallets Samples.thinToken)
      = n_add
          (n_add
             (riskScore
                (JeeterZoneDetector.detect TransactionService.getEmptyAnalysis
                   Samples.noWallets (withLiquidity Samples.thinToken None)))
             (of_Z 15))
          (if n_lt (of_Z 3000) (of_Z 5000) then of_Z 20 else of_Z 0))
  /\ (lpTooThin
        (JeeterZoneDetector.detect TransactionService.getEmptyAnalysis
           Samples.noWallets Samples.drainedToken) = false
      /\ riskScore
           (JeeterZoneDetector.detect TransactionService.getEmptyAnalysis
              Samples.noWallets Samples.drainedToken)
         = riskScore
             (JeeterZoneDetector.detect TransactionService.getEmptyAnalysis
                Samples.noWallets (withLiquidity Samples.drainedToken None))).
Proof.
  split.
  - apply (proj1 thin_liquidity_flags TransactionService.getEmptyAnalysis
             Samples.noWallets Samples.thinToken (of_Z 3000));
      reflexivity.
  - apply (proj1 (proj2 thin_liquidity_flags) TransactionService.getEmptyAnalysis
             Samples.noWallets Samples.drainedToken).
    right. exists (of_Z 0). split; reflexivity.
Defined.

(** C5 as stated fails on a liquidity of 0, which is below $10k and below
    $5k: the detector skips a liquidity that is absent or 0, so neither
    weight is added and the flag stays off. *)
Lemma thin_liquidity_flags_counterexample :
  liquidity Samples.drainedToken = Some (of_Z 0)
  /\ n_lt (of_Z 0) (of_Z 10000) = true
  /\ n_lt (of_Z 0) (of_Z 5000) = true
  /\ lpTooThin
       (JeeterZoneDetector.detect TransactionService.getEmptyAnalysis
          Samples.noWallets Samples.drainedToken) = false
  /\ riskScore
       (JeeterZoneDetector.detect TransactionService.getEmptyAnalysis
          Samples.noWallets Samples.drainedToken)
     = riskScore
         (JeeterZoneDetector.detect TransactionService.getEmptyAnalysis
            Samples.noWallets (withLiquidity Samples.drainedToken None)).
Proof.
  repeat split; vm_compute; reflexivity.
Qed.

(** ** Wallet quality over a holder list *)

Lemma inject_Z_eq0 (k : Z) : (inject_Z k == 0)%Q -> k = 0.
Proof. unfold Qeq, inject_Z. simpl. lia. Qed.

Lemma getCount_of_Z (m : gmap WalletCategory num) (c : WalletCategory) (k : Z) :
  m !! c = Some (of_Z k) -> WalletQualityAnalyzer.getCount m c = of_Z k.
Proof.
  intros H. unfold WalletQualityAnalyzer.getCount, num_or. rewrite H.
  unfold truthy, of_Z. destruct (Qeqb_spec (inject_Z k) 0) as [E|E]; [| reflexivity].
  apply inject_Z_eq0 in E. now subst k.
Qed.

Lemma initialDistribution_lookup (c : WalletCategory) :
  WalletQualityAnalyzer.initialDistribution !! c = Some (of_Z 0).
Proof. destruct c; vm_compute; reflexivity. Qed.

Lemma countCategory_cons (c : WalletCategory) (h : HolderInfo) (hs : list HolderInfo) :
  Z.of_nat (countCategory c (h :: hs))
  = (if category_eqb (category (WalletQualityAnalyzer.classifyWallet h)) c
     then 1 else 0)
    + Z.of_nat (countCategory c hs).
Proof.
  unfold countCategory. cbn [List.filter].
  destruct (category_eqb _ c); cbn [length]; lia.
Qed.

(** The loop over the holders counts each category. *)
Lemma classifyAll_counts (holders : list HolderInfo) :
  forall (st : gmap string WalletQualityScore * gmap WalletCategory num)
         (f : WalletCategory -> Z),
    (forall c, st.2 !! c = Some (of_Z (f c))) ->
    forall c,
      (fold_left WalletQualityAnalyzer.classifyStep holders st).2 !! c
      = Some (of_Z (f c + Z.of_nat (countCategory c holders))).
Proof.
  induction holders as [| h hs IH]; intros [ws d] f Hf c.
  - cbn. rewrite Hf. do 2 f_equal. unfold countCategory. cbn. lia.
  - cbn [fold_left].
    set (cat := category (WalletQualityAnalyzer.classifyWallet h)).
    rewrite (IH _ (fun c => f c + if category_eqb cat c then 1 else 0)).
    + rewrite countCategory_cons. fold cat. do 2 f_equal. lia.
    + intros c'. unfold WalletQualityAnalyzer.classifyStep. cbn [snd]. fold cat.
      cbn in Hf.
      unfold category_eqb. destruct (bool_decide_reflect (cat = c')) as [E|E].
      * subst c'. rewrite lookup_insert_eq.
        rewrite (getCount_of_Z d cat (f cat)) by apply Hf.
        now rewrite of_Z_add.
      * rewrite lookup_insert_ne by exact E. rewrite Hf. do 2 f_equal. lia.
Qed.

Lemma classifyAll_getCount (holders : list HolderInfo) (c : WalletCategory) :
  WalletQualityAnalyzer.getCount (WalletQualityAnalyzer.classifyAll holders).2 c
  = of_Z (Z.of_nat (countCategory c holders)).
Proof.
  apply getCount_of_Z. unfold WalletQualityAnalyzer.classifyAll.
  rewrite (classifyAll_counts holders _ (fun _ => 0)).
  - reflexivity.
  - intros c'. apply initialDistribution_lookup.
Qed.

Lemma n_div_of_Z (x t : Z) :
  0 < t -> n_div (of_Z x) (of_Z t) = Fin (inject_Z x / inject_Z t).
Proof.
  intros Ht. unfold n_div, of_Z, Qsign.
  destruct (inject_Z t ?= 0)%Q eqn:E; try reflexivity.
  apply Qeq_alt in E. apply inject_Z_eq0 in E. lia.
Qed.

Lemma clamp_Fin (q : Q) :
  exists q', Math_max (of_Z 0) (Math_min (of_Z 100) (Fin q)) = Fin q'
             /\ (q' == Qmax 0 (Qmin 100 q))%Q.
Proof.
  unfold Math_min, Math_max, of_Z, n_lt.
  change (inject_Z 100) with 100%Q. change (inject_Z 0) with 0%Q.
  destruct (Qltb_spec q 100) as [H1|H1].
  - destruct (Qltb_spec 0 q) as [H2|H2]; eexists; (split; [reflexivity |]).
    + rewrite (Q.min_r 100 q) by lra. rewrite Q.max_r by lra. reflexivity.
    + rewrite (Q.min_r 100 q) by lra. rewrite Q.max_l by lra. reflexivity.
  - destruct (Qltb_spec 0 100) as [_|H2]; [| exfalso; apply H2; reflexivity].
    eexists; (split; [reflexivity |]).
    rewrite (Q.min_l 100 q) by lra. rewrite Q.max_r by lra. reflexivity.
Qed.

(** C7.  The overall quality score of the empty holder list is exactly
    0, and that of a non-empty list is
    100*(strongHands + whale)/total - 50*jeeterFraction - 30*sniperFraction
    clamped to [0, 100], with the counts of the holders classified as
    strong hands, whale, jeeter and sniper. *)
Theorem overall_quality_score :
  overallQualityScore (WalletQualityAnalyzer.analyze []) = of_Z 0
  /\ forall (h : HolderInfo) (hs : list HolderInfo),
      exists q : Q,
        overallQualityScore (WalletQualityAnalyzer.analyze (h :: hs)) = Fin q
        /\ (q == spec_overallQuality (h :: hs))%Q.
Proof.
  split; [reflexivity |].
  intros h hs. unfold WalletQualityAnalyzer.analyze.
  pose proof (classifyAll_getCount (h :: hs)) as Hc.
  destruct (WalletQualityAnalyzer.classifyAll (h :: hs)) as [ws d].
  cbn [snd] in Hc.
  change (length (h :: hs) =? 0)%nat with false. cbn iota.
  cbn [overallQualityScore]. rewrite !Hc.
  unfold of_nat. set (t := Z.of_nat (length (h :: hs))).
  assert (Ht : 0 < t) by (subst t; cbn [length]; lia).
  unfold n_gt at 1. rewrite of_Z_lt.
  destruct (Z.ltb_spec 0 t) as [_|]; [| lia].
  rewrite of_Z_add, !n_div_of_Z by exact Ht.
  cbn [n_mul n_sub n_neg n_add of_Z].
  match goal with
  | |- context [Math_min (of_Z 100) (Fin ?x)] =>
      destruct (clamp_Fin x) as (q' & Hq' & Eq')
  end.
  exists q'. split; [exact Hq' |].
  rewrite Eq'. unfold spec_overallQuality. fold t.
  apply Q.max_compat; [reflexivity |].
  apply Q.min_compat; [reflexivity |].
  rewrite inject_Z_plus. change (inject_Z 100) with 100%Q.
  change (inject_Z 50) with 50%Q. change (inject_Z 30) with 30%Q.
  unfold Qminus, Qdiv. ring.
Qed.

(** ** Orchestration *)

(** On a non-empty price history the orchestrator returns, with a
    combined score and a confidence that are integers of [0, 100]. *)
Lemma analyzeToken_returns Math_sqrt (p : PricePoint) (ps : list PricePoint)
      tx holders tok :
  exists r kc kd,
    ThreeLayer.analyzeToken Math_sqrt (p :: ps) tx holders tok = Return r
    /\ combinedScore (outcome r) = of_Z kc /\ 0 <= kc <= 100
    /\ dipConfidence (outcome r) = of_Z kd /\ 0 <= kd <= 100.
Proof.
  unfold ThreeLayer.analyzeToken.
  destruct (last (p :: ps)) as [lp|] eqn:E.
  - match goal with
    | |- context [ThreeLayer.predictOutcome ?cp ?m ?s] =>
        destruct (combinedScore_range cp m s) as (kc & Hc & Hcr);
        destruct (predictOutcome_dipConfidence_range cp m s) as (kd & Hd & Hdr)
    end.
    eexists _, kc, kd. split; [reflexivity |]. cbn [outcome]. auto.
  - apply last_None in E. discriminate.
Qed.

(** A run of the whole pipeline: the empty flow analysis, two holders
    and a thin pool give a risk score of 110, a Trap verdict and a
    confidence clamped to 100. *)
Example analyzeToken_run :
  exists r,
    ThreeLayer.analyzeToken Samples.sqrt_approx Samples.flatPrices
      TransactionService.getEmptyAnalysis Samples.twoHolders Samples.thinToken
    = Return r
    /\ riskScore (jeeterFlags (meta_structural r)) = of_Z 110
    /\ isDipTrap (outcome r) = true
    /\ combinedScore (outcome r) = of_Z 54
    /\ dipConfidence (outcome r) = of_Z 100.
Proof.
  eexists. split; [reflexivity |]. repeat split; vm_compute; reflexivity.
Qed.

(** C1, evaluated on the source.  On the empty price history
    [analyzeToken] throws a TypeError, whatever the other inputs; and the
    risk score of the jeeter-zone detector, documented as 0-100, is 110
    on a sell-heavy flow of small transactions over a thin pool with no
    holder data. *)
Theorem analyzeToken_empty_history_throws :
  (forall (Math_sqrt : num -> num) (tx : TransactionAnalysis)
          (holders : list HolderInfo) (tok : TokenInfo),
      ThreeLayer.analyzeToken Math_sqrt [] tx holders tok
      = Throw (TypeError "Cannot read properties of undefined (reading 'price')"))
  /\ riskScore
       (JeeterZoneDetector.detect Samples.dumpFlow
          Samples.noWallets Samples.thinToken) = of_Z 110
  /\ n_le
       (riskScore
          (JeeterZoneDetector.detect Samples.dumpFlow
             Samples.noWallets Samples.thinToken))
       (of_Z 100) = false.
Proof.
  split; [intros; reflexivity |].
  split; vm_compute; reflexivity.
Qed.

(* ================================================================== *)
(** * Properties of the services and utilities *)
(* ================================================================== *)

(** ** Risk calculator *)

Lemma pickFirst_bounds (rules : list (bool * Z)) (hi : Z) :
  0 <= hi -> Forall (fun r => 0 <= r.2 <= hi) rules ->
  0 <= pickFirst rules <= hi.
Proof.
  intros Hhi. induction 1 as [| [c k] rest Hk _ IH]; cbn [pickFirst]; [lia |].
  destruct c; cbn in Hk; lia.
Qed.

Lemma chain3_add (c1 c2 c3 : bool) z k1 k2 k3 :
  (if c1 then n_add (of_Z z) (of_Z k1)
   else if c2 then n_add (of_Z z) (of_Z k2)
   else if c3 then n_add (of_Z z) (of_Z k3)
   else of_Z z)
  = of_Z (z + pickFirst [(c1, k1); (c2, k2); (c3, k3)]).
Proof.
  cbn [pickFirst]. destruct c1, c2, c3; rewrite ?of_Z_add; f_equal; lia.
Qed.

Lemma chain4_add (c1 c2 c3 c4 : bool) z k1 k2 k3 k4 :
  (if c1 then n_add (of_Z z) (of_Z k1)
   else if c2 then n_add (of_Z z) (of_Z k2)
   else if c3 then n_add (of_Z z) (of_Z k3)
   else if c4 then n_add (of_Z z) (of_Z k4)
   else of_Z z)
  = of_Z (z + pickFirst [(c1, k1); (c2, k2); (c3, k3); (c4, k4)]).
Proof.
  cbn [pickFirst]. destruct c1, c2, c3, c4; rewrite ?of_Z_add; f_equal; lia.
Qed.

(** The jeeter risk score as the sum of its seven buckets. *)
Lemma calculateJeeterRiskScore_buckets ha jm :
  RiskCalculator.calculateJeeterRiskScore ha jm
  = of_Z
      (Z.min 100
         (0
          + pickFirst [(n_lt (jm_averageHoldTime jm) (of_Z 5), 20);
                       (n_lt (jm_averageHoldTime jm) (of_Z 30), 15);
                       (n_lt (jm_averageHoldTime jm) (of_Z 60), 10);
                       (n_lt (jm_averageHoldTime jm) (of_Z 120), 5)]
          + pickFirst [(n_gt (roundTripperPercentage jm) (of_Z 60), 20);
                       (n_gt (roundTripperPercentage jm) (of_Z 40), 15);
                       (n_gt (roundTripperPercentage jm) (of_Z 20), 10);
                       (n_gt (roundTripperPercentage jm) (of_Z 10), 5)]
          + pickFirst
              [(n_gt (n_mul (n_div (botLikePatterns jm) (ha_totalHolders ha))
                            (of_Z 100)) (of_Z 20), 15);
               (n_gt (n_mul (n_div (botLikePatterns jm) (ha_totalHolders ha))
                            (of_Z 100)) (of_Z 10), 10);
               (n_gt (n_mul (n_div (botLikePatterns jm) (ha_totalHolders ha))
                            (of_Z 100)) (of_Z 5), 5)]
          + pickFirst [(n_gt (sellVelocity jm) (of_Z 70), 15);
                       (n_gt (sellVelocity jm) (of_Z 50), 12);
                       (n_gt (sellVelocity jm) (of_Z 30), 8);
                       (n_gt (sellVelocity jm) (of_Z 15), 4)]
          + pickFirst [(n_gt (ha_holderConcentration ha) (of_Z 50), 15);
                       (n_gt (ha_holderConcentration ha) (of_Z 30), 12);
                       (n_gt (ha_holderConcentration ha) (of_Z 20), 8);
                       (n_gt (ha_holderConcentration ha) (of_Z 10), 4)]
          + pickFirst [(n_gt (churnRate jm) (of_Z 60), 10);
                       (n_gt (churnRate jm) (of_Z 40), 7);
                       (n_gt (churnRate jm) (of_Z 20), 4);
                       (n_gt (churnRate jm) (of_Z 10), 2)]
          + pickFirst [(n_lt (ha_buySellRatio ha) (Fin 0.25), 5);
                       (n_lt (ha_buySellRatio ha) (Fin 0.4), 3);
                       (n_lt (ha_buySellRatio ha) (Fin 0.6), 1)])).
Proof.
  unfold RiskCalculator.calculateJeeterRiskScore.
  rewrite !chain4_add, chain3_add, !chain4_add, chain3_add.
  rewrite of_Z_round, of_Z_min. reflexivity.
Qed.

(** Replace every chain in sight by a number within its bounds. *)
Ltac chain_bounds hi :=
  repeat match goal with
    | |- context [pickFirst ?rules] =>
        let H := fresh "Hp" in
        assert (H : 0 <= pickFirst rules <= hi)
          by (apply pickFirst_bounds; [lia | repeat constructor; cbn; lia]);
        generalize dependent (pickFirst rules); intros
    end.

(** X1.  The jeeter risk score is an integer between 0 and 100 for every
    input, NaN and infinite metrics included. *)
Theorem jeeterRiskScore_range :
  forall (ha : HolderAnalysis) (jm : JeeterMetrics),
  exists k : Z,
    RiskCalculator.calculateJeeterRiskScore ha jm = of_Z k /\ 0 <= k <= 100.
Proof.
  intros ha jm. rewrite calculateJeeterRiskScore_buckets.
  eexists. split; [reflexivity |]. chain_bounds 20. lia.
Qed.

Lemma Qfloor_lower (z : Z) (y : Q) : (inject_Z z <= y)%Q -> z <= Qfloor y.
Proof. intros H. rewrite <- (Qfloor_Z z). now apply Qfloor_resp_le. Qed.

Lemma Qfloor_upper (z : Z) (y : Q) : (y <= inject_Z z)%Q -> Qfloor y <= z.
Proof. intros H. rewrite <- (Qfloor_Z z). now apply Qfloor_resp_le. Qed.

(** X2.  The risk tier never decreases when the score increases, and a
    score that is NaN falls in the lowest tier. *)
Theorem getRiskLevel_monotone :
  (forall a b : num,
      n_le a b = true ->
      tierRank (RiskCalculator.getRiskLevel a)
      <= tierRank (RiskCalculator.getRiskLevel b))
  /\ RiskCalculator.getRiskLevel NaN = Low.
Proof.
  split; [| reflexivity].
  intros a b H. unfold RiskCalculator.getRiskLevel, n_ge, of_Z.
  destruct a as [| | |x], b as [| | |y]; cbn [n_le] in *; try discriminate;
    change (inject_Z 80) with 80%Q; change (inject_Z 50) with 50%Q;
    change (inject_Z 20) with 20%Q;
    q_cases; cbn [tierRank]; try lia; try discriminate; exfalso; lra.
Qed.

Lemma getRiskLevel_monotone_witness :
  tierRank (RiskCalculator.getRiskLevel (of_Z 35))
  <= tierRank (RiskCalculator.getRiskLevel (of_Z 85)).
Proof.
  apply (proj1 getRiskLevel_monotone (of_Z 35) (of_Z 85)). reflexivity.
Defined.

(** X3.  For a jeeter risk score in [0, 100] the overall token score is
    an integer between 15 and 100: the deductions never reach the floor
    of 0.  A risk score that is NaN is not intercepted: the overall score
    is NaN. *)
Theorem overallScore_range :
  forall ha : HolderAnalysis,
    (between 0 100 (ha_jeeterRiskScore ha) ->
     exists k : Z,
       RiskCalculator.calculateOverallScore ha = of_Z k /\ 15 <= k <= 100)
    /\ (ha_jeeterRiskScore ha = NaN ->
        RiskCalculator.calculateOverallScore ha = NaN).
Proof.
  intros ha. unfold RiskCalculator.calculateOverallScore. split.
  - destruct (ha_jeeterRiskScore ha) as [| | |q]; cbn [between]; try contradiction.
    intros [Hlo Hhi].
    cbn [n_mul n_sub n_neg n_add of_Z].
    destruct (n_gt (ha_holderConcentration ha) (of_Z 30));
      [| destruct (n_gt (ha_holderConcentration ha) (of_Z 20))];
      (destruct (n_gt (ha_jeeterPercentage ha) (of_Z 50));
       [| destruct (n_gt (ha_jeeterPercentage ha) (of_Z 30));
          [| destruct (n_gt (ha_jeeterPercentage ha) (of_Z 15))]]);
      destruct (n_lt (ha_holderConcentration ha) (of_Z 10)
                && n_lt (ha_jeeterPercentage ha) (of_Z 10));
      cbn [n_mul n_sub n_neg n_add of_Z];
      rewrite clamp_round_Fin; (eexists; split; [reflexivity |]);
      match goal with
      | |- context [Qfloor ?y] =>
          assert (15 <= Qfloor y)
            by (apply Qfloor_lower;
                change (inject_Z 15) with 15%Q; change (inject_Z 100) with 100%Q;
                change (inject_Z 20) with 20%Q; change (inject_Z 10) with 10%Q;
                change (inject_Z 5) with 5%Q; lra)
      end; lia.
  - intros ->. cbn [n_mul n_sub n_neg n_add].
    repeat match goal with
           | |- context [if ?b then _ else _] => destruct b
           end; reflexivity.
Qed.

Lemma overallScore_range_witness :
  exists k : Z,
    RiskCalculator.calculateOverallScore Scenarios.fetched = of_Z k /\ 15 <= k <= 100.
Proof.
  apply (proj1 (overallScore_range Scenarios.fetched)).
  vm_compute. split; discriminate.
Defined.

(** ** Jeeter detector *)

(** The verdict of [detectJeeter]: the uncapped score is an integer of
    [0, 100] and the flag compares it with 30. *)
Lemma detectJeeter_score (h : HolderInfo) :
  exists k : Z,
    jv_score (JeeterDetector.detectJeeter h) = of_Z k
    /\ jv_isJeeter (JeeterDetector.detectJeeter h) = (30 <=? k)
    /\ 0 <= k <= 100
    /\ (num_defined_and (averageHoldTime h) (fun t => n_lt t (of_Z 5)) = true ->
        30 <= k).
Proof.
  unfold JeeterDetector.detectJeeter.
  destruct (averageHoldTime h) as [t|]; cbn [num_defined_and];
    [destruct (n_lt t (of_Z 5));
     [| destruct (n_lt t (of_Z 30)); [| destruct (n_lt t (of_Z 60))]] |];
    (destruct (buyTransactions h) as [buys|];
     [destruct (sellTransactions h) as [sells|] |]);
    (destruct (transactionCount h) as [c|]; cbn [num_and]);
    repeat match goal with
           | |- context [if ?b then _ else _] => destruct b
           end;
    cbn [jv_score jv_isJeeter andb];
    rewrite ?of_Z_add; unfold n_ge; rewrite of_Z_le, of_Z_min;
    (eexists; split; [reflexivity |]);
    (split; [cbn; reflexivity |]); (split; [cbn; lia |]);
    intros; try discriminate; cbn; lia.
Qed.

(** X4.  [detectJeeter] returns an integer score between 0 and 100, and
    flags the holder exactly when that score is at least 30. *)
Theorem detectJeeter_threshold :
  forall h : HolderInfo,
  exists k : Z,
    jv_score (JeeterDetector.detectJeeter h) = of_Z k
    /\ 0 <= k <= 100
    /\ (jv_isJeeter (JeeterDetector.detectJeeter h) = true <-> 30 <= k).
Proof.
  intros h. destruct (detectJeeter_score h) as (k & Hs & Hj & Hr & _).
  exists k. split; [exact Hs |]. split; [exact Hr |].
  rewrite Hj. apply Z.leb_le.
Qed.

(** X5.  An average hold time below 5 minutes is enough to be flagged a
    jeeter, whatever the other fields of the holder. *)
Theorem short_hold_is_jeeter :
  forall (h : HolderInfo) (t : num),
    averageHoldTime h = Some t ->
    n_lt t (of_Z 5) = true ->
    jv_isJeeter (JeeterDetector.detectJeeter h) = true.
Proof.
  intros h t Ht Hlt.
  destruct (detectJeeter_score h) as (k & _ & Hj & _ & Hk).
  rewrite Hj. apply Z.leb_le, Hk. rewrite Ht. exact Hlt.
Qed.

Lemma short_hold_is_jeeter_witness :
  jv_isJeeter (JeeterDetector.detectJeeter Samples.sniperHolder) = true.
Proof.
  apply (short_hold_is_jeeter Samples.sniperHolder (of_Z 3)); reflexivity.
Defined.

(** A holder without hold time, transaction count and transaction lists. *)
Lemma detectJeeter_bare (h : HolderInfo) :
  averageHoldTime h = None -> transactionCount h = None ->
  buyTransactions h = None ->
  JeeterDetector.detectJeeter h
  = {| jv_isJeeter := false; jv_score := of_Z 0; jv_reasons := [] |}.
Proof.
  intros H1 H2 H3. unfold JeeterDetector.detectJeeter.
  rewrite H1, H2, H3. cbn [num_and andb].
  rewrite andb_false_r. reflexivity.
Qed.

Lemma of_nat_of_nat_div (c n : nat) :
  (0 < n)%nat ->
  n_mul (n_div (of_nat c) (of_nat n)) (of_Z 100)
  = Fin (inject_Z (Z.of_nat c) / inject_Z (Z.of_nat n) * 100).
Proof.
  intros Hn. unfold of_nat. rewrite n_div_of_Z by lia. reflexivity.
Qed.

Lemma ratio_unit (c n : Z) :
  0 <= c <= n -> 0 < n -> (0 <= inject_Z c / inject_Z n <= 1)%Q.
Proof.
  intros Hc Hn.
  assert (Hn' : (0 < inject_Z n)%Q) by (change 0%Q with (inject_Z 0); now rewrite <- Zlt_Qlt).
  assert (Hc0 : (0 <= inject_Z c)%Q) by (change 0%Q with (inject_Z 0); rewrite <- Zle_Qle; lia).
  assert (Hcn : (inject_Z c <= inject_Z n)%Q) by (rewrite <- Zle_Qle; lia).
  split.
  - apply Qle_shift_div_l; [exact Hn' | lra].
  - apply Qle_shift_div_r; [exact Hn' | lra].
Qed.

Lemma percentOf_between (c n : nat) :
  (c <= n)%nat -> between 0 100 (JeeterDetector.percentOf c n).
Proof.
  intros Hc. unfold JeeterDetector.percentOf.
  destruct (Nat.ltb_spec 0 n) as [Hn|Hn].
  - rewrite of_nat_of_nat_div by exact Hn. cbn [between].
    pose proof (ratio_unit (Z.of_nat c) (Z.of_nat n) ltac:(lia) ltac:(lia)) as [H0 H1].
    split; lra.
  - cbn. split; discriminate.
Qed.

Lemma filter_length_bound {A} (f : A -> bool) (l : list A) :
  (length (List.filter f l) <= length l)%nat.
Proof.
  induction l as [| a l IH]; cbn; [lia |]. destruct (f a); cbn; lia.
Qed.

(** X6.  The round-tripper percentage, the sell velocity and the churn
    rate of [calculateJeeterMetrics] are finite numbers between 0 and
    100 for every holder list, the empty one included, and the count of
    bot-like holders does not exceed the number of holders. *)
Theorem jeeterMetrics_percentages :
  forall holders : list HolderInfo,
    let jm := JeeterDetector.calculateJeeterMetrics holders in
    between 0 100 (roundTripperPercentage jm)
    /\ between 0 100 (sellVelocity jm)
    /\ between 0 100 (churnRate jm)
    /\ exists b : nat, botLikePatterns jm = of_nat b /\ (b <= length holders)%nat.
Proof.
  intros holders jm. subst jm. unfold JeeterDetector.calculateJeeterMetrics.
  cbn [roundTripperPercentage sellVelocity churnRate botLikePatterns].
  repeat split; try (apply percentOf_between, filter_length_bound).
  eexists. split; [reflexivity | apply filter_length_bound].
Qed.

(** ** Holder service *)

Lemma filter_none {A} (f : A -> bool) (l : list A) :
  Forall (fun a => f a = false) l -> List.filter f l = [].
Proof.
  induction 1 as [| a l Ha _ IH]; cbn; [reflexivity |]. now rewrite Ha.
Qed.

Lemma Forall_js_slice {A} (P : A -> Prop) (l : list A) start stop :
  Forall P l -> Forall P (js_slice l start stop).
Proof.
  intros H. unfold js_slice. apply Forall_take, Forall_drop, H.
Qed.

(** The holders that [analyzeHolders] works on carry no hold time, no
    transaction count and no transaction list, and none is flagged. *)
Lemma analyzeHolders_holders_bare (totalSupply : num) (data : list HolderBalance) :
  Forall
    (fun h => averageHoldTime h = None /\ transactionCount h = None
              /\ buyTransactions h = None /\ isJeeter h <> Some true)
    (HolderService.markTopHolders (map (HolderService.toHolderInfo totalSupply) data)).
Proof.
  assert (H0 : Forall
                 (fun h => averageHoldTime h = None /\ transactionCount h = None
                           /\ buyTransactions h = None /\ isJeeter h <> Some true)
                 (map (HolderService.toHolderInfo totalSupply) data)).
  { apply Forall_map, Forall_forall. intros d _. cbn. repeat split; discriminate. }
  unfold HolderService.markTopHolders. apply Forall_app. split.
  - apply Forall_map. eapply Forall_impl; [apply Forall_js_slice, H0 |].
    intros h (H1 & H2 & H3 & _). cbn.
    rewrite (detectJeeter_bare h H1 H2 H3). cbn. repeat split; auto; discriminate.
  - apply Forall_js_slice, H0.
Qed.

Lemma percentOf_zero (n : nat) :
  exists q, JeeterDetector.percentOf 0 n = Fin q /\ (q == 0)%Q.
Proof.
  unfold JeeterDetector.percentOf. destruct (Nat.ltb_spec 0 n) as [Hn|Hn].
  - rewrite of_nat_of_nat_div by exact Hn. eexists. split; [reflexivity |].
    cbn [Z.of_nat]. change (inject_Z 0) with 0%Q. unfold Qdiv. ring.
  - eexists. split; reflexivity.
Qed.

Lemma n_gt_zero_false (x : num) (k : Z) :
  (exists q, x = Fin q /\ (q == 0)%Q) -> 0 <= k -> n_gt x (of_Z k) = false.
Proof.
  intros (q & -> & E) Hk. unfold n_gt, n_lt, of_Z.
  destruct (Qltb_spec (inject_Z k) q) as [H|H]; [| reflexivity].
  exfalso. rewrite E in H. change 0%Q with (inject_Z 0) in H.
  rewrite <- Zlt_Qlt in H. lia.
Qed.

Lemma bot_percentage_zero (n : nat) (k : Z) :
  0 <= k ->
  n_gt (n_mul (n_div (of_nat 0) (of_nat n)) (of_Z 100)) (of_Z k) = false.
Proof.
  intros Hk. destruct n as [| n].
  - reflexivity.
  - apply n_gt_zero_false; [| exact Hk].
    rewrite of_nat_of_nat_div by lia. eexists. split; [reflexivity |].
    cbn [Z.of_nat]. change (inject_Z 0) with 0%Q. unfold Qdiv. ring.
Qed.

Lemma pickFirst_false (k : Z) (rest : list (bool * Z)) :
  pickFirst ((false, k) :: rest) = pickFirst rest.
Proof. reflexivity. Qed.

Lemma pickFirst_true (k : Z) (rest : list (bool * Z)) :
  pickFirst ((true, k) :: rest) = k.
Proof. reflexivity. Qed.

(** The metrics of holders without behavioural data. *)
Lemma calculateJeeterMetrics_bare (holders : list HolderInfo) :
  Forall
    (fun h => averageHoldTime h = None /\ transactionCount h = None
              /\ buyTransactions h = None /\ isJeeter h <> Some true)
    holders ->
  let jm := JeeterDetector.calculateJeeterMetrics holders in
  jm_averageHoldTime jm = of_Z 0
  /\ botLikePatterns jm = of_nat 0
  /\ (exists q, roundTripperPercentage jm = Fin q /\ (q == 0)%Q)
  /\ (exists q, sellVelocity jm = Fin q /\ (q == 0)%Q)
  /\ (exists q, churnRate jm = Fin q /\ (q == 0)%Q).
Proof.
  intros H jm. subst jm. unfold JeeterDetector.calculateJeeterMetrics.
  cbn [jm_averageHoldTime botLikePatterns roundTripperPercentage sellVelocity churnRate].
  assert (F1 : List.filter (fun h => bool_decide (is_Some (averageHoldTime h))) holders = []).
  { apply filter_none. eapply Forall_impl; [exact H |].
    intros h (H1 & _). cbn. rewrite H1. apply bool_decide_eq_false. intros [x Hx]. discriminate. }
  assert (F2 : List.filter JeeterDetector.hasRoundTrip holders = []).
  { apply filter_none. eapply Forall_impl; [exact H |].
    intros h (_ & _ & H3 & _). unfold JeeterDetector.hasRoundTrip. now rewrite H3. }
  assert (F3 : forall l, Forall
                 (fun h => averageHoldTime h = None /\ transactionCount h = None
                           /\ buyTransactions h = None /\ isJeeter h <> Some true) l ->
               forall k, List.filter (JeeterDetector.holdsBelow k) l = []).
  { intros l Hl k. apply filter_none. eapply Forall_impl; [exact Hl |].
    intros h (H1 & _). unfold JeeterDetector.holdsBelow. now rewrite H1. }
  assert (F4 : List.filter
                 (fun h => num_and (transactionCount h) (fun c => n_gt c (of_Z 100))
                           || JeeterDetector.holdsBelow 5 h) holders = []).
  { apply filter_none. eapply Forall_impl; [exact H |].
    intros h (H1 & H2 & _). cbn. unfold JeeterDetector.holdsBelow.
    now rewrite H1, H2. }
  rewrite F1, F2, F4, (F3 holders H), (F3 _ (Forall_js_slice _ _ _ _ H)).
  cbn [length Nat.ltb Nat.leb].
  repeat split; try apply percentOf_zero.
Qed.

(** The holders of [analyzeHolders] carry no transaction history: the
    first bucket of the risk score always adds 20, and only the
    concentration and the buy/sell ratio add more. *)
Lemma analyzeHolders_riskScore totalSupply data txAnalysis volumeData :
  exists k : Z,
    ha_jeeterRiskScore
      (HolderService.analyzeHolders totalSupply data txAnalysis volumeData) = of_Z k
    /\ 20 <= k <= 40.
Proof.
  pose proof (analyzeHolders_holders_bare totalSupply data) as Hb.
  pose proof (calculateJeeterMetrics_bare _ Hb) as (M1 & M2 & M3 & M4 & M5).
  unfold HolderService.analyzeHolders. cbn [ha_jeeterRiskScore].
  set (holders := HolderService.markTopHolders
                    (map (HolderService.toHolderInfo totalSupply) data)) in *.
  rewrite calculateJeeterRiskScore_buckets.
  cbn [ha_totalHolders ha_holderConcentration ha_buySellRatio].
  rewrite M1, M2.
  rewrite !(n_gt_zero_false _ _ M3), !(n_gt_zero_false _ _ M4),
          !(n_gt_zero_false _ _ M5), !bot_percentage_zero by lia.
  change (n_lt (of_Z 0) (of_Z 5)) with true.
  rewrite !pickFirst_false, pickFirst_true. change (pickFirst []) with 0.
  eexists. split; [reflexivity |].
  match goal with
  | |- context [pickFirst ((?c, 5) :: ?rest)] =>
      assert (0 <= pickFirst ((c, 5) :: rest) <= 5)
        by (apply pickFirst_bounds; [lia | repeat constructor; cbn; lia]);
      generalize dependent (pickFirst ((c, 5) :: rest)); intros
  end.
  match goal with
  | |- context [pickFirst ?rules] =>
      assert (0 <= pickFirst rules <= 15)
        by (apply pickFirst_bounds; [lia | repeat constructor; cbn; lia]);
      generalize dependent (pickFirst rules); intros
  end.
  lia.
Qed.

Lemma analyzeHolders_riskLevel totalSupply data txAnalysis volumeData :
  ha_riskLevel (HolderService.analyzeHolders totalSupply data txAnalysis volumeData)
  = RiskCalculator.getRiskLevel
      (ha_jeeterRiskScore
         (HolderService.analyzeHolders totalSupply data txAnalysis volumeData)).
Proof.
  unfold HolderService.analyzeHolders. cbn [ha_riskLevel ha_jeeterRiskScore].
  reflexivity.
Qed.

(** X7.  Whatever supply, holders, transaction analysis and volume are
    fetched, [analyzeHolders] flags no holder as jeeter, its jeeter risk
    score is an integer between 20 and 40 and its risk level is Moderate:
    the holders are built without transaction history, so the average
    hold time of the metrics is 0 and only the concentration and
    buy/sell buckets vary. *)
Theorem analyzeHolders_always_moderate :
  forall (totalSupply : num) (data : list HolderBalance)
         (txAnalysis : option TransactionAnalysis) (volumeData : option (num * num)),
    let ha := HolderService.analyzeHolders totalSupply data txAnalysis volumeData in
    ha_jeeterCount ha = of_nat 0
    /\ (exists k : Z, ha_jeeterRiskScore ha = of_Z k /\ 20 <= k <= 40)
    /\ ha_riskLevel ha = Moderate.
Proof.
  intros totalSupply data txAnalysis volumeData ha. subst ha.
  split; [| split].
  - pose proof (analyzeHolders_holders_bare totalSupply data) as Hb.
    unfold HolderService.analyzeHolders. cbn [ha_jeeterCount].
    rewrite filter_none; [reflexivity |]. eapply Forall_impl; [exact Hb |].
    intros h (_ & _ & _ & H4). apply bool_decide_eq_false. exact H4.
  - apply analyzeHolders_riskScore.
  - rewrite analyzeHolders_riskLevel.
    destruct (analyzeHolders_riskScore totalSupply data txAnalysis volumeData)
      as (k & -> & Hr).
    unfold RiskCalculator.getRiskLevel, n_ge. rewrite !of_Z_le.
    destruct (Z.leb_spec 80 k); [lia |].
    destruct (Z.leb_spec 50 k); [lia |].
    destruct (Z.leb_spec 20 k); [reflexivity | lia].
Qed.

Lemma analyzeHolders_jeeterPercentage totalSupply data txAnalysis volumeData :
  exists q,
    ha_jeeterPercentage
      (HolderService.analyzeHolders totalSupply data txAnalysis volumeData) = Fin q
    /\ (q == 0)%Q.
Proof.
  pose proof (analyzeHolders_holders_bare totalSupply data) as Hb.
  unfold HolderService.analyzeHolders. cbn [ha_jeeterPercentage].
  rewrite filter_none; [apply percentOf_zero |].
  eapply Forall_impl; [exact Hb |].
  intros h (_ & _ & _ & H4). apply bool_decide_eq_false. exact H4.
Qed.

(** X8.  The overall token score computed from the analysis of
    [analyzeHolders] is an integer between 60 and 100, whatever is
    fetched: the risk score costs at most 20 points, the concentration
    at most 20, and no holder is counted as jeeter. *)
Theorem analyzeHolders_overallScore :
  forall (totalSupply : num) (data : list HolderBalance)
         (txAnalysis : option TransactionAnalysis) (volumeData : option (num * num)),
  exists s : Z,
    RiskCalculator.calculateOverallScore
      (HolderService.analyzeHolders totalSupply data txAnalysis volumeData) = of_Z s
    /\ 60 <= s <= 100.
Proof.
  intros totalSupply data txAnalysis volumeData.
  destruct (analyzeHolders_riskScore totalSupply data txAnalysis volumeData)
    as (k & Hk & Hr).
  destruct (analyzeHolders_jeeterPercentage totalSupply data txAnalysis volumeData)
    as (q & Hq & Eq).
  unfold RiskCalculator.calculateOverallScore.
  cbv zeta in Hk. rewrite Hk, Hq.
  rewrite !(n_gt_zero_false (Fin q)) by (eauto; lia).
  cbn [n_mul n_sub n_neg n_add of_Z].
  repeat match goal with
         | |- context [if ?b then _ else _] => destruct b
         end;
    cbn [n_mul n_sub n_neg n_add of_Z];
    rewrite clamp_round_Fin; (eexists; split; [reflexivity |]);
    match goal with
    | |- context [Qfloor ?y] =>
        assert (60 <= Qfloor y)
          by (apply Qfloor_lower;
              assert (inject_Z k <= 40)%Q
                by (change 40%Q with (inject_Z 40); rewrite <- Zle_Qle; lia);
              change (inject_Z 60) with 60%Q; change (inject_Z 100) with 100%Q;
              change (inject_Z 20) with 20%Q; change (inject_Z 10) with 10%Q;
              lra)
    end; lia.
Qed.

(** ** Bundle detector *)

(** The inner loop only appends holders of the list it scans, each with
    an address that was not processed, and records their addresses. *)
Lemma similar_loop (cur : HolderInfo) (rest : list HolderInfo) :
  forall (similar : list HolderInfo) (processed : gset string),
    let r := fold_left (BundleDetector.similarStep cur) rest (similar, processed) in
    exists added : list HolderInfo,
      r.1 = similar ++ added
      /\ (length added <= length rest)%nat
      /\ (forall h, h ∈ added -> h ∈ rest)
      /\ NoDup (map address added)
      /\ (forall a, a ∈ map address added -> a ∉ processed)
      /\ r.2 = processed ∪ list_to_set (map address added).
Proof.
  induction rest as [| hj rest IH]; intros similar processed r.
  - exists []. subst r. cbn. rewrite app_nil_r.
    repeat split; auto; try constructor; try set_solver.
  - subst r. cbn [fold_left].
    assert (Hstep :
              BundleDetector.similarStep cur (similar, processed) hj
              = (similar, processed)
              \/ (BundleDetector.similarStep cur (similar, processed) hj
                  = (similar ++ [hj], processed ∪ {[address hj]})
                  /\ address hj ∉ processed)).
    { unfold BundleDetector.similarStep.
      destruct (bool_decide_reflect (address hj ∈ processed)); [now left |].
      destruct (n_lt _ _ && n_gt _ _); auto. }
    destruct Hstep as [-> | [-> Hin]].
    + destruct (IH similar processed) as (added & E1 & L & S & N & D & E2).
      exists added. cbn [length]. repeat split; auto; try lia.
      intros h Hh. right. now apply S.
    + destruct (IH (similar ++ [hj]) (processed ∪ {[address hj]}))
        as (added & E1 & L & S & N & D & E2).
      exists (hj :: added). cbn [length map].
      split; [rewrite E1, <- app_assoc; reflexivity |].
      split; [lia |].
      split; [intros h Hh; apply elem_of_cons in Hh as [->|Hh];
              [left | right; now apply S] |].
      split; [constructor; [| exact N];
              intros Ha; specialize (D _ Ha); set_solver |].
      split; [intros a Ha; apply elem_of_cons in Ha as [->|Ha];
              [exact Hin | specialize (D _ Ha); set_solver] |].
      rewrite E2. cbn [list_to_set]. set_solver.
Qed.

Lemma makeBundle_addresses (similar : list HolderInfo) :
  addresses (BundleDetector.makeBundle similar) = map address similar.
Proof.
  unfold BundleDetector.makeBundle.
  repeat match goal with
         | |- context [let '(_, _) := (if ?b then _ else _) in _] => destruct b
         end; reflexivity.
Qed.

(** The invariant of the outer loop. *)
Lemma detectFrom_invariant (holders : list HolderInfo) :
  forall (processed : gset string) (bundles : list BundleGroup),
    Forall (fun b => (3 <= length (addresses b))%nat) bundles ->
    NoDup (concat (map addresses bundles)) ->
    (forall a, a ∈ concat (map addresses bundles) -> a ∈ processed) ->
    let r := BundleDetector.detectFrom holders processed bundles in
    Forall (fun b => (3 <= length (addresses b))%nat) r
    /\ NoDup (concat (map addresses r))
    /\ (forall a, a ∈ concat (map addresses r) ->
                  a ∈ processed \/ a ∈ map address holders).
Proof.
  induction holders as [| cur rest IH]; intros processed bundles F N P r.
  - subst r. cbn. repeat split; auto.
  - subst r. cbn [BundleDetector.detectFrom].
    destruct (bool_decide_reflect (address cur ∈ processed)) as [Hin|Hin].
    + destruct (IH processed bundles F N P) as (F' & N' & P').
      repeat split; auto. intros a Ha. destruct (P' a Ha); auto.
      right. cbn. now right.
    + pose proof (similar_loop cur rest [cur] (processed ∪ {[address cur]}))
        as (added & E1 & L & S & Nd & D & E2).
      destruct (fold_left (BundleDetector.similarStep cur) rest
                  ([cur], processed ∪ {[address cur]})) as [similar processed'].
      cbn [fst snd] in E1, E2. subst similar processed'.
      assert (Hnew : NoDup (map address ([cur] ++ added))).
      { cbn. constructor; [| exact Nd]. intros Ha. specialize (D _ Ha). set_solver. }
      assert (Hfresh : forall a, a ∈ map address ([cur] ++ added) -> a ∉ processed).
      { cbn. intros a Ha. apply elem_of_cons in Ha as [->|Ha]; [exact Hin |].
        specialize (D _ Ha). set_solver. }
      assert (Hsub : forall a, a ∈ map address ([cur] ++ added) ->
                               a ∈ map address (cur :: rest)).
      { cbn. intros a Ha. apply elem_of_cons in Ha as [->|Ha]; [left |].
        right. apply list_elem_of_fmap in Ha as (h & -> & Hh).
        apply list_elem_of_fmap. exists h. split; [reflexivity | now apply S]. }
      destruct (Nat.leb_spec 3 (length ([cur] ++ added))) as [H3|H3].
      * edestruct (IH (processed ∪ {[address cur]} ∪ list_to_set (map address added))
                      (bundles ++ [BundleDetector.makeBundle ([cur] ++ added)]))
          as (F' & N' & P').
        -- apply Forall_app. split; [exact F |]. constructor; [| constructor].
           rewrite makeBundle_addresses, length_map. exact H3.
        -- rewrite map_app, concat_app. cbn [map concat]. rewrite app_nil_r.
           rewrite makeBundle_addresses. apply NoDup_app. split; [exact N |].
           split; [| exact Hnew].
           intros a Ha Hb. apply (Hfresh a Hb), P, Ha.
        -- rewrite map_app, concat_app. cbn [map concat]. rewrite app_nil_r.
           rewrite makeBundle_addresses. intros a Ha.
           apply elem_of_app in Ha as [Ha|Ha]; [specialize (P _ Ha); set_solver |].
           cbn in Ha. apply elem_of_cons in Ha as [->|Ha]; set_solver.
        -- repeat split; auto. intros a Ha. destruct (P' a Ha) as [Hp|Hp].
           ++ apply elem_of_union in Hp as [Hp|Hp];
                [apply elem_of_union in Hp as [Hp|Hp]; [now left | right] | right].
              ** apply elem_of_singleton in Hp. subst a. cbn. left.
              ** apply elem_of_list_to_set in Hp. apply Hsub. cbn. now right.
           ++ right. cbn. now right.
      * edestruct (IH (processed ∪ {[address cur]} ∪ list_to_set (map address added))
                      bundles) as (F' & N' & P'); auto.
        -- intros a Ha. specialize (P _ Ha). set_solver.
        -- repeat split; auto. intros a Ha. destruct (P' a Ha) as [Hp|Hp].
           ++ apply elem_of_union in Hp as [Hp|Hp];
                [apply elem_of_union in Hp as [Hp|Hp]; [now left | right] | right].
              ** apply elem_of_singleton in Hp. subst a. cbn. left.
              ** apply elem_of_list_to_set in Hp. apply Hsub. cbn. now right.
           ++ right. cbn. now right.
Qed.

(** X9.  Every bundle reported by [detectBundles] has at least three
    addresses, every address of a bundle is the address of a holder of
    the input, and no address is reported twice, neither within one
    bundle nor in two bundles. *)
Theorem detectBundles_groups :
  forall holders : list HolderInfo,
    let bundles := BundleDetector.detectBundles holders in
    Forall (fun b => (3 <= length (addresses b))%nat) bundles
    /\ NoDup (concat (map addresses bundles))
    /\ (forall a, a ∈ concat (map addresses bundles) -> a ∈ map address holders).
Proof.
  intros holders bundles. subst bundles. unfold BundleDetector.detectBundles.
  destruct (detectFrom_invariant holders ∅ []) as (F & N & P).
  - constructor.
  - constructor.
  - cbn. intros a Ha. inversion Ha.
  - repeat split; auto. intros a Ha. destruct (P a Ha) as [H|H]; [set_solver | exact H].
Qed.

Lemma concat_length_lower (bundles : list BundleGroup) :
  Forall (fun b => (3 <= length (addresses b))%nat) bundles ->
  (3 * length bundles <= length (concat (map addresses bundles)))%nat.
Proof.
  induction 1 as [| b bs Hb _ IH]; cbn [map concat length]; [lia |].
  rewrite length_app. lia.
Qed.

(** X10.  [detectBundles] reports at most a third as many bundles as
    there are holders; in particular it reports none for fewer than three
    holders. *)
Theorem detectBundles_count :
  forall holders : list HolderInfo,
    (3 * length (BundleDetector.detectBundles holders) <= length holders)%nat
    /\ ((length holders < 3)%nat -> BundleDetector.detectBundles holders = []).
Proof.
  intros holders.
  assert (Inv :
            Forall (fun b => (3 <= length (addresses b))%nat)
                   (BundleDetector.detectBundles holders)
            /\ NoDup (concat (map addresses (BundleDetector.detectBundles holders)))
            /\ (forall a,
                   a ∈ concat (map addresses (BundleDetector.detectBundles holders)) ->
                   a ∈ map address holders)).
  { unfold BundleDetector.detectBundles.
    destruct (detectFrom_invariant holders ∅ []) as (F & N & P).
    - constructor.
    - constructor.
    - cbn. intros a Ha. inversion Ha.
    - repeat split; auto. intros a Ha.
      destruct (P a Ha) as [H|H]; [set_solver | exact H]. }
  destruct Inv as (F & N & P).
  assert (H : (3 * length (BundleDetector.detectBundles holders)
               <= length holders)%nat).
  { etransitivity; [apply concat_length_lower, F |].
    rewrite <- (length_map address holders).
    apply submseteq_length, NoDup_submseteq; [exact N | exact P]. }
  split; [exact H |].
  intros Hlt. destruct (BundleDetector.detectBundles holders); [reflexivity |].
  cbn [length] in H. lia.
Qed.

Lemma detectBundles_count_witness :
  BundleDetector.detectBundles Samples.twoHolders = [].
Proof.
  apply (proj2 (detectBundles_count Samples.twoHolders)). cbn. lia.
Defined.

(** ** Transaction service *)

Lemma of_Z_mul (a b : Z) : n_mul (of_Z a) (of_Z b) = of_Z (a * b).
Proof. reflexivity. Qed.

Lemma num_or_of_Z (k : Z) : num_or (Some (of_Z k)) (of_Z 0) = of_Z k.
Proof.
  unfold num_or, truthy, of_Z.
  destruct (Qeqb_spec (inject_Z k) 0) as [E|E]; [| reflexivity].
  apply inject_Z_eq0 in E. now subst k.
Qed.

(** X11.  The MEV score of [detectMEVPatterns] is an integer between 0
    and 100, equal to 20 per sandwich attack plus 5 per bot-like wallet
    capped at 100; MEV is reported as detected exactly when the score
    exceeds 30; and front running is never counted. *)
Theorem detectMEVPatterns_score :
  forall txs : list TransactionService.SwapTransaction,
    let mev := TransactionService.detectMEVPatterns txs in
    exists s b : nat,
      sandwichAttacks mev = of_nat s
      /\ botLikeBehavior mev = of_nat b
      /\ frontRunning mev = of_Z 0
      /\ mevScore mev = of_Z (Z.min 100 (20 * Z.of_nat s + 5 * Z.of_nat b))
      /\ (detected mev = true <-> 30 < 20 * Z.of_nat s + 5 * Z.of_nat b).
Proof.
  intros txs mev. subst mev. unfold TransactionService.detectMEVPatterns.
  cbn [sandwichAttacks botLikeBehavior frontRunning mevScore detected].
  do 2 eexists. split; [reflexivity |]. split; [reflexivity |].
  split; [reflexivity |].
  unfold of_nat. rewrite !of_Z_mul, !of_Z_add, of_Z_min.
  split; [f_equal; lia |].
  unfold n_gt. rewrite of_Z_lt.
  match goal with
  | |- (?a <? ?b) = true <-> _ => destruct (Z.ltb_spec a b)
  end; split; intros; try discriminate; try reflexivity; lia.
Qed.

(** Every wallet is counted at most as many times as there are
    transactions. *)
Lemma walletTxCounts_bound (txs : list TransactionService.SwapTransaction) :
  forall (m : gmap string num) (n : Z),
    0 <= n ->
    map_Forall (fun _ v => exists k, v = of_Z k /\ 1 <= k <= n) m ->
    map_Forall (fun _ v => exists k, v = of_Z k /\ 1 <= k <= n + Z.of_nat (length txs))
               (fold_left TransactionService.countWallet txs m).
Proof.
  induction txs as [| tx txs IH]; intros m n Hn Hm.
  - cbn. eapply map_Forall_impl; [exact Hm |]. cbn.
    intros _ v (k & -> & Hk). exists k. split; [reflexivity | lia].
  - cbn [fold_left length].
    replace (n + Z.of_nat (S (length txs))) with ((n + 1) + Z.of_nat (length txs)) by lia.
    apply IH; [lia |].
    unfold TransactionService.countWallet. apply map_Forall_insert_2.
    + destruct (m !! TransactionService.wallet tx) as [v|] eqn:E.
      * destruct (Hm _ _ E) as (k & -> & Hk). rewrite num_or_of_Z, of_Z_add.
        exists (k + 1). split; [reflexivity | lia].
      * cbn [num_or]. rewrite of_Z_add. exists 1. split; [reflexivity | lia].
    + eapply map_Forall_impl; [exact Hm |]. cbn.
      intros _ v (k & -> & Hk). exists k. split; [reflexivity | lia].
Qed.

(** X12.  On at most ten transactions no wallet is counted as bot-like,
    and on fewer than three no sandwich is counted either: the score is
    0 and MEV is not detected. *)
Theorem detectMEVPatterns_short :
  forall txs : list TransactionService.SwapTransaction,
    ((length txs <= 10)%nat ->
     botLikeBehavior (TransactionService.detectMEVPatterns txs) = of_nat 0)
    /\ ((length txs < 3)%nat ->
        TransactionService.detectMEVPatterns txs
        = {| detected := false; sandwichAttacks := of_nat 0; frontRunning := of_Z 0;
             botLikeBehavior := of_nat 0; mevScore := of_Z 0 |}).
Proof.
  intros txs.
  assert (Hb : (length txs <= 10)%nat ->
               List.filter (fun count => n_gt count (of_Z 10))
                 (map snd (map_to_list (TransactionService.walletTxCounts txs))) = []).
  { intros Hlen. apply filter_none.
    pose proof (walletTxCounts_bound txs ∅ 0 ltac:(lia) (map_Forall_empty _)) as H.
    apply map_Forall_to_list in H. apply Forall_map.
    eapply Forall_impl; [exact H |].
    intros [w v] (k & Hv & Hk). cbn [snd uncurry] in Hv |- *. subst v.
    change ((of_Z 10 <? of_Z k)%num = false).
    rewrite of_Z_lt. apply Z.ltb_ge. lia. }
  split.
  - intros Hlen. unfold TransactionService.detectMEVPatterns.
    cbn [botLikeBehavior]. now rewrite Hb.
  - intros Hlen. unfold TransactionService.detectMEVPatterns.
    rewrite Hb by lia.
    destruct txs as [| t1 [| t2 [| t3 txs]]]; cbn in Hlen; try lia; reflexivity.
Qed.

Lemma detectMEVPatterns_short_witness :
  botLikeBehavior (TransactionService.detectMEVPatterns Scenarios.twoSwaps) = of_nat 0.
Proof.
  apply (proj1 (detectMEVPatterns_short Scenarios.twoSwaps)). cbn. lia.
Defined.

Lemma sum_nums_nonneg (xs : list num) :
  Forall (fun x => exists q, x = Fin q /\ (0 <= q)%Q) xs ->
  exists q, sum_nums xs = Fin q /\ (0 <= q)%Q.
Proof.
  unfold sum_nums.
  assert (G : forall acc, (0 <= acc)%Q ->
              Forall (fun x => exists q, x = Fin q /\ (0 <= q)%Q) xs ->
              exists q, fold_left n_add xs (Fin acc) = Fin q /\ (0 <= q)%Q).
  { induction xs as [| x xs IH]; intros acc Hacc Hxs.
    - exists acc. split; [reflexivity | exact Hacc].
    - inversion Hxs as [| ? ? (q & -> & Hq) Hrest]; subst.
      cbn [fold_left n_add]. apply IH; [lra | exact Hrest]. }
  apply G. discriminate.
Qed.

Lemma Forall_filter_keep {A} (P : A -> Prop) (f : A -> bool) (l : list A) :
  Forall P l -> Forall P (List.filter f l).
Proof.
  induction 1 as [| a l Ha _ IH]; cbn; [constructor |].
  destruct (f a); [constructor |]; assumption.
Qed.

(** The buy share of a list of swaps with finite, non-negative amounts. *)
Lemma calculateRatio_unit (txs : list TransactionService.SwapTransaction) :
  Forall (fun tx => exists q, TransactionService.amountUsd tx = Fin q /\ (0 <= q)%Q) txs ->
  between 0 1 (TransactionService.calculateRatio txs).
Proof.
  intros H. unfold TransactionService.calculateRatio.
  destruct (sum_nums_nonneg
              (map TransactionService.amountUsd
                   (List.filter TransactionService.isBuy txs))) as (b & -> & Hb).
  { apply Forall_map, Forall_filter_keep, H. }
  destruct (sum_nums_nonneg
              (map TransactionService.amountUsd
                   (List.filter TransactionService.isSell txs))) as (s & -> & Hs).
  { apply Forall_map, Forall_filter_keep, H. }
  cbn [n_add]. unfold n_gt, n_lt, of_Z. change (inject_Z 0) with 0%Q.
  destruct (Qltb_spec 0 (b + s)) as [Hpos|Hpos].
  - unfold n_div, Qsign. destruct (b + s ?= 0)%Q eqn:E.
    + apply Qeq_alt in E. lra.
    + apply Qlt_alt in E. lra.
    + cbn [between]. split.
      * apply Qle_shift_div_l; [exact Hpos | lra].
      * apply Qle_shift_div_r; [exact Hpos | lra].
  - cbn [between]. split; discriminate.
Qed.

(** X13.  When every swap has a dollar amount between 0 and 10^15, a
    range in which the volumes summed as doubles stay finite, the five
    buy/sell ratios of [analyzeTransactions] are finite numbers between 0
    and 1, for every clock value and for the empty list too. *)
Theorem analyzeTransactions_ratios :
  forall (now : num) (txs : list TransactionService.SwapTransaction),
    Forall (fun tx =>
              exists q, TransactionService.amountUsd tx = Fin q /\ (0 <= q <= 1e15)%Q)
           txs ->
    let a := TransactionService.analyzeTransactions now txs in
    between 0 1 (buySellRatio a)
    /\ between 0 1 (buySellRatio5m a)
    /\ between 0 1 (buySellRatio15m a)
    /\ between 0 1 (buySellRatio1h a)
    /\ between 0 1 (buySellRatio24h a).
Proof.
  intros now txs Hrange a.
  assert (H : Forall (fun tx =>
                        exists q, TransactionService.amountUsd tx = Fin q /\ (0 <= q)%Q)
                     txs).
  { eapply Forall_impl; [exact Hrange |].
    intros tx (q & E & Hq & _). exists q. split; [exact E | exact Hq]. }
  clear Hrange. subst a. unfold TransactionService.analyzeTransactions.
  destruct (length txs =? 0)%nat.
  - cbn. repeat split; discriminate.
  - cbn [buySellRatio buySellRatio5m buySellRatio15m buySellRatio1h buySellRatio24h].
    repeat split; apply calculateRatio_unit; try exact H;
      apply Forall_filter_keep, H.
Qed.

Lemma analyzeTransactions_ratios_witness :
  between 0 1
    (buySellRatio (TransactionService.analyzeTransactions (of_Z 60000) Scenarios.twoSwaps)).
Proof.
  apply (analyzeTransactions_ratios (of_Z 60000) Scenarios.twoSwaps).
  repeat constructor; eexists;
    (split; [reflexivity | split; vm_compute; discriminate]).
Defined.

(** ** Dip prediction analyzer *)

Lemma signal_of_Z (c : bool) (k : Z) (text : string) (z : Z) (r : list string) :
  DipPredictionAnalyzer.signal c k text (of_Z z, r)
  = (of_Z (z + weight c k), if c then r ++ [text] else r).
Proof.
  unfold DipPredictionAnalyzer.signal, weight. destruct c; cbn [fst snd].
  - now rewrite of_Z_add.
  - do 2 f_equal. lia.
Qed.

Lemma signal_fst (c : bool) (k : Z) (text : string) (z : Z) (r : list string) :
  exists r',
    DipPredictionAnalyzer.signal c k text (of_Z z, r) = (of_Z (z + weight c k), r').
Proof. rewrite signal_of_Z. eauto. Qed.

Lemma of_Z_gt (a b : Z) : n_gt (of_Z a) (of_Z b) = (b <? a).
Proof. apply of_Z_lt. Qed.

Lemma of_Z_ge (a b : Z) : n_ge (of_Z a) (of_Z b) = (b <=? a).
Proof. apply of_Z_le. Qed.

Lemma weight_range (c : bool) (k : Z) : 0 <= k -> 0 <= weight c k <= k.
Proof. unfold weight. destruct c; lia. Qed.

(** The two scores of [predict] and what it derives from them. *)
Lemma predict_scores tx wq lp price :
  let o :=
    0 + weight (n_gt (buySellRatio tx) (Fin 0.6)) 20
    + weight (n_gt (highQualityWalletCount wq) (of_Z 0)) 15
    + weight (negb (jeeterDominance wq) && negb (sniperDominance wq)) 15
    + weight (isHealthy lp) 10
    + weight (negb (detected (mevPatterns tx))
              || n_lt (mevScore (mevPatterns tx)) (of_Z 30)) 10 in
  let t :=
    0 + weight (sniperDominance wq) 25
    + weight (detected (mevPatterns tx)
              && n_gt (mevScore (mevPatterns tx)) (of_Z 50)) 20
    + weight (negb (isHealthy lp)) 20
    + weight (n_lt (buySellRatio tx) (Fin 0.4)) 15
    + weight (n_gt (transactionsPerMinute tx) (of_Z 5)
              && n_lt (averageTransactionSize tx) (of_Z 100)) 15 in
  let p := DipPredictionAnalyzer.predict tx wq lp price in
  dp_isDipOpportunity p = ((t <? o) && (40 <=? o))
  /\ dp_isDipTrap p = (negb ((t <? o) && (40 <=? o)) && ((o <? t) && (40 <=? t)))
  /\ dp_dipConfidence p
     = of_Z (if (t <? o) && (40 <=? o) then Z.min 100 o
             else if (o <? t) && (40 <=? t) then Z.min 100 t
             else Z.max o t).
Proof.
  intros o t p. subst p. unfold DipPredictionAnalyzer.predict.
  repeat match goal with
    | |- context [DipPredictionAnalyzer.signal ?c ?k ?text (of_Z ?z, ?r)] =>
        let r' := fresh "r" in
        let E := fresh "E" in
        destruct (signal_fst c k text z r) as (r' & E); rewrite E; clear E;
        cbv beta iota zeta
    end.
  fold o t. rewrite !(of_Z_gt o t), !(of_Z_gt t o), !(of_Z_ge o 40), !(of_Z_ge t 40).
  destruct ((t <? o) && (40 <=? o)); [| destruct ((o <? t) && (40 <=? t))];
    cbn [dp_isDipOpportunity dp_isDipTrap dp_dipConfidence negb andb];
    rewrite ?of_Z_min, ?of_Z_max; repeat split; f_equal; lia.
Qed.

(** X14.  [predict] never sets both flags; its confidence is an integer
    between 0 and 95; an opportunity has a confidence between 40 and 70
    and a trap one of at least 40. *)
Theorem dipPrediction_verdict :
  forall (tx : TransactionAnalysis) (wq : WalletQualityAnalysis)
         (lp : LPHealthSignals) (price : num),
    let p := DipPredictionAnalyzer.predict tx wq lp price in
    (dp_isDipOpportunity p && dp_isDipTrap p) = false
    /\ exists k : Z,
        dp_dipConfidence p = of_Z k /\ 0 <= k <= 95
        /\ (dp_isDipOpportunity p = true -> 40 <= k <= 70)
        /\ (dp_isDipTrap p = true -> 40 <= k).
Proof.
  intros tx wq lp price p.
  destruct (predict_scores tx wq lp price) as (Ho & Ht & Hc). fold p in Ho, Ht, Hc.
  rewrite Ho, Ht, Hc.
  repeat match goal with
    | |- context [weight ?c ?k] =>
        let H := fresh "Hw" in
        pose proof (weight_range c k ltac:(lia)) as H;
        generalize dependent (weight c k); intros
    end.
  split; [destruct (_ && _); reflexivity |].
  eexists. split; [reflexivity |].
  match goal with
  | |- context [(?t <? ?o) && (40 <=? ?o)] =>
      destruct (Z.ltb_spec t o); destruct (Z.leb_spec 40 o);
      destruct (Z.ltb_spec o t); destruct (Z.leb_spec 40 t)
  end; cbn [andb negb]; repeat split; intros; try discriminate; lia.
Qed.

(** X15.  With sniper dominance and an unhealthy pool [predict] never
    reports an opportunity: the opportunity score is at most 45 and the
    trap score at least 45. *)
Theorem dipPrediction_snipers_block :
  forall (tx : TransactionAnalysis) (wq : WalletQualityAnalysis)
         (lp : LPHealthSignals) (price : num),
    sniperDominance wq = true ->
    isHealthy lp = false ->
    dp_isDipOpportunity (DipPredictionAnalyzer.predict tx wq lp price) = false.
Proof.
  intros tx wq lp price Hs Hl.
  destruct (predict_scores tx wq lp price) as (Ho & _ & _).
  rewrite Ho, Hs, Hl. rewrite andb_false_r. cbn [weight negb].
  repeat match goal with
    | |- context [weight ?c ?k] =>
        let H := fresh "Hw" in
        pose proof (weight_range c k ltac:(lia)) as H;
        generalize dependent (weight c k); intros
    end.
  apply andb_false_iff. left. apply Z.ltb_ge. lia.
Qed.

Lemma dipPrediction_snipers_block_witness :
  dp_isDipOpportunity
    (DipPredictionAnalyzer.predict Samples.dumpFlow Scenarios.sniperQuality
       (LPHealthAnalyzer.analyze Scenarios.starvedToken) (of_Z 1)) = false.
Proof.
  apply (dipPrediction_snipers_block Samples.dumpFlow Scenarios.sniperQuality
           (LPHealthAnalyzer.analyze Scenarios.starvedToken) (of_Z 1));
    vm_compute; reflexivity.
Defined.

(** ** Safety filter *)

Lemma check_length (fails : bool) (text : string) (l : list string) :
  length (SafetyFilterAnalyzer.check fails text l)
  = (length l + (if fails then 1 else 0))%nat.
Proof.
  unfold SafetyFilterAnalyzer.check. destruct fails; [apply length_app | lia].
Qed.

Lemma six_checks (a b c d e f : bool) :
  (0 + (if negb a then 1 else 0) + (if negb b then 1 else 0)
   + (if c then 1 else 0) + (if d then 1 else 0) + (if e then 1 else 0)
   + (if negb f then 1 else 0) =? 0)%nat
  = (a && b && negb c && negb d && negb e && f).
Proof. destruct a, b, c, d, e, f; reflexivity. Qed.

(** The filter passes exactly when none of its six checks fails. *)
Lemma safetyFilter_passed tok ha lp flags wq :
  sf_passed (SafetyFilterAnalyzer.analyze tok ha lp flags wq)
  = (lpLocked (sf_details (SafetyFilterAnalyzer.analyze tok ha lp flags wq))
     && lpHealthy (sf_details (SafetyFilterAnalyzer.analyze tok ha lp flags wq))
     && negb (honeypot (sf_details (SafetyFilterAnalyzer.analyze tok ha lp flags wq)))
     && negb (mintAbuse (sf_details (SafetyFilterAnalyzer.analyze tok ha lp flags wq)))
     && negb (scamPatterns (sf_details (SafetyFilterAnalyzer.analyze tok ha lp flags wq)))
     && safeTokenomics (sf_details (SafetyFilterAnalyzer.analyze tok ha lp flags wq))).
Proof.
  unfold SafetyFilterAnalyzer.analyze.
  cbn [sf_passed sf_details lpLocked lpHealthy honeypot mintAbuse scamPatterns
       safeTokenomics].
  rewrite !check_length. cbn [length]. apply six_checks.
Qed.

(** A liquidity below $5k costs the pool 40 points. *)
Lemma lp_thin_score (tok : TokenInfo) :
  n_lt (num_or (liquidity tok) (of_Z 0)) (of_Z 5000) = true ->
  exists k, healthScore (LPHealthAnalyzer.analyze tok) = of_Z k /\ k <= 60.
Proof.
  intros H. unfold LPHealthAnalyzer.analyze. rewrite H.
  repeat match goal with
         | |- context [let '(_, _) := (if ?b then _ else _) in _] => destruct b
         end;
    cbn [healthScore]; rewrite ?of_Z_sub, of_Z_min, of_Z_max;
    (eexists; split; [reflexivity | lia]).
Qed.

(** X16.  The safety filter passes exactly when no check is recorded as
    failed, that is when the pool is locked and healthy with a score of
    at least 70 and none of the honeypot, mint-abuse and scam patterns
    holds and the tokenomics are safe. *)
Theorem safetyFilter_pass_iff :
  forall (tok : TokenInfo) (ha : HolderAnalysis) (lp : LPHealthSignals)
         (flags : JeeterZoneFlags) (wq : option WalletQualityAnalysis),
    let r := SafetyFilterAnalyzer.analyze tok ha lp flags wq in
    (sf_passed r = true <-> sf_failedChecks r = [])
    /\ (sf_passed r = true <->
        lpLocked (sf_details r) = true /\ lpHealthy (sf_details r) = true
        /\ honeypot (sf_details r) = false /\ mintAbuse (sf_details r) = false
        /\ scamPatterns (sf_details r) = false
        /\ safeTokenomics (sf_details r) = true).
Proof.
  intros tok ha lp flags wq r. split.
  - subst r. unfold SafetyFilterAnalyzer.analyze. cbn [sf_passed sf_failedChecks].
    rewrite Nat.eqb_eq. apply length_zero_iff_nil.
  - subst r. rewrite safetyFilter_passed.
    rewrite !andb_true_iff, !negb_true_iff. tauto.
Qed.

(** X17.  With the pool signals of [LPHealthAnalyzer.analyze] for the same
    token, a token whose liquidity is below $5k (an absent liquidity
    counting as 0) never passes the safety filter. *)
Theorem safetyFilter_rejects_thin_pool :
  forall (tok : TokenInfo) (ha : HolderAnalysis) (flags : JeeterZoneFlags)
         (wq : option WalletQualityAnalysis),
    n_lt (num_or (liquidity tok) (of_Z 0)) (of_Z 5000) = true ->
    sf_passed
      (SafetyFilterAnalyzer.analyze tok ha (LPHealthAnalyzer.analyze tok) flags wq)
    = false.
Proof.
  intros tok ha flags wq H.
  rewrite safetyFilter_passed.
  destruct (lp_thin_score tok H) as (k & Hk & Hle).
  unfold SafetyFilterAnalyzer.analyze at 2. cbn [sf_details lpHealthy].
  rewrite Hk, of_Z_ge.
  destruct (Z.leb_spec 70 k); [lia |].
  rewrite andb_false_r. rewrite andb_false_r. reflexivity.
Qed.

Lemma safetyFilter_rejects_thin_pool_witness :
  sf_passed
    (SafetyFilterAnalyzer.analyze Samples.thinToken Scenarios.fetched
       (LPHealthAnalyzer.analyze Samples.thinToken)
       (JeeterZoneDetector.detect Samples.dumpFlow Samples.noWallets Samples.thinToken)
       None) = false.
Proof.
  apply (safetyFilter_rejects_thin_pool Samples.thinToken Scenarios.fetched
           (JeeterZoneDetector.detect Samples.dumpFlow Samples.noWallets
              Samples.thinToken) None).
  reflexivity.
Defined.

(** ** Coin discovery: scoring of an outcome *)

Lemma predictOutcome_flags_exclusive cp micro structural :
  isDipOpportunity (ThreeLayer.predictOutcome cp micro structural) = true ->
  isDipTrap (ThreeLayer.predictOutcome cp micro structural) = true -> False.
Proof. predict_branches; cbn; discriminate. Qed.

(** X18.  On an outcome of [predictOutcome] the entry recommendation
    follows the verdict: avoid for Trap, cautious for Wait, and for
    Opportunity strong when the combined score is at least 75 and good
    otherwise. *)
Theorem entryRecommendation_follows_verdict :
  forall (currentPrice : num) (micro : MicrostructureSignals)
         (structural : StructuralSignals),
    let o := ThreeLayer.predictOutcome currentPrice micro structural in
    match CoinDiscoveryService.mapEntryRecommendation o with
    | avoid => verdictOfFlags o = Some Trap
    | cautious => verdictOfFlags o = Some Wait
    | good =>
        verdictOfFlags o = Some Opportunity
        /\ n_ge (combinedScore o) (of_Z 75) = false
    | strong =>
        verdictOfFlags o = Some Opportunity
        /\ n_ge (combinedScore o) (of_Z 75) = true
    end.
Proof.
  intros cp micro structural o.
  pose proof (predictOutcome_flags_exclusive cp micro structural) as Hx. fold o in Hx.
  unfold CoinDiscoveryService.mapEntryRecommendation, verdictOfFlags.
  destruct (isDipTrap o), (isDipOpportunity o); cbn [andb];
    try reflexivity; try (exfalso; now apply Hx).
  destruct (n_ge (combinedScore o) (of_Z 75)); split; reflexivity.
Qed.

Lemma Qfloor_below (z : Z) (y : Q) : (y < inject_Z (z + 1))%Q -> Qfloor y <= z.
Proof.
  intros H. pose proof (Qfloor_le y) as Hf.
  assert (Hlt : (inject_Z (Qfloor y) < inject_Z (z + 1))%Q) by lra.
  rewrite <- Zlt_Qlt in Hlt. lia.
Qed.

(** X19.  On an outcome of [predictOutcome] and a market health score in
    [0, 100], the profit potential is 0 when the outcome is not an
    opportunity and otherwise an integer between 100 and 280: the cap of
    300 is never reached. *)
Theorem profitPotential_range :
  forall (currentPrice : num) (micro : MicrostructureSignals)
         (structural : StructuralSignals) (marketHealthScore : num),
    between 0 100 marketHealthScore ->
    let o := ThreeLayer.predictOutcome currentPrice micro structural in
    exists k : Z,
      CoinDiscoveryService.calculateProfitPotential o marketHealthScore = of_Z k
      /\ (isDipOpportunity o = false -> k = 0)
      /\ (isDipOpportunity o = true -> 100 <= k <= 280).
Proof.
  intros cp micro structural mhs Hm o. subst o.
  destruct (combinedScore_range cp micro structural) as (c & Hc & Hcr).
  destruct (predictOutcome_dipConfidence_range cp micro structural) as (d & Hd & Hdr).
  unfold CoinDiscoveryService.calculateProfitPotential.
  destruct (isDipOpportunity (ThreeLayer.predictOutcome cp micro structural)).
  - cbn [negb]. rewrite Hc, Hd, !of_Z_ge.
    destruct mhs as [| | |q]; cbn [between] in Hm; try contradiction.
    destruct Hm as [Hq0 Hq1].
    assert (Hd' : (inject_Z d <= 100)%Q)
      by (change 100%Q with (inject_Z 100); rewrite <- Zle_Qle; lia).
    assert (Hd'' : (0 <= inject_Z d)%Q)
      by (change 0%Q with (inject_Z 0); rewrite <- Zle_Qle; lia).
    destruct (80 <=? c); [| destruct (70 <=? c); [| destruct (60 <=? c)]];
      rewrite ?of_Z_add; cbn [n_mul n_sub n_neg n_add of_Z];
      rewrite clamp_round_Fin; (eexists; split; [reflexivity |]);
      (split; [discriminate | intros _]);
      match goal with
      | |- context [Qfloor ?y] =>
          assert (Qfloor y <= 280)
            by (apply Qfloor_below;
                change (inject_Z (280 + 1)) with 281%Q;
                change (inject_Z (100 + 150)) with 250%Q;
                change (inject_Z (100 + 100)) with 200%Q;
                change (inject_Z (100 + 50)) with 150%Q;
                change (inject_Z 100) with 100%Q;
                change (inject_Z 70) with 70%Q;
                change (inject_Z 50) with 50%Q; lra)
      end; lia.
  - cbn [negb]. exists 0. split; [reflexivity |]. split; [reflexivity | discriminate].
Qed.

Lemma profitPotential_range_witness :
  exists k : Z,
    CoinDiscoveryService.calculateProfitPotential
      (ThreeLayer.predictOutcome (Fin 2) Scenarios.goodMicro Scenarios.goodStructural)
      (of_Z 50) = of_Z k
    /\ 0 <= k <= 280.
Proof.
  assert (H : between 0 100 (of_Z 50)) by (vm_compute; split; discriminate).
  destruct (profitPotential_range (Fin 2) Scenarios.goodMicro Scenarios.goodStructural
              (of_Z 50) H) as (k & E & H0 & H1).
  exists k. split; [exact E |].
  destruct (isDipOpportunity
              (ThreeLayer.predictOutcome (Fin 2) Scenarios.goodMicro
                 Scenarios.goodStructural)).
  - specialize (H1 eq_refl). lia.
  - specialize (H0 eq_refl). lia.
Defined.

(** X20.  The overall score that coin discovery derives from an outcome
    of [predictOutcome] is an integer between 0 and 100 for every market
    health score that is not NaN, and NaN for one that is. *)
Theorem discoveryOverallScore_range :
  forall (currentPrice : num) (micro : MicrostructureSignals)
         (structural : StructuralSignals) (marketHealthScore : num),
    let o := ThreeLayer.predictOutcome currentPrice micro structural in
    (isNaN marketHealthScore = false ->
     exists k : Z,
       CoinDiscoveryService.calculateOverallScore marketHealthScore o = of_Z k
       /\ 0 <= k <= 100)
    /\ (isNaN marketHealthScore = true ->
        CoinDiscoveryService.calculateOverallScore marketHealthScore o = NaN).
Proof.
  intros cp micro structural mhs o. subst o.
  destruct (combinedScore_range cp micro structural) as (c & Hc & Hcr).
  unfold CoinDiscoveryService.calculateOverallScore. rewrite Hc.
  split; intros Hn.
  - match goal with
    | |- context [Math_round ?x] =>
        assert (Hx : isNaN x = false) by (destruct mhs; try discriminate; reflexivity);
        pose proof (finalClamp_range x) as (k & Hk & Hr);
        unfold finalClamp in Hk; rewrite Hx in Hk
    end.
    exists k. split; assumption.
  - destruct mhs; try discriminate. reflexivity.
Qed.

Lemma discoveryOverallScore_range_witness :
  exists k : Z,
    CoinDiscoveryService.calculateOverallScore (of_Z 50)
      (ThreeLayer.predictOutcome (Fin 2) Scenarios.goodMicro Scenarios.goodStructural)
    = of_Z k
    /\ 0 <= k <= 100.
Proof.
  apply (proj1 (discoveryOverallScore_range (Fin 2) Scenarios.goodMicro
                  Scenarios.goodStructural (of_Z 50))).
  reflexivity.
Defined.

(** ** Wallet quality, further properties *)

(** X21.  [classifyWallet] never returns the category
    router_arbitrage_bot; its quality score is an integer between 10 and
    85 and its confidence an integer between 30 and 80. *)
Theorem classifyWallet_range :
  forall h : HolderInfo,
    category (WalletQualityAnalyzer.classifyWallet h) <> router_arbitrage_bot
    /\ exists s c : Z,
        score (WalletQualityAnalyzer.classifyWallet h) = of_Z s /\ 10 <= s <= 85
        /\ confidence (WalletQualityAnalyzer.classifyWallet h) = of_Z c
        /\ 30 <= c <= 80.
Proof.
  intros h. unfold WalletQualityAnalyzer.classifyWallet.
  repeat match goal with
         | |- context [if ?b then _ else _] => destruct b
         end;
    (split; [discriminate |]); do 2 eexists;
    (split; [reflexivity |]); (split; [lia |]); (split; [reflexivity | lia]).
Qed.

Lemma classifyWallet_not_router (h : HolderInfo) :
  category (WalletQualityAnalyzer.classifyWallet h) <> router_arbitrage_bot.
Proof.
  unfold WalletQualityAnalyzer.classifyWallet.
  repeat match goal with
         | |- context [if ?b then _ else _] => destruct b
         end; discriminate.
Qed.

Lemma classifyAll_distribution (holders : list HolderInfo) :
  (WalletQualityAnalyzer.classifyAll holders).2
  = list_to_map
      (map (fun c => (c, of_Z (Z.of_nat (countCategory c holders))))
           WalletQualityAnalyzer.categories).
Proof.
  apply map_eq. intros c.
  unfold WalletQualityAnalyzer.classifyAll.
  rewrite (classifyAll_counts holders _ (fun _ => 0))
    by (intros c'; apply initialDistribution_lookup).
  cbn [Z.add]. destruct c; reflexivity.
Qed.

Lemma category_counts_total (holders : list HolderInfo) :
  (countCategory router_arbitrage_bot holders = 0)%nat
  /\ (countCategory sniper holders + countCategory jeeter holders
      + countCategory weak_hands holders + countCategory strong_hands holders
      + countCategory whale holders + countCategory mev_bot holders
      + countCategory unknown holders = length holders)%nat.
Proof.
  induction holders as [| h hs [IH0 IH]]; [split; reflexivity |].
  pose proof (classifyWallet_not_router h) as Hr.
  unfold countCategory in *. cbn [List.filter length].
  unfold category_eqb in *.
  destruct (category (WalletQualityAnalyzer.classifyWallet h));
    try contradiction; cbn [bool_decide decide_rel length] in *;
    repeat match goal with
      | |- context [bool_decide ?P] => destruct (bool_decide_reflect P); try discriminate
      end; cbn [length]; split; congruence || lia.
Qed.

Lemma category_values_order (x1 x2 x3 x4 x5 x6 x7 x8 : num) :
  map snd (map_to_list
    (list_to_map
       [(sniper, x1); (jeeter, x2); (weak_hands, x3);
        (strong_hands, x4); (whale, x5); (mev_bot, x6);
        (router_arbitrage_bot, x7); (unknown, x8)] : gmap WalletCategory num))
  = [x7; x5; x3; x6; x8; x4; x2; x1].
Proof. vm_compute. reflexivity. Qed.

Lemma analyze_categoryDistribution (holders : list HolderInfo) :
  categoryDistribution (WalletQualityAnalyzer.analyze holders)
  = (WalletQualityAnalyzer.classifyAll holders).2.
Proof.
  unfold WalletQualityAnalyzer.analyze.
  destruct (WalletQualityAnalyzer.classifyAll holders) as [ws cd].
  destruct (length holders =? 0)%nat; reflexivity.
Qed.

(** X22.  The category counts reported by [analyze] add up to the number
    of holders passed in, and the router_arbitrage_bot count is always
    zero. *)
Theorem categoryDistribution_total :
  forall holders : list HolderInfo,
    JeeterZoneDetector.totalOf
      (categoryDistribution (WalletQualityAnalyzer.analyze holders))
    = of_nat (length holders)
    /\ WalletQualityAnalyzer.getCount
         (categoryDistribution (WalletQualityAnalyzer.analyze holders))
         router_arbitrage_bot
       = of_Z 0.
Proof.
  intros holders. rewrite analyze_categoryDistribution.
  destruct (category_counts_total holders) as [H0 Hsum].
  split.
  - rewrite classifyAll_distribution.
    unfold JeeterZoneDetector.totalOf, WalletQualityAnalyzer.categories.
    cbn [map]. rewrite category_values_order.
    unfold sum_nums. cbn [fold_left].
    rewrite !of_Z_add. unfold of_nat. f_equal. lia.
  - rewrite classifyAll_getCount. rewrite H0. reflexivity.
Qed.

(** ** Liquidity health without a market cap *)

(** X23.  A token whose market cap is missing, zero, negative or not a
    number is always reported healthy, whatever its liquidity: the ratio
    is 0, no ratio rule applies and the score is an integer between 60
    and 100. *)
Theorem lp_health_without_market_cap :
  forall tok : TokenInfo,
    n_gt (num_or (marketCap tok) (of_Z 0)) (of_Z 0) = false ->
    lpRatio (LPHealthAnalyzer.analyze tok) = of_Z 0
    /\ isHealthy (LPHealthAnalyzer.analyze tok) = true
    /\ exists k : Z,
        healthScore (LPHealthAnalyzer.analyze tok) = of_Z k /\ 60 <= k <= 100.
Proof.
  intros tok H. unfold LPHealthAnalyzer.analyze. rewrite H.
  change (n_gt (of_Z 0) (of_Z 0)) with false. cbn [andb].
  repeat match goal with
         | |- context [let '(_, _) := (if ?b then _ else _) in _] => destruct b
         end;
    cbn [lpRatio isHealthy healthScore];
    rewrite ?of_Z_sub, of_Z_min, of_Z_max;
    (split; [reflexivity |]); (split; [reflexivity |]);
    (eexists; split; [reflexivity | lia]).
Qed.

Lemma lp_health_without_market_cap_witness :
  isHealthy (LPHealthAnalyzer.analyze Samples.bareToken) = true.
Proof.
  apply (lp_health_without_market_cap Samples.bareToken). reflexivity.
Defined.

(** ** Jeeter zone without holder data *)

Lemma n_lt_5_10 (a : num) : n_lt a (of_Z 5) = true -> n_lt a (of_Z 10) = true.
Proof.
  destruct a as [| | | q]; try (intros H; exact H).
  unfold n_lt, of_Z. intros H. q_cases; try discriminate; try reflexivity.
  change (inject_Z 5) with 5%Q in *. change (inject_Z 10) with 10%Q in *. lra.
Qed.

(** The share of rules 2, 4 and 8 (hold time below ten minutes, below
    five minutes, no high-quality wallet) in the risk score. *)
Lemma detect_rotation_weights tx wq tok :
  exists rest : Z,
    0 <= rest <= 150
    /\ riskScore (JeeterZoneDetector.detect tx wq tok)
       = of_Z (rest
               + weight (n_lt (wq_averageHoldTime wq) (of_Z 10)) 15
               + weight (n_lt (wq_averageHoldTime wq) (of_Z 5)) 20
               + weight (n_eq (highQualityWalletCount wq) (of_Z 0)) 15).
Proof.
  unfold JeeterZoneDetector.detect. cbn [riskScore].
  rewrite !bump_of_Z.
  set (w10 := weight (n_lt (wq_averageHoldTime wq) (of_Z 10)) 15).
  set (w5 := weight (n_lt (wq_averageHoldTime wq) (of_Z 5)) 20).
  set (w0 := weight (n_eq (highQualityWalletCount wq) (of_Z 0)) 15).
  assert (H10 : 0 <= w10 <= 15) by (apply weight_range; lia).
  assert (H5 : 0 <= w5 <= 20) by (apply weight_range; lia).
  assert (H0 : 0 <= w0 <= 15) by (apply weight_range; lia).
  clearbody w10 w5 w0.
  repeat match goal with
         | |- context [weight ?c ?k] =>
             let w := fresh "w" in
             let Hw := fresh "Hw" in
             assert (Hw : 0 <= weight c k <= k) by (apply weight_range; lia);
             set (w := weight c k) in *; clearbody w
         end.
  match goal with
  | |- exists rest, _ /\ of_Z ?s = _ => exists (s - w10 - w5 - w0)
  end.
  split; [| f_equal; ring].
  lia.
Qed.

(** X24.  Whatever the flow and the pool, wallets with an average hold
    time below five minutes together with no high-quality wallet put the
    token in the jeeter zone, with a risk score between 50 and 200. *)
Theorem quick_dumps_without_strong_wallets :
  forall (tx : TransactionAnalysis) (wq : WalletQualityAnalysis) (tok : TokenInfo),
    n_lt (wq_averageHoldTime wq) (of_Z 5) = true ->
    n_eq (highQualityWalletCount wq) (of_Z 0) = true ->
    isJeeterZone (JeeterZoneDetector.detect tx wq tok) = true
    /\ exists k : Z,
        riskScore (JeeterZoneDetector.detect tx wq tok) = of_Z k /\ 50 <= k <= 200.
Proof.
  intros tx wq tok H5 H0. pose proof (n_lt_5_10 _ H5) as H10.
  rewrite detect_isJeeterZone.
  destruct (detect_rotation_weights tx wq tok) as (rest & Hr & ->).
  rewrite H5, H10, H0. cbn [weight]. rewrite of_Z_ge. split.
  - apply Z.leb_le. lia.
  - eexists. split; [reflexivity | lia].
Qed.

Lemma quick_dumps_without_strong_wallets_witness :
  isJeeterZone
    (JeeterZoneDetector.detect TransactionService.getEmptyAnalysis
       (WalletQualityAnalyzer.analyze []) Samples.bareToken) = true.
Proof.
  apply (quick_dumps_without_strong_wallets TransactionService.getEmptyAnalysis
           (WalletQualityAnalyzer.analyze []) Samples.bareToken);
    reflexivity.
Defined.

Lemma predictOutcome_in_zone cp micro structural :
  isJeeterZone (jeeterFlags structural) = true ->
  isDipTrap (ThreeLayer.predictOutcome cp micro structural) = true
  /\ isDipOpportunity (ThreeLayer.predictOutcome cp micro structural) = false
  /\ riskLevel (ThreeLayer.predictOutcome cp micro structural) = high.
Proof.
  intros H. unfold ThreeLayer.predictOutcome. rewrite H.
  cbn [isDipTrap isDipOpportunity riskLevel orb]. auto.
Qed.

(** X25.  Without holder data the three-layer analysis of any token with
    a price history ends in a Trap of high risk: the empty wallet
    analysis alone reaches the jeeter-zone threshold. *)
Theorem no_holders_is_trap :
  forall (Math_sqrt : num -> num) (p : PricePoint) (ps : list PricePoint)
         (tx : TransactionAnalysis) (tok : TokenInfo),
  exists r : OutcomeWithMeta,
    ThreeLayer.analyzeToken Math_sqrt (p :: ps) tx [] tok = Return r
    /\ isJeeterZone (jeeterFlags (meta_structural r)) = true
    /\ isDipTrap (outcome r) = true
    /\ isDipOpportunity (outcome r) = false
    /\ riskLevel (outcome r) = high.
Proof.
  intros Math_sqrt p ps tx tok. unfold ThreeLayer.analyzeToken.
  destruct (last (p :: ps)) as [lp|] eqn:E.
  - eexists. split; [reflexivity |]. cbn [outcome meta_structural].
    assert (Hz : isJeeterZone
                   (jeeterFlags
                      (ThreeLayer.computeStructuralSignals Math_sqrt [] tx tok (p :: ps)))
                 = true).
    { change (jeeterFlags
                (ThreeLayer.computeStructuralSignals Math_sqrt [] tx tok (p :: ps)))
        with (JeeterZoneDetector.detect tx (WalletQualityAnalyzer.analyze []) tok).
      rewrite detect_isJeeterZone.
      destruct (detect_rotation_weights tx (WalletQualityAnalyzer.analyze []) tok)
        as (rest & Hr & ->).
      change (wq_averageHoldTime (WalletQualityAnalyzer.analyze [])) with (of_Z 0).
      change (highQualityWalletCount (WalletQualityAnalyzer.analyze [])) with (of_Z 0).
      cbn [weight]. change (n_lt (of_Z 0) (of_Z 10)) with true.
      change (n_lt (of_Z 0) (of_Z 5)) with true.
      change (n_eq (of_Z 0) (of_Z 0)) with true. unfold weight.
      rewrite of_Z_ge. apply Z.leb_le. lia. }
    split; [exact Hz |]. apply predictOutcome_in_zone. exact Hz.
  - apply last_None in E. discriminate.
Qed.

(** ** Structural score *)

Lemma overallQualityScore_finite (holders : list HolderInfo) :
  exists q : Q, overallQualityScore (WalletQualityAnalyzer.analyze holders) = Fin q.
Proof.
  destruct holders as [| h hs]; [eexists; reflexivity |].
  unfold WalletQualityAnalyzer.analyze.
  pose proof (classifyAll_getCount (h :: hs)) as Hc.
  destruct (WalletQualityAnalyzer.classifyAll (h :: hs)) as [ws d].
  cbn [snd] in Hc.
  change (length (h :: hs) =? 0)%nat with false. cbn iota.
  cbn [overallQualityScore]. rewrite !Hc.
  unfold of_nat. set (t := Z.of_nat (length (h :: hs))).
  assert (Ht : 0 < t) by (subst t; cbn [length]; lia).
  unfold n_gt at 1. rewrite of_Z_lt.
  destruct (Z.ltb_spec 0 t) as [_|]; [| lia].
  rewrite of_Z_add, !n_div_of_Z by exact Ht.
  cbn [n_mul n_sub n_neg n_add of_Z].
  match goal with
  | |- context [Math_min (of_Z 100) (Fin ?x)] =>
      destruct (clamp_Fin x) as (q' & Hq' & _)
  end.
  exists q'. exact Hq'.
Qed.

Lemma lp_healthScore_of_Z (tok : TokenInfo) :
  exists k : Z, healthScore (LPHealthAnalyzer.analyze tok) = of_Z k /\ 0 <= k <= 100.
Proof.
  unfold LPHealthAnalyzer.analyze.
  repeat match goal with
         | |- context [let '(_, _) := (if ?b then _ else _) in _] => destruct b
         end;
    cbn [healthScore]; rewrite ?of_Z_sub, of_Z_min, of_Z_max;
    (eexists; split; [reflexivity | lia]).
Qed.

(** X26.  The structural score is an integer between 0 and 100 for every
    input: none of the four scores it combines can be NaN or infinite,
    also when ratios of the flow analysis are. *)
Theorem structuralScore_range :
  forall (Math_sqrt : num -> num) (holders : list HolderInfo)
         (tx : TransactionAnalysis) (tok : TokenInfo) (ph : list PricePoint),
  exists k : Z,
    structuralScore
      (ThreeLayer.computeStructuralSignals Math_sqrt holders tx tok ph) = of_Z k
    /\ 0 <= k <= 100.
Proof.
  intros Math_sqrt holders tx tok ph.
  unfold ThreeLayer.computeStructuralSignals. cbn [structuralScore].
  destruct (overallQualityScore_finite holders) as (q & ->).
  destruct (lp_healthScore_of_Z tok) as (k1 & -> & _).
  destruct (exhaustionScore_range Math_sqrt tx ph) as (k2 & -> & _).
  destruct (detect_rotation_weights tx (WalletQualityAnalyzer.analyze holders) tok)
    as (k3 & _ & ->).
  match goal with
  | |- context [of_Z (k3 + ?a + ?b + ?c)] => generalize (k3 + a + b + c)
  end.
  intros k4.
  change (of_Z k1) with (Fin (inject_Z k1)).
  change (of_Z k2) with (Fin (inject_Z k2)).
  change (of_Z k4) with (Fin (inject_Z k4)).
  change (of_Z 50) with (Fin (inject_Z 50)).
  cbn [ThreeLayer.nanTo isNaN n_mul n_add n_sub n_neg].
  rewrite clamp_round_Fin. eexists. split; [reflexivity | lia].
Qed.

(** ** Microstructure score *)

Lemma clamp_round_any (lo hi : Z) (y : num) :
  lo <= hi ->
  Math_max (of_Z lo) (Math_min (of_Z hi) (Math_round y)) = NaN
  \/ exists k : Z,
      Math_max (of_Z lo) (Math_min (of_Z hi) (Math_round y)) = of_Z k
      /\ lo <= k <= hi.
Proof.
  intros Hle. destruct y as [| | | q].
  - left. reflexivity.
  - right. exists hi. split; [| lia].
    change (Math_min (of_Z hi) (Math_round PInf)) with (of_Z hi).
    rewrite of_Z_max. f_equal. lia.
  - right. exists lo. split; [reflexivity | lia].
  - right. rewrite clamp_round_Fin. eexists. split; [reflexivity | lia].
Qed.

Lemma botActivity_cases (x : num) :
  Math_min (of_Z 100) (Math_round (Math_max (of_Z 0) x)) = NaN
  \/ exists b : Z,
      Math_min (of_Z 100) (Math_round (Math_max (of_Z 0) x)) = of_Z b
      /\ 0 <= b <= 100.
Proof.
  destruct x as [| | | q].
  - left. reflexivity.
  - right. exists 100. split; [reflexivity | lia].
  - right. exists 0. split; [reflexivity | lia].
  - right.
    assert (E : exists q', Math_max (of_Z 0) (Fin q) = Fin q' /\ (0 <= q')%Q).
    { unfold Math_max, of_Z, n_lt. change (inject_Z 0) with 0%Q.
      destruct (Qltb_spec 0 q); eexists; (split; [reflexivity | lra]). }
    destruct E as (q' & -> & Hq). unfold Math_round. rewrite of_Z_min.
    eexists. split; [reflexivity |].
    assert (0 <= Qfloor (q' + (1 # 2))).
    { apply Qfloor_lower. change (inject_Z 0) with 0%Q. lra. }
    lia.
Qed.

(** The deduction for bot activity is an integer. *)
Lemma botPenalty_of_Z (b : Z) :
  exists d : Z,
    Math_round (n_mul (n_div (of_Z b) (of_Z 100)) (of_Z 20)) = of_Z d.
Proof.
  rewrite n_div_of_Z by lia. unfold of_Z at 1. cbn [n_mul Math_round].
  eexists. reflexivity.
Qed.

Lemma n_add_NaN_r (a : num) : n_add a NaN = NaN.
Proof. destruct a; reflexivity. Qed.

Lemma n_sub_NaN_r (a : num) : n_sub a NaN = NaN.
Proof. destruct a; reflexivity. Qed.

Lemma n_mul_NaN_l (a : num) : n_mul NaN a = NaN.
Proof. reflexivity. Qed.

(** X27.  The microstructure score is either NaN or an integer between 0
    and 100, for every price series, flow analysis and square-root
    function. *)
Theorem microScore_range :
  forall (Math_sqrt : num -> num) (prices : list PricePoint)
         (tx : TransactionAnalysis) (tok : option TokenInfo),
    microScore (ThreeLayer.computeMicrostructureSignals Math_sqrt prices tx tok) = NaN
    \/ exists k : Z,
        microScore (ThreeLayer.computeMicrostructureSignals Math_sqrt prices tx tok)
        = of_Z k
        /\ 0 <= k <= 100.
Proof.
  intros Math_sqrt prices tx tok.
  unfold ThreeLayer.computeMicrostructureSignals.
  repeat match goal with
         | |- context [let '(_, _) := (if ?b then _ else _) in _] => destruct b
         end;
    cbn [microScore];
    change (Math_round (n_mul (of_Z 0) (of_Z 100))) with (of_Z 0);
    change (Math_max (of_Z (-10)) (Math_min (of_Z 10) (of_Z 0))) with (of_Z 0);
    (match goal with
     | |- context [Math_max (of_Z (-20)) (Math_min (of_Z 20) (Math_round ?y))] =>
         destruct (clamp_round_any (-20) 20 y ltac:(lia)) as [-> | (a & -> & Ha)]
     end;
     [left; rewrite !n_add_NaN_r; reflexivity |]);
    (match goal with
     | |- context [Math_max (of_Z (-15)) (Math_min (of_Z 15) (Math_round ?y))] =>
         destruct (clamp_round_any (-15) 15 y ltac:(lia)) as [-> | (b & -> & Hb)]
     end;
     [left; rewrite !n_add_NaN_r; reflexivity |]);
    (match goal with
     | |- context [Math_min (of_Z 100) (Math_round (Math_max (of_Z 0) ?x))] =>
         destruct (botActivity_cases x) as [-> | (c & -> & Hc)]
     end;
     [left; cbn [n_div n_mul Math_round]; rewrite !n_sub_NaN_r; reflexivity |]);
    destruct (botPenalty_of_Z c) as (d & ->);
    rewrite ?of_Z_add, ?of_Z_sub, ?of_Z_add, of_Z_round, of_Z_min, of_Z_max;
    right; eexists; (split; [reflexivity | lia]).
Qed.

(** ** Entry zone and expected depth *)

(** X28.  At a price between 10^-300 and 10^300, a range in which the
    products of doubles neither underflow nor overflow, the entry zone of
    every outcome is ordered, min < optimal < max, and its optimal entry
    lies below the current price. *)
Theorem entryZone_ordered :
  forall (p : Q) (micro : MicrostructureSignals) (structural : StructuralSignals),
    (1e-300 <= p <= 1e300)%Q ->
    let z := entryZone (ThreeLayer.predictOutcome (Fin p) micro structural) in
    n_lt (zone_min z) (zone_optimal z) = true
    /\ n_lt (zone_optimal z) (zone_max z) = true
    /\ n_lt (zone_optimal z) (Fin p) = true.
Proof.
  intros p micro structural Hrange.
  assert (Hp : (0 < p)%Q).
  { apply Qlt_le_trans with (y := 1e-300%Q); [reflexivity | apply Hrange]. }
  clear Hrange.
  predict_branches; cbn [entryZone ThreeLayer.scaleZone zone_min zone_max
                         zone_optimal n_mul n_lt];
    repeat split; q_cases; try reflexivity; exfalso; lra.
Qed.

Lemma entryZone_ordered_witness :
  n_lt (zone_optimal
          (entryZone
             (ThreeLayer.predictOutcome (Fin 2) (Samples.microWith (of_Z 70) (of_Z 0))
                (Samples.structuralWith (of_Z 70) false (of_Z 0)))))
       (Fin 2) = true.
Proof.
  apply (entryZone_ordered 2 (Samples.microWith (of_Z 70) (of_Z 0))
           (Samples.structuralWith (of_Z 70) false (of_Z 0))).
  split; vm_compute; discriminate.
Defined.

Lemma trapDepth_range (r : num) :
  let x :=
    n_add (of_Z 20)
      (Math_min (of_Z 40) (n_div (ThreeLayer.nanTo (of_Z 50) r) (of_Z 2))) in
  exists q : Q,
    (if isNaN x then of_Z 0 else Math_max (of_Z 0) (Math_min (of_Z 100) x)) = Fin q
    /\ (0 <= q <= 60)%Q.
Proof.
  destruct r as [| | | y]; cbv zeta.
  - eexists. split; [vm_compute; reflexivity |]. split; vm_compute; discriminate.
  - exists 60%Q. split; [reflexivity | lra].
  - exists 0%Q. split; [reflexivity | lra].
  - change (n_div (ThreeLayer.nanTo (of_Z 50) (Fin y)) (of_Z 2))
      with (Fin (y / inject_Z 2)).
    change (inject_Z 2) with 2%Q.
    unfold Math_min, Math_max, n_lt, of_Z.
    change (inject_Z 40) with 40%Q. change (inject_Z 20) with 20%Q.
    change (inject_Z 100) with 100%Q. change (inject_Z 0) with 0%Q.
    destruct (Qltb_spec (y / 2) 40); cbn [n_add isNaN];
      repeat match goal with
        | |- context [Qltb ?a ?b] => destruct (Qltb_spec a b)
        end;
      eexists; (split; [reflexivity |]); lra.
Qed.

Lemma opportunityDepth_range (v : num) :
  let x :=
    n_add (of_Z 3)
      (Math_max (of_Z 0)
         (n_sub (of_Z 10) (Math_round (n_mul (n_or v (of_Z 0)) (of_Z 100))))) in
  exists k : Z,
    (if isNaN x then of_Z 0 else Math_max (of_Z 0) (Math_min (of_Z 100) x)) = of_Z k
    /\ 3 <= k <= 100.
Proof.
  assert (Hfin : forall y : Q,
    exists k : Z,
      (if isNaN (n_add (of_Z 3)
                   (Math_max (of_Z 0)
                      (n_sub (of_Z 10) (Math_round (n_mul (Fin y) (of_Z 100))))))
       then of_Z 0
       else Math_max (of_Z 0)
              (Math_min (of_Z 100)
                 (n_add (of_Z 3)
                    (Math_max (of_Z 0)
                       (n_sub (of_Z 10)
                          (Math_round (n_mul (Fin y) (of_Z 100)))))))) = of_Z k
      /\ 3 <= k <= 100).
  { intros y.
    assert (E : Math_round (n_mul (Fin y) (of_Z 100))
                = of_Z (Qfloor (y * inject_Z 100 + (1 # 2)))) by reflexivity.
    rewrite E, of_Z_sub, of_Z_max, of_Z_add, of_Z_not_NaN, of_Z_min, of_Z_max.
    eexists. split; [reflexivity | lia]. }
  destruct v as [| | | y]; cbv zeta.
  - exists 13. split; [reflexivity | lia].
  - exists 3. split; [reflexivity | lia].
  - exists 100. split; [reflexivity | lia].
  - unfold n_or. destruct (truthy (Fin y)); [apply Hfin |].
    apply (Hfin 0%Q).
Qed.

(** X29.  The expected dip depth of every outcome is a finite number
    between 0 and 100: at least 3 for an Opportunity, at most 60 for a
    Trap and exactly 8 for Wait. *)
Theorem expectedDipDepth_range :
  forall (cp : num) (micro : MicrostructureSignals) (structural : StructuralSignals),
    let o := ThreeLayer.predictOutcome cp micro structural in
    exists q : Q,
      expectedDipDepthPct o = Fin q
      /\ (0 <= q <= 100)%Q
      /\ (isDipOpportunity o = true -> (3 <= q)%Q)
      /\ (isDipTrap o = true -> (q <= 60)%Q)
      /\ (isDipOpportunity o = false -> isDipTrap o = false -> (q == 8)%Q).
Proof.
  intros cp micro structural.
  predict_branches; cbn [expectedDipDepthPct isDipOpportunity isDipTrap].
  - destruct (trapDepth_range (riskScore (jeeterFlags structural)))
      as (q & E & Hq).
    exists q. split; [exact E |]. repeat split; try lra; discriminate.
  - destruct (opportunityDepth_range (volatilityStdDevRecent micro))
      as (k & E & Hk).
    exists (inject_Z k). split; [exact E |].
    assert (inject_Z 3 <= inject_Z k <= inject_Z 100)%Q
      by (split; rewrite <- Zle_Qle; lia).
    change (inject_Z 3) with 3%Q in *. change (inject_Z 100) with 100%Q in *.
    repeat split; try lra; discriminate.
  - exists 8%Q. split; [reflexivity |]. repeat split; try lra; try discriminate.
  - exists 8%Q. split; [reflexivity |]. repeat split; try lra; try discriminate.
  - exists 12%Q. split; [reflexivity |]. repeat split; try lra; try discriminate.
Qed.
